(** * buoycam-fetcher: a shallow embedding of [buoycam_fetcher.py]

    The Python program fetches NOAA buoy-camera images and observation
    tables.  This development embeds its functions as Rocq functions and
    states the properties of the ingestion pipeline over them.

    Conventions of the embedding:
    - a Python [str] is a Rocq [string], a sequence of characters with
      code points 0..255;
    - a [dict] with string keys is a [gmap string _];
    - a call that may raise returns a [Res]: [Ok v] or [Raise e];
    - Python [int] is [Z], Python [float] is the kernel's binary64 [float];
    - a [datetime] (minute resolution, UTC) is its number of minutes since
      0001-01-01T00:00, the value Python's datetime arithmetic works on. *)

From Stdlib Require Import ZArith String Ascii List.
From Stdlib Require Import Floats.PrimFloat Floats.SpecFloat Floats.FloatOps.
From stdpp Require Import base option list gmap strings.

Local Open Scope string_scope.
Local Open Scope Z_scope.

(** Decimal float literals denote the nearest binary64 value, as they do
    in Python. *)
Local Set Warnings "-inexact-float,-clear-no-such-hyp".

(** ** Results of calls that may raise *)

Inductive exn : Set :=
  | ValueError
  | KeyError
  | IndexError
  | OverflowError
  | ZeroDivisionError
  | AssertionError
  | AttributeError
  | ConnectionError
  | UnidentifiedImageError.

Inductive Res (A : Type) : Type :=
  | Ok (a : A)
  | Raise (e : exn).
Arguments Ok {A} a.
Arguments Raise {A} e.

Global Instance Res_ret : MRet Res := fun A a => Ok a.
Global Instance Res_bind : MBind Res := fun A B f r =>
  match r with
  | Ok a => f a
  | Raise e => Raise e
  end.

(** ** Python strings *)

Module Str.

Definition code (c : ascii) : Z := Z.of_N (N_of_ascii c).

(** [str.isspace] on one character (code points below 256). *)
Definition isspace (c : ascii) : bool :=
  let n := code c in
  ((9 <=? n) && (n <=? 13)) || ((28 <=? n) && (n <=? 32))
  || (n =? 133) || (n =? 160).

(** The characters [int()] and [float()] strip from both ends. *)
Definition is_strip_space (c : ascii) : bool :=
  let n := code c in
  ((9 <=? n) && (n <=? 13)) || (n =? 32) || (n =? 133) || (n =? 160).

Definition is_digit (c : ascii) : bool :=
  let n := code c in (48 <=? n) && (n <=? 57).

Definition digit_val (c : ascii) : Z := code c - 48.

Definition len (s : string) : Z := Z.of_nat (String.length s).

(** A slice bound [i] of a sequence of length [n], as Python clamps it. *)
Definition clamp (n i : Z) : Z :=
  if i <? 0 then Z.max (i + n) 0 else Z.min i n.

(** [s[lo:hi]]; [None] is an omitted bound. *)
Definition slice (s : string) (lo hi : option Z) : string :=
  let n := len s in
  let a := match lo with Some i => clamp n i | None => 0 end in
  let b := match hi with Some i => clamp n i | None => n end in
  substring (Z.to_nat a) (Z.to_nat (b - a)) s.

(** [s.find(sub)]: the lowest index where [sub] occurs, or -1. *)
Fixpoint find_from (sub s : string) (i : Z) : Z :=
  if String.prefix sub s then i
  else match s with
       | EmptyString => -1
       | String _ s' => find_from sub s' (i + 1)
       end.
Definition find (s sub : string) : Z := find_from sub s 0.

(** [s.split(sep)] for a one-character separator. *)
Fixpoint split_char (sep : ascii) (s : string) : list string :=
  match s with
  | EmptyString => [EmptyString]
  | String c s' =>
      if Ascii.eqb c sep then EmptyString :: split_char sep s'
      else match split_char sep s' with
           | x :: xs => String c x :: xs
           | [] => [String c EmptyString]
           end
  end.

(** [s.split()]: maximal runs of non-whitespace characters. *)
Fixpoint split_go (cur : string) (s : string) : list string :=
  match s with
  | EmptyString => if String.eqb cur "" then [] else [cur]
  | String c s' =>
      if isspace c
      then (if String.eqb cur "" then split_go "" s'
            else cur :: split_go "" s')
      else split_go (cur +:+ String c "") s'
  end.
Definition split (s : string) : list string := split_go "" s.

(** Both ends stripped, as [int()] and [float()] do before parsing. *)
Fixpoint lstrip (l : list ascii) : list ascii :=
  match l with
  | c :: l' => if is_strip_space c then lstrip l' else l
  | [] => []
  end.
Definition strip (l : list ascii) : list ascii :=
  rev (lstrip (rev (lstrip l))).

(** digitpart ::= digit (["_"] digit)*, read greedily; the digits read
    (underscores dropped) and the rest. *)
Fixpoint digit_tail (l : list ascii) : list ascii * list ascii :=
  match l with
  | c :: l' =>
      if is_digit c then let '(ds, r) := digit_tail l' in (c :: ds, r)
      else if Ascii.eqb c "_" then
        match l' with
        | d :: l'' =>
            if is_digit d
            then let '(ds, r) := digit_tail l'' in (d :: ds, r)
            else ([], l)
        | [] => ([], l)
        end
      else ([], l)
  | [] => ([], [])
  end.
Definition digitpart (l : list ascii) : option (list ascii * list ascii) :=
  match l with
  | c :: l' =>
      if is_digit c
      then let '(ds, r) := digit_tail l' in Some (c :: ds, r)
      else None
  | [] => None
  end.

Definition digits_val (ds : list ascii) : Z :=
  fold_left (fun acc c => 10 * acc + digit_val c) ds 0.

(** An optional sign: [true] for "-". *)
Definition sign (l : list ascii) : bool * list ascii :=
  match l with
  | c :: l' =>
      if Ascii.eqb c "-" then (true, l')
      else if Ascii.eqb c "+" then (false, l')
      else (false, l)
  | [] => (false, [])
  end.

(** [int(s)] in base 10. *)
Definition int (s : string) : Res Z :=
  let '(neg, l) := sign (strip (list_ascii_of_string s)) in
  match digitpart l with
  | Some (ds, []) => Ok (if neg then - digits_val ds else digits_val ds)
  | _ => Raise ValueError
  end.

(** [str(n)] for an [int]. *)
Definition digit_char (d : Z) : ascii := ascii_of_N (Z.to_N (48 + d)).
Fixpoint pos_digits (fuel : nat) (n : Z) (acc : string) : string :=
  match fuel with
  | O => acc
  | S fuel' =>
      let acc' := String (digit_char (n mod 10)) acc in
      if n <? 10 then acc' else pos_digits fuel' (n / 10) acc'
  end.
Definition of_nonneg (n : Z) : string :=
  pos_digits (S (Z.to_nat (Z.log2 n))) n "".
Definition of_int (n : Z) : string :=
  if n <? 0 then "-" +:+ of_nonneg (- n) else of_nonneg n.

(** ["%02d" % n] for [0 <= n]. *)
Definition pad2 (n : Z) : string :=
  if n <? 10 then "0" +:+ of_nonneg n else of_nonneg n.

End Str.

(** ** Python floats *)

Module PyFloat.

(** The binary64 nearest to [(-1)^neg * m * 10^e] (ties to even), which is
    what [float()] returns for a decimal literal with digits [m] and
    decimal exponent [e]. *)
Definition of_decimal (neg : bool) (m e : Z) : float :=
  match m with
  | Zpos p =>
      if 0 <=? e
      then SF2Prim (binary_normalize prec emax
                      (if neg then - (m * 10 ^ e) else m * 10 ^ e) 0 false)
      else SF2Prim (SFdiv prec emax (S754_finite neg p 0)
                      (S754_finite false (Z.to_pos (10 ^ (- e))) 0))
  | _ => if neg then (-0)%float else 0%float
  end.

(** [a / b] on two [int]s: the correctly rounded quotient; a quotient too
    large for a float raises. *)
Definition truediv (a b : Z) : Res float :=
  match a, b with
  | _, Z0 => Raise ZeroDivisionError
  | Z0, _ => Ok (if b <? 0 then (-0)%float else 0%float)
  | _, _ =>
      match SFdiv prec emax
              (S754_finite (a <? 0) (Z.to_pos (Z.abs a)) 0)
              (S754_finite (b <? 0) (Z.to_pos (Z.abs b)) 0) with
      | S754_infinity _ => Raise OverflowError
      | q => Ok (SF2Prim q)
      end
  end.

Definition lower (c : ascii) : ascii :=
  let n := Str.code c in
  if (65 <=? n) && (n <=? 90) then ascii_of_N (Z.to_N (n + 32)) else c.

(** exponent ::= ("e" | "E") [sign] digitpart; [None] when an "e" is
    there and no exponent follows it. *)
Definition exponent (l : list ascii) : option (Z * list ascii) :=
  match l with
  | c :: l' =>
      if Ascii.eqb (lower c) "e" then
        let '(neg, l'') := Str.sign l' in
        match Str.digitpart l'' with
        | Some (ds, r) =>
            Some (if neg then - Str.digits_val ds else Str.digits_val ds, r)
        | None => None
        end
      else Some (0, l)
  | [] => Some (0, [])
  end.

(** number ::= [digitpart] "." digitpart | digitpart ["."]; the digits
    before and after the point, and the rest. *)
Definition number (l : list ascii)
  : option (list ascii * list ascii * list ascii) :=
  match Str.digitpart l with
  | Some (ip, r) =>
      match r with
      | c :: r' =>
          if Ascii.eqb c "."
          then match Str.digitpart r' with
               | Some (fp, r'') => Some (ip, fp, r'')
               | None => Some (ip, [], r')
               end
          else Some (ip, [], r)
      | [] => Some (ip, [], [])
      end
  | None =>
      match l with
      | c :: r' =>
          if Ascii.eqb c "."
          then match Str.digitpart r' with
               | Some (fp, r'') => Some ([], fp, r'')
               | None => None
               end
          else None
      | [] => None
      end
  end.

(** [float(s)] for a string. *)
Definition parse (s : string) : Res float :=
  let '(neg, l) := Str.sign (Str.strip (list_ascii_of_string s)) in
  let word := string_of_list_ascii (map lower l) in
  if String.eqb word "inf" || String.eqb word "infinity"
  then Ok (if neg then neg_infinity else infinity)
  else if String.eqb word "nan" then Ok nan
  else
    match number l with
    | Some (ip, fp, r) =>
        match exponent r with
        | Some (e, []) =>
            Ok (of_decimal neg (Str.digits_val (ip ++ fp))
                  (e - Z.of_nat (length fp)))
        | _ => Raise ValueError
        end
    | None => Raise ValueError
    end.

(** *** [repr] of a float: the shortest decimal string that reads back
    as the same float. *)

(** The least [k] with [n < d * 10^k], for positive [n] and [d]. *)
Fixpoint dec_exp_up (fuel : nat) (n d k : Z) : Z :=
  match fuel with
  | O => k
  | S fuel' =>
      if (if 0 <=? k then n <? d * 10 ^ k else n * 10 ^ (- k) <? d)
      then k else dec_exp_up fuel' n d (k + 1)
  end.
Definition dec_exp (n d : Z) : Z :=
  dec_exp_up 8 n d (((Z.log2 n - Z.log2 d) * 1233) / 4096 - 2).

(** The [digits]-digit decimals just below and above [n / d], scaled by
    [10^(k - digits)], and which of them is nearer. *)
Definition candidates (n d k digits : Z) : Z * Z * comparison :=
  let s := k - digits in
  let num := if 0 <=? s then n else n * 10 ^ (- s) in
  let den := if 0 <=? s then d * 10 ^ s else d in
  let lo := num / den in
  (lo, if num mod den =? 0 then lo else lo + 1, (2 * (num mod den)) ?= den).

Fixpoint shortest (fuel : nat) (x : float) (n d k digits : Z) : Z * Z :=
  match fuel with
  | O => (0, 0)
  | S fuel' =>
      let '(lo, hi, side) := candidates n d k digits in
      let s := k - digits in
      let ok_lo := PrimFloat.eqb (of_decimal false lo s) x in
      let ok_hi := PrimFloat.eqb (of_decimal false hi s) x in
      if ok_lo && ok_hi then
        (match side with
         | Lt => lo
         | Gt => hi
         | Eq => if Z.even lo then lo else hi
         end, s)
      else if ok_lo then (lo, s)
      else if ok_hi then (hi, s)
      else shortest fuel' x n d k (digits + 1)
  end.

Fixpoint strip_zeros (fuel : nat) (c e : Z) : Z * Z :=
  match fuel with
  | O => (c, e)
  | S fuel' =>
      if (c mod 10 =? 0) && negb (c =? 0)
      then strip_zeros fuel' (c / 10) (e + 1) else (c, e)
  end.

Fixpoint zeros (n : nat) : string :=
  match n with O => "" | S n' => "0" +:+ zeros n' end.

(** The digit string [ds] with the decimal point after its first [decpt]
    digits, as [repr] lays it out. *)
Definition layout (ds : string) (decpt : Z) : string :=
  let nd := Str.len ds in
  if (decpt <=? -4) || (16 <? decpt) then
    let e := decpt - 1 in
    let mant := if nd =? 1 then ds
                else Str.slice ds None (Some 1) +:+ "." +:+ Str.slice ds (Some 1) None in
    mant +:+ "e" +:+ (if e <? 0 then "-" else "+") +:+ Str.pad2 (Z.abs e)
  else if decpt <=? 0 then "0." +:+ zeros (Z.to_nat (- decpt)) +:+ ds
  else if nd <=? decpt then ds +:+ zeros (Z.to_nat (decpt - nd)) +:+ ".0"
  else Str.slice ds None (Some decpt) +:+ "." +:+ Str.slice ds (Some decpt) None.

Definition repr (x : float) : string :=
  match Prim2SF x with
  | S754_nan => "nan"
  | S754_infinity s => if s then "-inf" else "inf"
  | S754_zero s => if s then "-0.0" else "0.0"
  | S754_finite s m e =>
      let n := if 0 <=? e then Zpos m * 2 ^ e else Zpos m in
      let d := if 0 <=? e then 1 else 2 ^ (- e) in
      let k := dec_exp n d in
      let '(c, sc) := shortest 17 (abs x) n d k 1 in
      let '(c', sc') := strip_zeros 20 c sc in
      let ds := Str.of_nonneg c' in
      (if s then "-" else "") +:+ layout ds (Str.len ds + sc')
  end.

End PyFloat.

(** ** Python [datetime]

    A [datetime] with minute resolution is the number of minutes between
    0001-01-01T00:00 and it.  The constructor checks its fields and
    converts through the proleptic Gregorian ordinal, subtraction of a
    [timedelta] checks the range of the result, and [strftime] converts
    back; the calendar functions follow CPython's [datetime] module. *)

Module datetime.

Definition MINYEAR : Z := 1.
Definition MAXYEAR : Z := 9999.
Definition MAXORDINAL : Z := 3652059.

Definition DAYS_IN_MONTH : list Z :=
  [-1; 31; 28; 31; 30; 31; 30; 31; 31; 30; 31; 30; 31].
Definition DAYS_BEFORE_MONTH : list Z :=
  [-1; 0; 31; 59; 90; 120; 151; 181; 212; 243; 273; 304; 334].
Definition at_index (l : list Z) (i : Z) : Z := nth (Z.to_nat i) l 0.

Definition is_leap (year : Z) : bool :=
  (year mod 4 =? 0) && (negb (year mod 100 =? 0) || (year mod 400 =? 0)).

Definition days_before_year (year : Z) : Z :=
  let y := year - 1 in y * 365 + y / 4 - y / 100 + y / 400.

Definition days_in_month (year month : Z) : Z :=
  if (month =? 2) && is_leap year then 29 else at_index DAYS_IN_MONTH month.

Definition days_before_month (year month : Z) : Z :=
  at_index DAYS_BEFORE_MONTH month
  + (if (2 <? month) && is_leap year then 1 else 0).

Definition ymd2ord (year month day : Z) : Z :=
  days_before_year year + days_before_month year month + day.

Definition DI400Y : Z := 146097.
Definition DI100Y : Z := 36524.
Definition DI4Y : Z := 1461.

Definition ord2ymd (ordinal : Z) : Z * Z * Z :=
  let n := ordinal - 1 in
  let n400 := n / DI400Y in
  let n := n mod DI400Y in
  let year := n400 * 400 + 1 in
  let n100 := n / DI100Y in
  let n := n mod DI100Y in
  let n4 := n / DI4Y in
  let n := n mod DI4Y in
  let n1 := n / 365 in
  let n := n mod 365 in
  let year := year + n100 * 100 + n4 * 4 + n1 in
  if (n1 =? 4) || (n100 =? 4) then (year - 1, 12, 31)
  else
    let leapyear := (n1 =? 3) && (negb (n4 =? 24) || (n100 =? 3)) in
    let month := Z.shiftr (n + 50) 5 in
    let preceding :=
      at_index DAYS_BEFORE_MONTH month
      + (if (2 <? month) && leapyear then 1 else 0) in
    if n <? preceding then
      let month := month - 1 in
      let preceding :=
        preceding - (at_index DAYS_IN_MONTH month
                     + (if (month =? 2) && leapyear then 1 else 0)) in
      (year, month, n - preceding + 1)
    else (year, month, n - preceding + 1).

(** A point in time, in minutes since 0001-01-01T00:00. *)
Definition t : Type := Z.

(** The least value after the last representable minute. *)
Definition END : Z := MAXORDINAL * 1440.

(** [datetime(year, month, day, hour, minute, tzinfo=utc)] *)
Definition make (year month day hour minute : Z) : Res t :=
  if (MINYEAR <=? year) && (year <=? MAXYEAR)
     && (1 <=? month) && (month <=? 12)
     && (1 <=? day) && (day <=? days_in_month year month)
     && (0 <=? hour) && (hour <=? 23)
     && (0 <=? minute) && (minute <=? 59)
  then Ok ((ymd2ord year month day - 1) * 1440 + hour * 60 + minute)
  else Raise ValueError.

(** [timedelta(minutes=m)], as the number of minutes. *)
Definition timedelta_minutes (m : Z) : Res Z :=
  if 999999999 <? Z.abs (m / 1440) then Raise OverflowError else Ok m.

(** [d - delta] for a [timedelta] of [delta] minutes. *)
Definition sub (d : t) (delta : Z) : Res t :=
  let r := d - delta in
  if (0 <=? r) && (r <? END) then Ok r else Raise OverflowError.

Definition year (d : t) : Z := fst (fst (ord2ymd (d / 1440 + 1))).
Definition month (d : t) : Z := snd (fst (ord2ymd (d / 1440 + 1))).
Definition day (d : t) : Z := snd (ord2ymd (d / 1440 + 1)).
Definition hour (d : t) : Z := (d mod 1440) / 60.
Definition minute (d : t) : Z := d mod 60.

(** [d.strftime("%Y_%m_%d_%H%M")]; the year is printed without padding,
    as the C library does (four digits from year 1000 on). *)
Definition strftime (d : t) : string :=
  Str.of_nonneg (year d) +:+ "_" +:+ Str.pad2 (month d) +:+ "_"
  +:+ Str.pad2 (day d) +:+ "_" +:+ Str.pad2 (hour d) +:+ Str.pad2 (minute d).

End datetime.

(** ** The program *)

Definition BUOYCAM_IMAGE_FILE_URL_BASE : string :=
  "https://www.ndbc.noaa.gov/images/buoycam/".
Definition OBSERVATION_URL : string :=
  "https://www.ndbc.noaa.gov/data/realtime2".
Definition BUOYCAM_IMAGE_ROW_LENGTH : Z := 6.
Definition IMAGE_WIDTH : Z := 2880.
Definition IMAGE_HEIGHT : Z := 300.
Definition SUB_IMAGE_WIDTH : Z := 480.
Definition SUB_IMAGE_HEIGHT : Z := 270.
Definition FRACTION_BLACK_THRESHOLD : float := 0.85%float.
Definition MISSING_DATA_INDICATOR : string := "MM".

(** *** class BuoyImageRequest *)

Module BuoyImageRequest.

Record t : Type := mk {
  id : string;
  tag : string;
  description : option string;
  date : datetime.t;
  output_root_dir : string;
}.

Definition date_string (self : t) : string := datetime.strftime (date self).

Definition image_name (self : t) : string :=
  tag self +:+ "_" +:+ date_string self.

Definition image_filename (self : t) : string := image_name self +:+ ".jpg".

Definition url (self : t) : string :=
  BUOYCAM_IMAGE_FILE_URL_BASE +:+ image_filename self.

Definition save_directory (self : t) : string :=
  output_root_dir self +:+ "/" +:+ id self +:+ "/" +:+ date_string self.

Definition save_image_full_path (self : t) (postfix : string) : string :=
  save_directory self +:+ "/" +:+ image_name self
  +:+ (if String.eqb postfix "" then "" else "_" +:+ postfix) +:+ ".jpg".

End BuoyImageRequest.

(** *** Request generation *)

Definition extract_date_string (filename : string) : option string :=
  let start_index := Str.find filename "_" + 1 in
  if start_index =? -1 then None
  else
    let end_index := Str.find filename ".jpg" in
    if end_index =? -1 then None
    else Some (Str.slice filename (Some start_index) (Some end_index)).

Definition date_string_to_date (date_string : string)
  : Res (option datetime.t) :=
  if negb (Str.len date_string =? 15) then Ok None
  else
    year ← Str.int (Str.slice date_string None (Some 4));
    month ← Str.int (Str.slice date_string (Some 5) (Some 7));
    day ← Str.int (Str.slice date_string (Some 8) (Some 10));
    hour ← Str.int (Str.slice date_string (Some 11) (Some 13));
    minute ← Str.int (Str.slice date_string (Some 13) (Some 15));
    d ← datetime.make year month day hour minute;
    Ok (Some d).

(** [[latest - timedelta(minutes=10 * i) for i in range(n)]] *)
Definition image_dates (latest_img_date : datetime.t) (n : Z)
  : Res (list datetime.t) :=
  mapM (fun i => delta ← datetime.timedelta_minutes (10 * i);
                 datetime.sub latest_img_date delta)
       (seqZ 0 n).

(** One entry of the directory listing: a JSON object; the fields the
    program reads from it ("id", "name", "img") hold a string or null
    ([None]). *)
Abbreviation listing_entry := (gmap string (option string)).

(** The body of the loop of [generate_requests] for one entry: the
    requests it adds ([[]] where the body ends in [continue]). *)
Definition requests_of_entry (buoy_cam : listing_entry)
    (output_dir : string) (hours_in_past : Z)
  : Res (list BuoyImageRequest.t) :=
  match buoy_cam !! "id", buoy_cam !! "name", buoy_cam !! "img" with
  | Some id, Some name, Some img =>
      match id with
      | None => Ok []
      | Some station_id =>
          match img with
          | None => Ok []
          | Some img_filename =>
              let station_tag := hd "" (Str.split_char "_" img_filename) in
              match extract_date_string img_filename with
              | None => Ok []
              | Some img_datetime_string =>
                  latest ← date_string_to_date img_datetime_string;
                  match latest with
                  | None => Ok []
                  | Some latest_img_date =>
                      dates ← image_dates latest_img_date (hours_in_past * 6);
                      Ok (map (fun date =>
                                 BuoyImageRequest.mk station_id station_tag
                                   name date output_dir)
                              dates)
                  end
              end
          end
      end
  | _, _, _ => Ok []
  end.

Fixpoint generate_requests_loop (buoy_cam_list : list listing_entry)
    (output_dir : string) (hours_in_past : Z)
    (image_requests : list BuoyImageRequest.t)
  : Res (list BuoyImageRequest.t) :=
  match buoy_cam_list with
  | [] => Ok image_requests
  | buoy_cam :: rest =>
      new ← requests_of_entry buoy_cam output_dir hours_in_past;
      generate_requests_loop rest output_dir hours_in_past
        (image_requests ++ new)
  end.

Definition generate_requests (buoy_cam_list : list listing_entry)
    (output_dir : string) (hours_in_past : Z)
  : Res (list BuoyImageRequest.t) :=
  generate_requests_loop buoy_cam_list output_dir hours_in_past [].

(** *** The table parser *)

Record Response : Type := {
  status_code : Z;
  text : string;      (* the body as text *)
  content : string;   (* the body as bytes *)
}.

(** [for i, h in enumerate(header): entry[h] = values[i]], from index [i]. *)
Fixpoint fill_entry (header values : list string) (i : nat)
    (entry : gmap string string) : Res (gmap string string) :=
  match header with
  | [] => Ok entry
  | h :: header' =>
      match values !! i with
      | Some v => fill_entry header' values (S i) (<[h := v]> entry)
      | None => Raise IndexError
      end
  end.

(** The loop over the data rows, [result] being the list built so far. *)
Fixpoint table_rows (header : list string) (rows : list string)
    (result : list (gmap string string)) : Res (list (gmap string string)) :=
  match rows with
  | [] => Ok result
  | row :: rows' =>
      let values := Str.split row in
      if (length values =? 0)%nat then table_rows header rows' result
      else
        entry ← fill_entry header values 0 ∅;
        table_rows header rows' (result ++ [entry])
  end.

(** [extract_table_data], from the response of its [requests.get] on;
    [Ok None] is the Python [None] it returns on a bad status. *)
Definition extract_table_data (response : Response)
  : Res (option (list (gmap string string))) :=
  if negb (status_code response =? 200) then Ok None
  else
    let lines := Str.split_char "010" (text response) in
    if (length lines <? 3)%nat then Raise ValueError
    else
      let header := Str.split (Str.slice (hd "" lines) (Some 1) None) in
      let rows := drop 2 lines in
      result ← table_rows header rows [];
      Ok (Some result).

Definition mps_to_kts (mps : float) : float := (mps * 1.94384)%float.

Definition nmi_to_m (nmi : float) : float := (nmi * 1852)%float.

Definition get_float (row : gmap string string) (key : string)
    (convert_func : option (float -> float)) : Res (option float) :=
  match row !! key with
  | None => Ok None
  | Some raw =>
      if String.eqb raw MISSING_DATA_INDICATOR then Ok None
      else
        x ← PyFloat.parse raw;
        match convert_func with
        | None => Ok (Some x)
        | Some f => Ok (Some (f x))
        end
  end.

(** *** class Observation *)

Module Observation.

Record t : Type := mk {
  timestamp : string;
  wind_speed_kts : option float;
  wind_direction_deg : option float;
  gust_speed_kts : option float;
  wave_height_m : option float;
  dominant_wave_period_s : option float;
  average_wave_period_s : option float;
  mean_wave_direction_deg : option float;
  atmospheric_pressure_hpa : option float;
  air_temperature_c : option float;
  water_temperature_c : option float;
  dewpoint_temperature_c : option float;
  visibility_m : option float;
  pressure_tendency_hpa : option float;
  tide_m : option float;
}.

End Observation.

(** How an f-string renders a value: [str(x)]. *)
Class Render (A : Type) : Type := render : A -> string.
Global Instance render_str : Render string := fun s => s.
Global Instance render_int : Render Z := Str.of_int.
Global Instance render_float : Render float := PyFloat.repr.
Global Instance render_option {A} `{Render A} : Render (option A) :=
  fun o => match o with Some x => render x | None => "None" end.

Definition NL : string := String "010" "".

Definition get_observation_str_for_file (station_id : string)
    (description : option string) (lat_deg lon_deg : option float)
    (observation : Observation.t) (angle : option Z) : string :=
  let s := "id " +:+ render station_id +:+ NL in
  let s := s +:+ "description " +:+ render description +:+ NL in
  let s := s +:+ "timestamp " +:+ render (Observation.timestamp observation) +:+ NL in
  let s := s +:+ "lat_deg " +:+ render lat_deg +:+ NL in
  let s := s +:+ "lon_deg " +:+ render lon_deg +:+ NL in
  let s := s +:+ "first_image_bearing_deg " +:+ render angle +:+ NL in
  let s := s +:+ "wind_speed_kts " +:+ render (Observation.wind_speed_kts observation) +:+ NL in
  let s := s +:+ "wind_direction_deg " +:+ render (Observation.wind_direction_deg observation) +:+ NL in
  let s := s +:+ "gust_speed_kts " +:+ render (Observation.gust_speed_kts observation) +:+ NL in
  let s := s +:+ "wave_height_m: " +:+ render (Observation.wave_height_m observation) +:+ NL in
  let s := s +:+ "dominant_wave_period_s " +:+ render (Observation.dominant_wave_period_s observation) +:+ NL in
  let s := s +:+ "average_wave_period_s " +:+ render (Observation.average_wave_period_s observation) +:+ NL in
  let s := s +:+ "mean_wave_direction_deg " +:+ render (Observation.mean_wave_direction_deg observation) +:+ NL in
  let s := s +:+ "atmospheric_pressure_hpa " +:+ render (Observation.atmospheric_pressure_hpa observation) +:+ NL in
  let s := s +:+ "air_temperature_c " +:+ render (Observation.air_temperature_c observation) +:+ NL in
  let s := s +:+ "water_temperature_c " +:+ render (Observation.water_temperature_c observation) +:+ NL in
  let s := s +:+ "dewpoint_temperature_c " +:+ render (Observation.dewpoint_temperature_c observation) +:+ NL in
  let s := s +:+ "visibility_m " +:+ render (Observation.visibility_m observation) +:+ NL in
  let s := s +:+ "pressure_tendency_hpa " +:+ render (Observation.pressure_tendency_hpa observation) +:+ NL in
  let s := s +:+ "tide_m " +:+ render (Observation.tide_m observation) +:+ NL in
  s.

(** *** class BuoyData *)

Module BuoyData.

Record t : Type := mk {
  id : string;
  observations : gmap string Observation.t;
  lat_deg : option float;
  lon_deg : option float;
  description : option string;
}.

(** [BuoyData(station_id)] *)
Definition init (station_id : string) : t :=
  mk station_id ∅ None None (Some "").

Definition add_observation (self : t) (observation : Observation.t) : t :=
  mk (id self)
     (<[Observation.timestamp observation := observation]> (observations self))
     (lat_deg self) (lon_deg self) (description self).

Definition has_observation (self : t) (timestamp : string) : bool :=
  bool_decide (is_Some (observations self !! timestamp)).

Definition get_observation (self : t) (timestamp : string)
  : option Observation.t :=
  if has_observation self timestamp then observations self !! timestamp
  else None.

End BuoyData.

Definition table_row_to_observation (row : gmap string string)
  : Res (option Observation.t) :=
  match row !! "YY", row !! "MM", row !! "DD", row !! "hh", row !! "mm" with
  | Some YY, Some MM, Some DD, Some hh, Some mm =>
      wind_speed_kts ← get_float row "WSPD" (Some mps_to_kts);
      wind_direction_deg ← get_float row "WDIR" None;
      gust_speed_kts ← get_float row "GST" (Some mps_to_kts);
      wave_height_m ← get_float row "WVHT" None;
      dominant_wave_period_s ← get_float row "DPD" None;
      average_wave_period_s ← get_float row "APD" None;
      mean_wave_direction_deg ← get_float row "MWD" None;
      atmospheric_pressure_hpa ← get_float row "PRES" None;
      air_temperature_c ← get_float row "ATMP" None;
      water_temperature_c ← get_float row "WTMP" None;
      dewpoint_temperature_c ← get_float row "DEWP" None;
      visibility_m ← get_float row "VIS" (Some nmi_to_m);
      pressure_tendency_hpa ← get_float row "PTDY" None;
      tide_m ← get_float row "TIDE" None;
      Ok (Some (Observation.mk
                  (YY +:+ "_" +:+ MM +:+ "_" +:+ DD +:+ "_" +:+ hh +:+ mm)
                  wind_speed_kts wind_direction_deg gust_speed_kts
                  wave_height_m dominant_wave_period_s average_wave_period_s
                  mean_wave_direction_deg atmospheric_pressure_hpa
                  air_temperature_c water_temperature_c
                  dewpoint_temperature_c visibility_m pressure_tendency_hpa
                  tide_m))
  | _, _, _, _, _ => Ok None
  end.

(** *** Images

    An image is its size and, for each pixel, the luminance [convert("L")]
    gives it (0 is black). *)

Record Image : Type := {
  width : Z;
  height : Z;
  lum : Z -> Z -> Z;   (* luminance at column x, row y *)
}.

(** [img.crop((left, upper, right, lower))]; pixels outside [img] are black. *)
Definition crop (img : Image) (left upper right lower : Z) : Image :=
  {| width := right - left;
     height := lower - upper;
     lum := fun x y =>
       let x' := x + left in
       let y' := y + upper in
       if (0 <=? x') && (x' <? width img) && (0 <=? y') && (y' <? height img)
       then lum img x' y' else 0 |}.

Definition split_image (img : Image) : list Image :=
  map (fun i =>
         let left := i * SUB_IMAGE_WIDTH in
         crop img left 0 (left + SUB_IMAGE_WIDTH) SUB_IMAGE_HEIGHT)
      (seqZ 0 BUOYCAM_IMAGE_ROW_LENGTH).

(** [np.array(img.convert("L")).flatten()]: the pixels, row by row. *)
Definition img_array (img : Image) : list Z :=
  flat_map (fun y => map (fun x => lum img x y) (seqZ 0 (width img)))
           (seqZ 0 (height img)).

Definition count_black (img_array : list Z) : Z :=
  Z.of_nat (length (List.filter (fun v => v =? 0) img_array)).

Definition fraction_black (img : Image) : Res float :=
  let a := img_array img in
  PyFloat.truediv (count_black a) (Z.of_nat (length a)).

(** *** class OCR *)

Module OCR.

(** The text recogniser is opaque: [readtext] gives the texts it finds in
    an image, in order. *)
Record t : Type := mk { readtext : Image -> list string }.

(** [str.isnumeric] on one character (code points below 256). *)
Definition isnumeric_char (c : ascii) : bool :=
  let n := Str.code c in
  Str.is_digit c || (n =? 178) || (n =? 179) || (n =? 185)
  || ((188 <=? n) && (n <=? 190)).

Definition isnumeric (s : string) : bool :=
  negb (String.eqb s "") && forallb isnumeric_char (list_ascii_of_string s).

(** [get_angle_from_image], from the result of [readtext] on. *)
Definition angle_of_results (results : list string) : Res (option Z) :=
  match results with
  | [] => Ok None
  | text_result :: _ =>
      if Str.len text_result <? 2 then Ok None
      else
        let first_result := Str.slice text_result None (Some (-1)) in
        if negb (isnumeric first_result) then Ok None
        else
          angle ← Str.int first_result;
          if (angle <? 0) || (360 <? angle) then Ok None
          else Ok (Some angle)
  end.

End OCR.

(** *** The world the program acts on

    Everything the program does to the outside is recorded, in order, in a
    trace; the directories and files it leaves are kept beside it. *)

Inductive File : Type :=
  | ImageFile (img : Image)
  | TextFile (s : string).

Inductive Event : Type :=
  | EvRateLimit                                (* the lock taken, then sleep *)
  | EvGet (url : string)                       (* requests.get *)
  | EvMakedirs (path : string)                 (* os.makedirs *)
  | EvSaveImage (path : string) (img : Image)  (* img.save *)
  | EvWriteText (path : string) (s : string)   (* open(path, "w").write *)
  | EvReadText (img : Image).                  (* the recogniser is run *)

Record World : Type := {
  dirs : gset string;
  files : gmap string File;
  trace : list Event;
}.

(** What is outside the program: the remote server and the image decoder
    ([Image.open] raises on bytes that are no image). *)
Record Env : Type := {
  requests_get : string -> Res Response;
  image_open : string -> Res Image;
}.

(** Computations that act on the world and may raise. *)
Definition St (A : Type) : Type := World -> Res A * World.

Global Instance St_ret : MRet St := fun A a w => (Ok a, w).
Global Instance St_bind : MBind St := fun A B f m w =>
  match m w with
  | (Ok a, w') => f a w'
  | (Raise e, w') => (Raise e, w')
  end.

Definition lift {A} (r : Res A) : St A := fun w => (r, w).

Definition emit (e : Event) : St unit := fun w =>
  (Ok tt, {| dirs := dirs w; files := files w; trace := trace w ++ [e] |}).

(** [with request_rate_limit_lock: time.sleep(1 / MAX_REQUESTS_PER_SECOND)] *)
Definition rate_limit : St unit := emit EvRateLimit.

Definition http_get (env : Env) (url : string) : St Response :=
  _ ← emit (EvGet url); lift (requests_get env url).

Definition path_exists (path : string) : St bool := fun w =>
  (Ok (bool_decide (path ∈ dirs w) || bool_decide (is_Some (files w !! path))), w).

(** The path and every ancestor of it: ["a/b/c"] gives ["a"], ["a/b"], ["a/b/c"]. *)
Fixpoint ancestors (prefix : string) (parts : list string) : list string :=
  match parts with
  | [] => []
  | p :: parts' =>
      let here := if String.eqb prefix "" then p else prefix +:+ "/" +:+ p in
      here :: ancestors here parts'
  end.

Definition makedirs (path : string) : St unit := fun w =>
  (Ok tt,
   {| dirs := list_to_set (ancestors "" (Str.split_char "/" path)) ∪ dirs w;
      files := files w;
      trace := trace w ++ [EvMakedirs path] |}).

Definition write_file (path : string) (f : File) (e : Event) : St unit := fun w =>
  (Ok tt,
   {| dirs := dirs w; files := <[path := f]> (files w); trace := trace w ++ [e] |}).

Definition save_image (img : Image) (path : string) : St unit :=
  write_file path (ImageFile img) (EvSaveImage path img).

Definition write_text (path : string) (s : string) : St unit :=
  write_file path (TextFile s) (EvWriteText path s).

(** [OCR.get_angle_from_image] *)
Definition ocr_get_angle_from_image (self : OCR.t) (image : Image)
  : St (option Z) :=
  _ ← emit (EvReadText image);
  lift (OCR.angle_of_results (OCR.readtext self image)).

(** *** Fetching and processing one image *)

Definition get_image_file (env : Env) (url : string) : St (option Image) :=
  response ← http_get env url;
  if negb (status_code response =? 200) then mret None
  else img ← lift (image_open env (content response)); mret (Some img).

Definition get_angle_from_image (img : Image) (ocr_reader : OCR.t)
  : St (option Z) :=
  if (width img =? IMAGE_WIDTH) && (height img =? IMAGE_HEIGHT) then
    let angle_crop := crop img 150 (height img - 30) 250 (height img) in
    ocr_get_angle_from_image ocr_reader angle_crop
  else lift (Raise AssertionError).

(** The body of the loop over the sub-images, for sub-image [i]. *)
Definition save_sub_image (request : BuoyImageRequest.t) (i : Z)
    (sub_img : Image) : St unit :=
  fraction_black_value ← lift (fraction_black sub_img);
  if (FRACTION_BLACK_THRESHOLD <? fraction_black_value)%float then mret tt
  else
    let sub_img_path :=
      BuoyImageRequest.save_image_full_path request (Str.of_int i) in
    save_image sub_img sub_img_path.

Fixpoint save_sub_images (request : BuoyImageRequest.t) (i : Z)
    (sub_images : list Image) : St unit :=
  match sub_images with
  | [] => mret tt
  | sub_img :: rest =>
      _ ← save_sub_image request i sub_img;
      save_sub_images request (i + 1) rest
  end.

(** [output_dir] is never read; it takes a value of any type. *)
Definition fetch_and_process_image {A : Type} (env : Env)
    (request : BuoyImageRequest.t) (buoy_data : BuoyData.t)
    (output_dir : A) (ocr_reader : option OCR.t) : St bool :=
  _ ← rate_limit;
  img ← get_image_file env (BuoyImageRequest.url request);
  match img with
  | None => mret false
  | Some img =>
      if negb (width img =? IMAGE_WIDTH) || negb (height img =? IMAGE_HEIGHT)
      then mret false
      else
        let sub_images := split_image img in
        there ← path_exists (BuoyImageRequest.save_directory request);
        _ ← (if (there : bool) then mret tt
             else makedirs (BuoyImageRequest.save_directory request));
        let full_image_path :=
          BuoyImageRequest.save_image_full_path request "full" in
        _ ← save_image img full_image_path;
        _ ← save_sub_images request 0 sub_images;
        bearing_of_first_image ←
          match ocr_reader with
          | Some reader => get_angle_from_image img reader
          | None => mret None
          end;
        _ ← (if BuoyData.has_observation buoy_data
                  (BuoyImageRequest.date_string request)
             then
               match BuoyData.get_observation buoy_data
                       (BuoyImageRequest.date_string request) with
               | Some observation =>
                   let observation_path :=
                     BuoyImageRequest.save_directory request
                     +:+ "/observation.txt" in
                   write_text observation_path
                     (get_observation_str_for_file
                        (BuoyImageRequest.id request)
                        (BuoyData.description buoy_data)
                        (BuoyData.lat_deg buoy_data)
                        (BuoyData.lon_deg buoy_data)
                        observation bearing_of_first_image)
               | None => lift (Raise AttributeError)
               end
             else mret tt);
        mret true
  end.

(** *** Building one buoy's observations *)

(** The loop of [get_observation_data] over the parsed rows. *)
Fixpoint add_rows (data : BuoyData.t) (observation_data : list (gmap string string))
  : Res BuoyData.t :=
  match observation_data with
  | [] => Ok data
  | row :: rest =>
      observation ← table_row_to_observation row;
      match observation with
      | Some o => add_rows (BuoyData.add_observation data o) rest
      | None => add_rows data rest
      end
  end.

Definition get_observation_data (env : Env) (station_id : string)
  : St (option BuoyData.t) :=
  _ ← rate_limit;
  let url := OBSERVATION_URL +:+ "/" +:+ station_id +:+ ".txt" in
  response ← http_get env url;
  observation_data ← lift (extract_table_data response);
  match observation_data with
  | None => mret None
  | Some rows =>
      data ← lift (add_rows (BuoyData.init station_id) rows);
      mret (Some data)
  end.

(** *** The image phase of [main]

    [main], from the construction of the recogniser on: the listing, the
    output directory, the look-back window and the map of observations
    built by the first phase are given.  Log records are not modelled. *)

(** [d[k]] on a dict. *)
Definition getitem {V} (d : gmap string V) (k : string) : Res V :=
  match d !! k with
  | Some v => Ok v
  | None => Raise KeyError
  end.

(** The loop that builds [filtered_requests]. *)
Fixpoint filter_requests_loop (image_requests : list BuoyImageRequest.t)
    (buoy_data_lookup : gmap string BuoyData.t)
    (filtered_requests : list BuoyImageRequest.t)
  : Res (list BuoyImageRequest.t) :=
  match image_requests with
  | [] => Ok filtered_requests
  | ir :: rest =>
      (* [if ir.id not in buoy_data_lookup:] a warning, nothing else *)
      buoy_data ← getitem buoy_data_lookup (BuoyImageRequest.id ir);
      (* [if not buoy_data.has_observation(...):] a warning, nothing else *)
      let _ := BuoyData.has_observation buoy_data
                 (BuoyImageRequest.date_string ir) in
      filter_requests_loop rest buoy_data_lookup (filtered_requests ++ [ir])
  end.

Definition filter_requests (image_requests : list BuoyImageRequest.t)
    (buoy_data_lookup : gmap string BuoyData.t)
  : Res (list BuoyImageRequest.t) :=
  filter_requests_loop image_requests buoy_data_lookup [].

(** [executor.submit(fetch_and_process_image, request,
    buoy_data_lookup[request.id], ocr_reader)]: the three arguments go to
    the parameters [request], [buoy_data] and [output_dir]; [ocr_reader]
    keeps its default [None]. *)
Definition submit (env : Env) (buoy_data_lookup : gmap string BuoyData.t)
    (ocr_reader : OCR.t) (request : BuoyImageRequest.t)
  : Res (BuoyImageRequest.t * St bool) :=
  buoy_data ← getitem buoy_data_lookup (BuoyImageRequest.id request);
  Ok (request, fetch_and_process_image env request buoy_data ocr_reader None).

(** The pool runs every submitted task to its end, whatever the others
    do; here one after the other, in the order of submission. *)
Fixpoint run_pool (tasks : list (BuoyImageRequest.t * St bool)) (w : World)
  : list (BuoyImageRequest.t * Res bool) * World :=
  match tasks with
  | [] => ([], w)
  | (request, task) :: rest =>
      let '(outcome, w') := task w in
      let '(outcomes, w'') := run_pool rest w' in
      ((request, outcome) :: outcomes, w'')
  end.

(** [results.append((request, future.result()))]: the outcome of a task
    that raised is raised again here. *)
Definition collect (outcomes : list (BuoyImageRequest.t * Res bool))
  : Res (list (BuoyImageRequest.t * bool)) :=
  mapM (fun '(request, outcome) => b ← outcome; Ok (request, b)) outcomes.

(** Both loops of the pool in [main]: submit and run, then collect. *)
Definition run_tasks (tasks : list (BuoyImageRequest.t * St bool))
  : St (list (BuoyImageRequest.t * bool)) :=
  fun w =>
    let '(outcomes, w') := run_pool tasks w in
    (collect outcomes, w').

Definition main_image_phase (env : Env) (buoy_cam_list : list listing_entry)
    (output : string) (hours : Z) (buoy_data_lookup : gmap string BuoyData.t)
    (ocr_reader : OCR.t) : St (list (BuoyImageRequest.t * bool)) :=
  image_requests ← lift (generate_requests buoy_cam_list output hours);
  filtered_requests ← lift (filter_requests image_requests buoy_data_lookup);
  tasks ← lift (mapM (submit env buoy_data_lookup ocr_reader) filtered_requests);
  run_tasks tasks.

(** *** [date_to_date_string] *)

Definition date_to_date_string (date : datetime.t) : string :=
  datetime.strftime date.

(** *** [table_row_to_db_entry]

    The dict it returns has fixed keys; it is modelled as a record. *)

Module DbEntry.

Record t : Type := mk {
  station_id : string;
  timestamp : string;
  wind_speed_kts : option float;
  wind_direction_deg : option float;
  gust_speed_kts : option float;
  wave_height_m : option float;
  dominant_wave_period_s : option float;
  average_wave_period_s : option float;
  mean_wave_direction_deg : option float;
  atmospheric_pressure_hpa : option float;
  air_temperature_c : option float;
  water_temperature_c : option float;
  dewpoint_temperature_c : option float;
  visibility_m : option float;
  pressure_tendency_hpa : option float;
  tide_m : option float;
}.

End DbEntry.

Definition table_row_to_db_entry (row : gmap string string)
    (station_id : string) : Res DbEntry.t :=
  YY ← getitem row "YY";
  MM ← getitem row "MM";
  DD ← getitem row "DD";
  hh ← getitem row "hh";
  mm ← getitem row "mm";
  wind_speed_kts ← get_float row "WSPD" (Some mps_to_kts);
  wind_direction_deg ← get_float row "WDIR" None;
  gust_speed_kts ← get_float row "GST" (Some mps_to_kts);
  wave_height_m ← get_float row "WVHT" None;
  dominant_wave_period_s ← get_float row "DPD" None;
  average_wave_period_s ← get_float row "APD" None;
  mean_wave_direction_deg ← get_float row "MWD" None;
  atmospheric_pressure_hpa ← get_float row "PRES" None;
  air_temperature_c ← get_float row "ATMP" None;
  water_temperature_c ← get_float row "WTMP" None;
  dewpoint_temperature_c ← get_float row "DEWP" None;
  visibility_m ← get_float row "VIS" (Some nmi_to_m);
  pressure_tendency_hpa ← get_float row "PTDY" None;
  tide_m ← get_float row "TIDE" None;
  Ok (DbEntry.mk station_id
        (YY +:+ "_" +:+ MM +:+ "_" +:+ DD +:+ "_" +:+ hh +:+ mm)
        wind_speed_kts wind_direction_deg gust_speed_kts wave_height_m
        dominant_wave_period_s average_wave_period_s mean_wave_direction_deg
        atmospheric_pressure_hpa air_temperature_c water_temperature_c
        dewpoint_temperature_c visibility_m pressure_tendency_hpa tide_m).

(** * Inputs and vocabulary of the properties *)

(** ** Sample inputs *)

(** The listing entry of the end-to-end scenario, and one whose latest
    image is dated in the first minute of year 1. *)
Definition listing_east : listing_entry :=
  {[ "id" := Some "41001"; "name" := Some "EAST";
     "img" := Some "41001_2024_01_01_1200.jpg" ]}.

Definition listing_year_one : listing_entry :=
  {[ "id" := Some "41001"; "name" := Some "EAST";
     "img" := Some "41001_0001_01_01_0000.jpg" ]}.

(** An entry whose 15-character date portion has a letter in the month. *)
Definition listing_bad_month : listing_entry :=
  {[ "id" := Some "41002"; "name" := Some "WEST";
     "img" := Some "41002_2024_0a_01_1200.jpg" ]}.

(** A listing entry with no image yet. *)
Definition listing_no_image : listing_entry :=
  {[ "id" := Some "41003"; "name" := Some "NORTH"; "img" := None ]}.

(** A table whose only data row has five tokens under a header of six,
    and one whose data rows are complete, with an empty last line. *)
Definition table_short_row : Response :=
  {| status_code := 200;
     text := "#YY  MM DD hh mm WSPD" +:+ NL
             +:+ "#yr  mo dy hr mn m/s" +:+ NL
             +:+ "2024 01 01 12 00" +:+ NL;
     content := "" |}.

Definition table_complete : Response :=
  {| status_code := 200;
     text := "#YY  MM DD hh mm WSPD" +:+ NL
             +:+ "#yr  mo dy hr mn m/s" +:+ NL
             +:+ "2024 01 01 12 00 5" +:+ NL
             +:+ "2024 01 01 11 50 MM" +:+ NL;
     content := "" |}.

Definition empty_world : World := {| dirs := ∅; files := ∅; trace := [] |}.

(** The request of the end-to-end scenario: buoy 41001 at 2024-01-01 12:00. *)
Definition request_east : BuoyImageRequest.t :=
  BuoyImageRequest.mk "41001" "41001" (Some "EAST") 1063995120 "images".

(** A 480x270 sub-image whose first [columns] columns are black and whose
    other pixels are white. *)
Definition sub_image_black_columns (columns : Z) : Image :=
  {| width := SUB_IMAGE_WIDTH;
     height := SUB_IMAGE_HEIGHT;
     lum := fun x y => if x <? columns then 0 else 255 |}.

(** 408 of the 480 columns, 110160 of the 129600 pixels: a fraction of
    exactly 0.85. *)
Definition sub_image_85 : Image := sub_image_black_columns 408.

(** A composite image of 2880x300 whose columns grow brighter from left
    to right. *)
Definition composite_gradient : Image :=
  {| width := IMAGE_WIDTH; height := IMAGE_HEIGHT;
     lum := fun x y => x * 255 / 2879 |}.

(** A server that answers 404 to every request, and one that answers 200
    with a body that is no image; the decoder rejects every body. *)
Definition env_not_found : Env :=
  {| requests_get := fun _ =>
       Ok {| status_code := 404; text := "Not Found"; content := "Not Found" |};
     image_open := fun _ => Raise UnidentifiedImageError |}.

Definition env_garbled : Env :=
  {| requests_get := fun _ =>
       Ok {| status_code := 200; text := "<html>"; content := "<html>" |};
     image_open := fun _ => Raise UnidentifiedImageError |}.

(** The observation of the end-to-end scenario, with a wave height. *)
Definition observation_noon : Observation.t :=
  Observation.mk "2024_01_01_1200" (Some 9.7192%float) (Some 120%float) None
    (Some 1.5%float) None None None (Some 1013.2%float) None None None None
    None None.

(** A server that answers every request with a body the decoder reads as
    an image of 640x480. *)
Definition small_image : Image :=
  {| width := 640; height := 480; lum := fun _ _ => 128 |}.

Definition env_small_image : Env :=
  {| requests_get := fun _ =>
       Ok {| status_code := 200; text := ""; content := "JFIF" |};
     image_open := fun _ => Ok small_image |}.

(** A server whose every table is the complete table of the scenario. *)
Definition env_table_complete : Env :=
  {| requests_get := fun _ => Ok table_complete;
     image_open := fun _ => Raise UnidentifiedImageError |}.


(** ** Vocabulary of the statements *)

(** The record a data row gives when it has a value for every header
    token: each header token bound to the value at its position. *)
Definition aligned (header values : list string) : gmap string string :=
  foldl (fun entry hv => <[hv.1 := hv.2]> entry) ∅ (zip header values).

Definition has_tokens (values : list string) : bool :=
  negb (length values =? 0)%nat.

(** A listing entry that the generator passes over. *)
Definition skipped (entry : listing_entry) : Prop :=
  entry !! "id" = None \/ entry !! "name" = None \/ entry !! "img" = None
  \/ entry !! "id" = Some None \/ entry !! "img" = Some None
  \/ exists img_filename,
       entry !! "img" = Some (Some img_filename)
       /\ (Str.find img_filename ".jpg" = -1
           \/ exists date_str,
                extract_date_string img_filename = Some date_str
                /\ Str.len date_str <> 15).

(** For a request whose composite image the server returns with a
    non-success status, or with bytes that the decoder rejects, the fetch
    ends right after the GET: the gate was passed, the request was sent,
    nothing was written. *)
Definition after_get (request : BuoyImageRequest.t) (w : World) : World :=
  {| dirs := dirs w;
     files := files w;
     trace := (trace w ++ [EvRateLimit])
              ++ [EvGet (BuoyImageRequest.url request)] |}.

(** A text made of the given lines, each ended by a newline. *)
Definition lines_text (lines : list string) : string :=
  foldr (fun line rest => line +:+ NL +:+ rest) "" lines.

(** A line of the file: what stands first on it, one space, the value. *)
Definition item {A} `{Render A} (key : string) (value : A) : string :=
  key +:+ " " +:+ render value.

(** The lines of the observation file, in order.  All but one start with
    the name of a field; the tenth starts with "wave_height_m:". *)
Definition observation_lines (station_id : string)
    (description : option string) (lat_deg lon_deg : option float)
    (observation : Observation.t) (angle : option Z) : list string :=
  [ item "id" station_id;
    item "description" description;
    item "timestamp" (Observation.timestamp observation);
    item "lat_deg" lat_deg;
    item "lon_deg" lon_deg;
    item "first_image_bearing_deg" angle;
    item "wind_speed_kts" (Observation.wind_speed_kts observation);
    item "wind_direction_deg" (Observation.wind_direction_deg observation);
    item "gust_speed_kts" (Observation.gust_speed_kts observation);
    item "wave_height_m:" (Observation.wave_height_m observation);
    item "dominant_wave_period_s" (Observation.dominant_wave_period_s observation);
    item "average_wave_period_s" (Observation.average_wave_period_s observation);
    item "mean_wave_direction_deg" (Observation.mean_wave_direction_deg observation);
    item "atmospheric_pressure_hpa" (Observation.atmospheric_pressure_hpa observation);
    item "air_temperature_c" (Observation.air_temperature_c observation);
    item "water_temperature_c" (Observation.water_temperature_c observation);
    item "dewpoint_temperature_c" (Observation.dewpoint_temperature_c observation);
    item "visibility_m" (Observation.visibility_m observation);
    item "pressure_tendency_hpa" (Observation.pressure_tendency_hpa observation);
    item "tide_m" (Observation.tide_m observation) ].

(** [emits P m]: whatever the world, running [m] only adds events that
    satisfy [P] to the trace. *)
Definition emits {A} (P : Event -> Prop) (m : St A) : Prop :=
  forall w, exists evs, trace (m w).2 = (trace w ++ evs)%list /\ Forall P evs.

(** [emits_after pre P m]: running [m] adds the events [pre] to the trace,
    then only events that satisfy [P]. *)
Definition emits_after {A} (pre : list Event) (P : Event -> Prop) (m : St A)
  : Prop :=
  forall w, exists evs,
    trace (m w).2 = (trace w ++ pre ++ evs)%list /\ Forall P evs.

(** The events of a run in which no bearing is read: the recogniser is not
    run, and a text written is an observation file with no bearing. *)
Definition no_bearing (e : Event) : Prop :=
  match e with
  | EvReadText _ => False
  | EvWriteText _ s =>
      exists station_id description lat_deg lon_deg observation,
        s = get_observation_str_for_file station_id description lat_deg
              lon_deg observation None
  | _ => True
  end.

Definition not_remote (e : Event) : Prop :=
  match e with
  | EvRateLimit | EvGet _ => False
  | _ => True
  end.

(** [preserves R m]: whatever the world, running [m] leaves a world
    related by [R] to the one it started from. *)
Definition preserves {A} (R : World -> World -> Prop) (m : St A) : Prop :=
  forall w, R w (m w).2.

(** The files outside the directory [dir] are the same in both worlds. *)
Definition same_outside (dir : string) (w w' : World) : Prop :=
  forall path, String.prefix (dir +:+ "/") path = false ->
               files w' !! path = files w !! path.

(** An event that touches nothing outside the directory [dir]. *)
Definition inside (dir : string) (e : Event) : Prop :=
  match e with
  | EvMakedirs path => path = dir
  | EvSaveImage path _ | EvWriteText path _ =>
      String.prefix (dir +:+ "/") path = true
  | _ => True
  end.

(** The fields of an observation, as a database entry of a station. *)
Definition db_entry_of (station_id : string) (o : Observation.t) : DbEntry.t :=
  DbEntry.mk station_id (Observation.timestamp o)
    (Observation.wind_speed_kts o) (Observation.wind_direction_deg o)
    (Observation.gust_speed_kts o) (Observation.wave_height_m o)
    (Observation.dominant_wave_period_s o)
    (Observation.average_wave_period_s o)
    (Observation.mean_wave_direction_deg o)
    (Observation.atmospheric_pressure_hpa o)
    (Observation.air_temperature_c o) (Observation.water_temperature_c o)
    (Observation.dewpoint_temperature_c o) (Observation.visibility_m o)
    (Observation.pressure_tendency_hpa o) (Observation.tide_m o).

(** The URL of a station's observation table. *)
Definition observation_url (station_id : string) : string :=
  OBSERVATION_URL +:+ "/" +:+ station_id +:+ ".txt".

(** Month and day of the day [n] (from 0) of a year, as [ord2ymd] finds
    them from an estimate of the month. *)
Definition month_day (n : Z) (leapyear : bool) : Z * Z :=
  let month := Z.shiftr (n + 50) 5 in
  let preceding :=
    datetime.at_index datetime.DAYS_BEFORE_MONTH month
    + (if (2 <? month) && leapyear then 1 else 0) in
  if n <? preceding then
    let month := month - 1 in
    let preceding :=
      preceding - (datetime.at_index datetime.DAYS_IN_MONTH month
                   + (if (month =? 2) && leapyear then 1 else 0)) in
    (month, n - preceding + 1)
  else (month, n - preceding + 1).


(** A timestamp as [strftime] writes it for a year of four digits:
    "YYYY_MM_DD_HHMM", every letter a decimal digit, the first not "0". *)
Definition is_timestamp (s : string) : bool :=
  match list_ascii_of_string s with
  | [y1; y2; y3; y4; u1; m1; m2; u2; d1; d2; u3; h1; h2; n1; n2] =>
      forallb Str.is_digit [y1; y2; y3; y4; m1; m2; d1; d2; h1; h2; n1; n2]
      && Ascii.eqb u1 "_" && Ascii.eqb u2 "_" && Ascii.eqb u3 "_"
      && negb (Ascii.eqb y1 "0")
  | _ => false
  end.

(** What a fetch for [request] may do: one kind of event per effect. *)
Definition footprint (request : BuoyImageRequest.t) (e : Event) : Prop :=
  match e with
  | EvGet url => url = BuoyImageRequest.url request
  | _ => inside (BuoyImageRequest.save_directory request) e
  end.







(** [files_after m F]: whatever the world, and however [m] ends, the files
    [m] leaves are [F] of the files it found. *)
Definition files_after {A} (m : St A)
    (F : gmap string File -> gmap string File) : Prop :=
  forall w, files (m w).2 = F (files w).

(** * Properties *)

(** ** Reasoning about [Res] and [St] *)

Lemma bind_Ok_inv {A B} (f : A -> Res B) (m : Res A) (b : B) :
  (m ≫= f) = Ok b -> exists a, m = Ok a /\ f a = Ok b.
Proof. destruct m as [a|e]; simpl; [eauto | discriminate]. Qed.

Lemma mapM_Ok {A B} (f : A -> Res B) (g : A -> B) (l : list A) :
  (forall x, x ∈ l -> f x = Ok (g x)) -> mapM f l = Ok (map g l).
Proof.
  induction l as [|x l IH]; intros Hf; [reflexivity|].
  simpl. rewrite (Hf x) by left. simpl.
  rewrite IH by (intros y Hy; apply Hf; by right). reflexivity.
Qed.

(** ** The calendar *)

Lemma days_before_year_mono (y y' : Z) :
  1 <= y <= y' -> datetime.days_before_year y <= datetime.days_before_year y'.
Proof.
  intros Hy. unfold datetime.days_before_year. cbv zeta.
  Z.to_euclidean_division_equations. lia.
Qed.

Lemma month_cases (month : Z) :
  1 <= month <= 12 ->
  month = 1 \/ month = 2 \/ month = 3 \/ month = 4 \/ month = 5 \/ month = 6
  \/ month = 7 \/ month = 8 \/ month = 9 \/ month = 10 \/ month = 11
  \/ month = 12.
Proof. lia. Qed.

(** The days of a year before the end of one of its months. *)
Lemma days_to_month_end (year month : Z) :
  1 <= month <= 12 ->
  0 <= datetime.days_before_month year month
  /\ datetime.days_before_month year month + datetime.days_in_month year month
     <= 365 + (if datetime.is_leap year then 1 else 0).
Proof.
  intros Hm. unfold datetime.days_before_month, datetime.days_in_month.
  destruct (datetime.is_leap year);
    destruct (month_cases month Hm)
      as [->|[->|[->|[->|[->|[->|[->|[->|[->|[->|[->| ->]]]]]]]]]]];
    split; apply Z.leb_le; reflexivity.
Qed.

Lemma ymd2ord_range (year month day : Z) :
  1 <= year <= 9999 -> 1 <= month <= 12 ->
  1 <= day <= datetime.days_in_month year month ->
  1 <= datetime.ymd2ord year month day <= datetime.MAXORDINAL.
Proof.
  intros Hy Hm Hd.
  destruct (days_to_month_end year month Hm) as [Hb He].
  pose proof (days_before_year_mono 1 year ltac:(lia)) as Hlo.
  change (datetime.days_before_year 1) with 0 in Hlo.
  unfold datetime.ymd2ord, datetime.MAXORDINAL. split; [lia|].
  destruct (datetime.is_leap year) eqn:Hleap.
  - assert (Hy4 : year <= 9996).
    { unfold datetime.is_leap in Hleap.
      apply andb_prop in Hleap as [H4 _]. apply Z.eqb_eq in H4.
      pose proof (Z.div_mod year 4 ltac:(lia)). lia. }
    pose proof (days_before_year_mono year 9996 ltac:(lia)) as Hhi.
    change (datetime.days_before_year 9996) with 3650598 in Hhi. lia.
  - pose proof (days_before_year_mono year 9999 ltac:(lia)) as Hhi.
    change (datetime.days_before_year 9999) with 3651694 in Hhi. lia.
Qed.

Lemma make_range (year month day hour minute : Z) (d : datetime.t) :
  datetime.make year month day hour minute = Ok d -> 0 <= d < datetime.END.
Proof.
  unfold datetime.make, datetime.MINYEAR, datetime.MAXYEAR.
  destruct (_ && _) eqn:Hv; [|discriminate].
  intros [= <-].
  repeat (apply andb_prop in Hv as [Hv ?]).
  repeat match goal with H : (_ <=? _) = true |- _ => apply Z.leb_le in H end.
  pose proof (ymd2ord_range year month day) as Ho.
  unfold datetime.END. lia.
Qed.

Lemma date_string_to_date_range (date_string : string) (d : datetime.t) :
  date_string_to_date date_string = Ok (Some d) -> 0 <= d < datetime.END.
Proof.
  unfold date_string_to_date.
  destruct (negb _); [discriminate|].
  intros H.
  do 5 (apply bind_Ok_inv in H as (? & _ & H)).
  apply bind_Ok_inv in H as (d' & Hmk & H).
  injection H as <-. eapply make_range, Hmk.
Qed.

(** ** Request generation *)

Lemma image_dates_in_range (latest : datetime.t) (n : Z) :
  0 <= latest < datetime.END -> 10 * (n - 1) <= latest ->
  image_dates latest n = Ok (map (fun i => latest - 10 * i) (seqZ 0 n)).
Proof.
  intros Hl Hn. unfold image_dates. apply mapM_Ok.
  intros i Hi. apply elem_of_seqZ in Hi.
  unfold datetime.timedelta_minutes.
  assert (Hdiv : 0 <= 10 * i / 1440 <= 3652059).
  { unfold datetime.END, datetime.MAXORDINAL in Hl. split.
    - apply Z.div_pos; lia.
    - apply Z.div_le_upper_bound; lia. }
  destruct (999999999 <? Z.abs (10 * i / 1440)) eqn:Hbig.
  { apply Z.ltb_lt in Hbig. lia. }
  simpl. unfold datetime.sub.
  destruct ((0 <=? latest - 10 * i) && (latest - 10 * i <? datetime.END)) eqn:Hr;
    [reflexivity|].
  apply andb_false_iff in Hr as [Hr|Hr];
    [apply Z.leb_gt in Hr | apply Z.ltb_ge in Hr]; lia.
Qed.

Lemma generate_requests_one (entry : listing_entry) (output_dir : string)
    (hours : Z) :
  generate_requests [entry] output_dir hours
  = requests_of_entry entry output_dir hours.
Proof.
  unfold generate_requests. simpl.
  destruct (requests_of_entry entry output_dir hours); reflexivity.
Qed.

Lemma lookup_map_seqZ {A} (f : Z -> A) (n : Z) (i : nat) (a : A) :
  map f (seqZ 0 n) !! i = Some a -> a = f (Z.of_nat i) /\ Z.of_nat i < n.
Proof.
  change (map f (seqZ 0 n)) with (f <$> seqZ 0 n).
  rewrite list_lookup_fmap. intros H.
  destruct (seqZ 0 n !! i) as [j|] eqn:Hj; [|discriminate].
  apply lookup_seqZ in Hj as [-> ?]. injection H as <-. split; [f_equal; lia | lia].
Qed.

(** C5, as amended: for a listing entry whose image filename carries the
    latest timestamp T, and a window of W >= 1 hours such that the oldest
    step T - 10*(6W - 1) minutes is not before the first representable
    minute (0001-01-01T00:00), the Request Generator produces exactly 6W
    requests for that buoy, the first at T and each next one exactly 10
    minutes earlier. *)
Theorem generate_requests_window
    (entry : listing_entry)
    (station_id img_filename date_str output_dir : string)
    (name : option string) (T : datetime.t) (W : Z) :
  entry !! "id" = Some (Some station_id) ->
  entry !! "name" = Some name ->
  entry !! "img" = Some (Some img_filename) ->
  extract_date_string img_filename = Some date_str ->
  date_string_to_date date_str = Ok (Some T) ->
  1 <= W ->
  10 * (6 * W - 1) <= T ->
  exists reqs,
    generate_requests [entry] output_dir W = Ok reqs
    /\ Z.of_nat (length reqs) = 6 * W
    /\ BuoyImageRequest.date <$> head reqs = Some T
    /\ (forall i r r', reqs !! i = Some r -> reqs !! S i = Some r' ->
          BuoyImageRequest.date r' = BuoyImageRequest.date r - 10)
    /\ (forall r, r ∈ reqs -> BuoyImageRequest.id r = station_id).
Proof.
  intros Hid Hname Himg Hds HT HW Hrange.
  rewrite generate_requests_one. unfold requests_of_entry.
  rewrite Hid, Hname, Himg, Hds, HT. simpl.
  rewrite image_dates_in_range;
    [| eapply date_string_to_date_range, HT | lia].
  simpl. eexists. split; [reflexivity|].
  rewrite List.map_map.
  repeat split.
  - rewrite length_map, length_seqZ. lia.
  - rewrite (seqZ_cons 0 (W * 6)) by lia. simpl. f_equal. lia.
  - intros i r r' Hr Hr'.
    apply lookup_map_seqZ in Hr as [-> _], Hr' as [-> _]. simpl. lia.
  - intros r Hr. apply list_elem_of_lookup in Hr as [i Hr].
    apply lookup_map_seqZ in Hr as [-> _]. reflexivity.
Qed.

Lemma generate_requests_window_witness :
  exists reqs,
    generate_requests [listing_east] "images" 1 = Ok reqs
    /\ Z.of_nat (length reqs) = 6 * 1
    /\ BuoyImageRequest.date <$> head reqs = Some 1063995120
    /\ (forall i r r', reqs !! i = Some r -> reqs !! S i = Some r' ->
          BuoyImageRequest.date r' = BuoyImageRequest.date r - 10)
    /\ (forall r, r ∈ reqs -> BuoyImageRequest.id r = "41001").
Proof.
  apply (generate_requests_window listing_east "41001"
           "41001_2024_01_01_1200.jpg" "2024_01_01_1200" "images"
           (Some "EAST") 1063995120 1);
    [vm_compute; reflexivity .. | lia | lia].
Defined.

(** C5, the claim as stated fails: the latest image is dated
    0001-01-01T00:00 and the window is one hour; the second step would be
    ten minutes before the first representable minute, and the generator
    raises instead of producing six requests. *)
Lemma generate_requests_window_overflow :
  extract_date_string "41001_0001_01_01_0000.jpg" = Some "0001_01_01_0000"
  /\ date_string_to_date "0001_01_01_0000" = Ok (Some 0)
  /\ generate_requests [listing_year_one] "images" 1 = Raise OverflowError.
Proof. repeat split; vm_compute; reflexivity. Qed.

(** C7, evaluated: a listing whose first entry has a letter in the month
    of its filename's date makes request generation raise [ValueError];
    the entry is not skipped and the valid entry after it is never
    reached. *)
Theorem generate_requests_bad_month_raises :
  extract_date_string "41002_2024_0a_01_1200.jpg" = Some "2024_0a_01_1200"
  /\ date_string_to_date "2024_0a_01_1200" = Raise ValueError
  /\ generate_requests [listing_bad_month; listing_east] "images" 1
     = Raise ValueError.
Proof. repeat split; vm_compute; reflexivity. Qed.

Lemma generate_requests_loop_acc (buoy_cam_list : list listing_entry)
    (output_dir : string) (hours : Z) (acc : list BuoyImageRequest.t) :
  generate_requests_loop buoy_cam_list output_dir hours acc
  = (rest ← generate_requests_loop buoy_cam_list output_dir hours [];
     Ok (acc ++ rest)%list).
Proof.
  revert acc. induction buoy_cam_list as [|entry l IH]; intros acc; simpl.
  - by rewrite app_nil_r.
  - destruct (requests_of_entry entry output_dir hours) as [new|e]; simpl;
      [|reflexivity].
    rewrite IH. rewrite (IH new).
    destruct (generate_requests_loop l output_dir hours []) as [rest|e];
      simpl; [by rewrite app_assoc | reflexivity].
Qed.

Lemma generate_requests_cons (entry : listing_entry)
    (rest : list listing_entry) (output_dir : string) (hours : Z) :
  generate_requests (entry :: rest) output_dir hours
  = (new ← requests_of_entry entry output_dir hours;
     more ← generate_requests rest output_dir hours;
     Ok (new ++ more)%list).
Proof.
  unfold generate_requests. simpl.
  destruct (requests_of_entry entry output_dir hours) as [new|e]; simpl;
    [|reflexivity].
  apply generate_requests_loop_acc.
Qed.

(** X4: a listing entry that lacks one of the fields id, name and img, or
    whose id or img is null, or whose image filename has no ".jpg" or a
    date portion that is not 15 characters long, is skipped: no request is
    produced for it and the entries after it are processed as if it were
    not there. *)
Theorem generate_requests_skips (entry : listing_entry)
    (rest : list listing_entry) (output_dir : string) (hours : Z) :
  skipped entry ->
  generate_requests (entry :: rest) output_dir hours
  = generate_requests rest output_dir hours.
Proof.
  intros Hskip.
  assert (Hnone : requests_of_entry entry output_dir hours = Ok []).
  { unfold requests_of_entry.
    destruct Hskip as [H|[H|[H|[H|[H|(f & H & Hf)]]]]].
    - by rewrite H.
    - rewrite H. by destruct (entry !! "id").
    - rewrite H. by destruct (entry !! "id"), (entry !! "name").
    - rewrite H. by destruct (entry !! "name"), (entry !! "img").
    - rewrite H. destruct (entry !! "id") as [[?|]|], (entry !! "name"); done.
    - rewrite H.
      destruct (entry !! "id") as [[station_id|]|], (entry !! "name");
        try done.
      destruct Hf as [Hjpg | (ds & Hds & Hlen)].
      + unfold extract_date_string. rewrite Hjpg.
        by destruct (_ =? -1).
      + rewrite Hds. unfold date_string_to_date.
        apply Z.eqb_neq in Hlen. by rewrite Hlen. }
  rewrite generate_requests_cons, Hnone. simpl.
  by destruct (generate_requests rest output_dir hours).
Qed.

Lemma generate_requests_skips_witness :
  generate_requests [listing_no_image; listing_east] "images" 24
  = generate_requests [listing_east] "images" 24.
Proof.
  apply generate_requests_skips.
  right; right; right; right; left. vm_compute. reflexivity.
Defined.

(** ** The table parser *)

Lemma fill_entry_enough (header values : list string) (i : nat)
    (entry : gmap string string) :
  (i + length header <= length values)%nat ->
  fill_entry header values i entry
  = Ok (foldl (fun entry hv => <[hv.1 := hv.2]> entry) entry
          (zip header (drop i values))).
Proof.
  revert i entry. induction header as [|h header IH]; intros i entry Hlen.
  - reflexivity.
  - simpl in Hlen. simpl fill_entry.
    destruct (values !! i) as [v|] eqn:Hv.
    + rewrite IH by lia. rewrite (drop_S _ _ _ Hv). reflexivity.
    + apply lookup_ge_None in Hv. lia.
Qed.

Lemma fill_entry_short (header values : list string) (i : nat)
    (entry : gmap string string) :
  (i <= length values < i + length header)%nat ->
  fill_entry header values i entry = Raise IndexError.
Proof.
  revert i entry. induction header as [|h header IH]; intros i entry Hlen.
  - simpl in Hlen. lia.
  - simpl in Hlen. simpl.
    destruct (values !! i) as [v|] eqn:Hv; [|reflexivity].
    apply lookup_lt_Some in Hv. apply IH. lia.
Qed.

Lemma table_rows_short (header rows : list string)
    (result : list (gmap string string)) :
  Exists (fun row => 0 < length (Str.split row) < length header)%nat rows ->
  table_rows header rows result = Raise IndexError.
Proof.
  revert result. induction rows as [|row rows IH]; intros result Hex.
  - inversion Hex.
  - simpl. destruct (length (Str.split row) =? 0)%nat eqn:Hz.
    + apply Nat.eqb_eq in Hz. apply IH.
      inversion Hex as [? ? Hrow|]; [simpl in Hrow; lia | assumption].
    + destruct (le_lt_dec (length header) (length (Str.split row))) as [Hge|Hlt].
      * rewrite fill_entry_enough by (simpl; lia). simpl. apply IH.
        inversion Hex as [? ? Hrow|]; [simpl in Hrow; lia | assumption].
      * rewrite fill_entry_short by (simpl; lia). reflexivity.
Qed.

Lemma table_rows_enough (header rows : list string)
    (result : list (gmap string string)) :
  Forall (fun row => length (Str.split row) = 0
                     \/ length header <= length (Str.split row))%nat rows ->
  table_rows header rows result
  = Ok (result ++ map (aligned header)
                    (List.filter has_tokens (map Str.split rows)))%list.
Proof.
  revert result. induction rows as [|row rows IH]; intros result Hall.
  - simpl. by rewrite app_nil_r.
  - inversion Hall as [|? ? Hrow Hrows]; subst. simpl.
    unfold has_tokens at 1.
    destruct (length (Str.split row) =? 0)%nat eqn:Hz; simpl.
    + apply IH, Hrows.
    + apply Nat.eqb_neq in Hz.
      rewrite fill_entry_enough by (simpl; lia). simpl.
      rewrite IH by assumption. rewrite <- app_assoc. reflexivity.
Qed.

Lemma foldl_insert_absent (l : list (string * string))
    (m : gmap string string) (h : string) :
  (forall v, (h, v) ∉ l) ->
  foldl (fun entry hv => <[hv.1 := hv.2]> entry) m l !! h = m !! h.
Proof.
  revert m. induction l as [|[k v] l IH]; intros m Hno; [reflexivity|].
  simpl. rewrite IH.
  - apply lookup_insert_ne. intros ->. apply (Hno v). left.
  - intros v' Hin. apply (Hno v'). by right.
Qed.

Lemma foldl_insert_last (l : list (string * string))
    (m : gmap string string) (i : nat) (h v : string) :
  l !! i = Some (h, v) ->
  (forall j v', (i < j)%nat -> l !! j <> Some (h, v')) ->
  foldl (fun entry hv => <[hv.1 := hv.2]> entry) m l !! h = Some v.
Proof.
  revert m i. induction l as [|[k x] l IH]; intros m i Hi Hlast; [done|].
  destruct i as [|i]; simpl in *.
  - injection Hi as -> ->. rewrite foldl_insert_absent.
    + apply lookup_insert_eq.
    + intros v' Hin. apply list_elem_of_lookup in Hin as [j Hj].
      apply (Hlast (S j) v'); [lia | exact Hj].
  - apply (IH _ i Hi). intros j v' Hj. apply (Hlast (S j) v'). lia.
Qed.

Lemma foldl_insert_dom (l : list (string * string)) (m : gmap string string) :
  dom (foldl (fun entry hv => <[hv.1 := hv.2]> entry) m l)
  = dom m ∪ list_to_set l.*1.
Proof.
  revert m. induction l as [|[k x] l IH]; intros m; simpl.
  - set_solver.
  - rewrite IH, dom_insert_L. set_solver.
Qed.

(** A row with a value for every header token gives a record whose keys
    are the header tokens, each bound to the value at the position of its
    last occurrence in the header. *)
Lemma aligned_spec (header values : list string) :
  (length header <= length values)%nat ->
  dom (aligned header values) = list_to_set header
  /\ (forall i h, header !! i = Some h ->
        (forall j, (i < j)%nat -> header !! j <> Some h) ->
        aligned header values !! h = values !! i).
Proof.
  intros Hlen. unfold aligned. split.
  - rewrite foldl_insert_dom, fst_zip by lia. set_solver.
  - intros i h Hi Hlast.
    destruct (values !! i) as [v|] eqn:Hv.
    + apply (foldl_insert_last _ _ i).
      * apply lookup_zip_Some. done.
      * intros j v' Hj Hz. apply lookup_zip_Some in Hz as [Hz _].
        by apply (Hlast j).
    + apply lookup_ge_None in Hv. apply lookup_lt_Some in Hi. lia.
Qed.

(** C3, as amended: for a table text with at least three lines and a
    header of N tokens, a data row of K tokens with 0 < K < N makes the
    Table Parser fail with [IndexError] (no record is produced for it);
    when every data row has either no token or at least N tokens, the
    rows with no token are skipped and every other row gives a record
    whose keys are exactly the header tokens, aligned by position. *)
Theorem extract_table_data_rows (response : Response) :
  status_code response = 200 ->
  (3 <= length (Str.split_char "010" (text response)))%nat ->
  let lines := Str.split_char "010" (text response) in
  let header := Str.split (Str.slice (hd "" lines) (Some 1) None) in
  let rows := drop 2 lines in
  (Exists (fun row => 0 < length (Str.split row) < length header)%nat rows ->
   extract_table_data response = Raise IndexError)
  /\ (Forall (fun row => length (Str.split row) = 0
                         \/ length header <= length (Str.split row))%nat rows ->
      extract_table_data response
      = Ok (Some (map (aligned header)
                    (List.filter has_tokens (map Str.split rows)))))
  /\ (forall values, (length header <= length values)%nat ->
        dom (aligned header values) = list_to_set header
        /\ (forall i h, header !! i = Some h ->
              (forall j, (i < j)%nat -> header !! j <> Some h) ->
              aligned header values !! h = values !! i)).
Proof.
  intros Hstatus Hlines lines header rows.
  assert (Hunfold : extract_table_data response
                    = (result ← table_rows header rows []; Ok (Some result))).
  { unfold extract_table_data. rewrite Hstatus. simpl.
    destruct (length _ <? 3)%nat eqn:Hlt; [|reflexivity].
    apply Nat.ltb_lt in Hlt. lia. }
  split; [|split].
  - intros Hex. rewrite Hunfold, table_rows_short by exact Hex. reflexivity.
  - intros Hall. rewrite Hunfold, table_rows_enough by exact Hall. reflexivity.
  - intros values. apply aligned_spec.
Qed.

Lemma extract_table_data_rows_witness :
  extract_table_data table_complete
  = Ok (Some [aligned ["YY"; "MM"; "DD"; "hh"; "mm"; "WSPD"]
                ["2024"; "01"; "01"; "12"; "00"; "5"];
              aligned ["YY"; "MM"; "DD"; "hh"; "mm"; "WSPD"]
                ["2024"; "01"; "01"; "11"; "50"; "MM"]]).
Proof.
  refine (proj1 (proj2 (extract_table_data_rows table_complete eq_refl _)) _).
  - vm_compute. lia.
  - change (drop 2 (Str.split_char "010" (text table_complete)))
      with ["2024 01 01 12 00 5"; "2024 01 01 11 50 MM"; ""].
    repeat (constructor;
            [first [left; vm_compute; reflexivity | right; vm_compute; lia]|]).
    constructor.
Defined.

(** C3, the claim as stated fails: under a header of six tokens, a data
    row of five tokens makes the parser raise [IndexError] instead of
    giving a record with the first five keys. *)
Lemma extract_table_data_short_row_raises :
  length (Str.split "YY  MM DD hh mm WSPD") = 6%nat
  /\ length (Str.split "2024 01 01 12 00") = 5%nat
  /\ extract_table_data table_short_row = Raise IndexError.
Proof. repeat split; vm_compute; reflexivity. Qed.

(** X5: the Table Parser returns [None] on a response whose status is not
    200, and fails with [ValueError] on a text of fewer than three
    lines. *)
Theorem extract_table_data_guards (response : Response) :
  (status_code response <> 200 -> extract_table_data response = Ok None)
  /\ (status_code response = 200 ->
      (length (Str.split_char "010" (text response)) < 3)%nat ->
      extract_table_data response = Raise ValueError).
Proof.
  unfold extract_table_data. split.
  - intros H. apply Z.eqb_neq in H. by rewrite H.
  - intros H Hlen. rewrite H. simpl. apply Nat.ltb_lt in Hlen.
    by rewrite Hlen.
Qed.

Lemma extract_table_data_guards_witness :
  extract_table_data
    {| status_code := 200; text := "#YY MM" +:+ NL +:+ "#yr mo"; content := "" |}
  = Raise ValueError.
Proof.
  apply (proj2 (extract_table_data_guards _)); [reflexivity|].
  vm_compute. lia.
Defined.

(** ** Typed extraction *)

(** C6: [get_float] returns [None] exactly when the key is absent from
    the row or the raw value is the sentinel "MM"; for any other raw value
    it parses it as a float (a failure of the parse propagates) and returns
    the parsed value with the conversion applied; "10" under the m/s to
    knots conversion gives 19.4384, which is 10 * 1.94384. *)
Theorem get_float_spec (row : gmap string string) (key : string)
    (convert_func : option (float -> float)) :
  (get_float row key convert_func = Ok None
   <-> row !! key = None \/ row !! key = Some "MM")
  /\ (forall raw, row !! key = Some raw -> raw <> "MM" ->
        get_float row key convert_func
        = (x ← PyFloat.parse raw;
           Ok (Some (match convert_func with Some f => f x | None => x end))))
  /\ get_float {[ "WSPD" := "10" ]} "WSPD" (Some mps_to_kts)
     = Ok (Some 19.4384%float)
  /\ mps_to_kts 10 = 19.4384%float.
Proof.
  split; [|split; [|split; vm_compute; reflexivity]].
  - unfold get_float, MISSING_DATA_INDICATOR.
    destruct (row !! key) as [raw|]; [|split; auto].
    destruct (String.eqb raw "MM") eqn:Hmm.
    + apply String.eqb_eq in Hmm as ->. split; auto.
    + apply String.eqb_neq in Hmm.
      destruct (PyFloat.parse raw) as [x|e]; destruct convert_func; simpl;
        (split; [discriminate | intros [H|H]; congruence]).
  - intros raw Hraw Hne. unfold get_float, MISSING_DATA_INDICATOR.
    rewrite Hraw. apply String.eqb_neq in Hne. rewrite Hne.
    destruct (PyFloat.parse raw); destruct convert_func; reflexivity.
Qed.

Lemma get_float_spec_witness :
  get_float {[ "WSPD" := "5"; "GST" := "MM" ]} "WSPD" (Some mps_to_kts)
  = Ok (Some 9.7192%float).
Proof.
  rewrite (proj1 (proj2 (get_float_spec
                           {[ "WSPD" := "5"; "GST" := "MM" ]} "WSPD"
                           (Some mps_to_kts))) "5");
    [vm_compute; reflexivity | vm_compute; reflexivity | discriminate].
Defined.

(** X7: a table row that lacks one of the five timestamp columns gives no
    observation. *)
Theorem table_row_without_timestamp (row : gmap string string) :
  row !! "YY" = None \/ row !! "MM" = None \/ row !! "DD" = None
  \/ row !! "hh" = None \/ row !! "mm" = None ->
  table_row_to_observation row = Ok None.
Proof.
  intros H. unfold table_row_to_observation.
  destruct (row !! "YY"), (row !! "MM"), (row !! "DD"), (row !! "hh"),
    (row !! "mm"); try reflexivity.
  destruct H as [H|[H|[H|[H|H]]]]; discriminate.
Qed.

Lemma table_row_without_timestamp_witness :
  table_row_to_observation {[ "YY" := "2024"; "MM" := "01"; "WSPD" := "5" ]}
  = Ok None.
Proof.
  apply table_row_without_timestamp.
  right; right; left. vm_compute. reflexivity.
Defined.

(** ** Blank frames *)

(** *** Counting the black pixels of an image whose rows are all alike *)

Lemma count_black_app (a b : list Z) :
  count_black (a ++ b) = count_black a + count_black b.
Proof.
  unfold count_black. rewrite List.filter_app, length_app. lia.
Qed.

Lemma img_array_same_rows (img : Image) (row : list Z) :
  (forall y, map (fun x => lum img x y) (seqZ 0 (width img)) = row) ->
  0 <= height img ->
  count_black (img_array img) = height img * count_black row
  /\ Z.of_nat (length (img_array img)) = height img * Z.of_nat (length row).
Proof.
  intros Hrow Hh. unfold img_array.
  assert (Hgen : forall l : list Z,
             count_black
               (flat_map (fun y => map (fun x => lum img x y)
                                     (seqZ 0 (width img))) l)
             = Z.of_nat (length l) * count_black row
             /\ Z.of_nat (length
                  (flat_map (fun y => map (fun x => lum img x y)
                                        (seqZ 0 (width img))) l))
                = Z.of_nat (length l) * Z.of_nat (length row)).
  { induction l as [|y l [IH1 IH2]]; [split; reflexivity|].
    cbn [flat_map]. rewrite count_black_app, length_app, Nat2Z.inj_add, Hrow.
    rewrite IH1, IH2. cbn [length]. split; lia. }
  destruct (Hgen (seqZ 0 (height img))) as [H1 H2].
  rewrite length_seqZ, Z2Nat.id in H1, H2 by lia. done.
Qed.

Lemma fraction_black_sub_image_85 :
  fraction_black sub_image_85 = Ok 0.85%float.
Proof.
  unfold fraction_black.
  destruct (img_array_same_rows sub_image_85
              (map (fun x => if x <? 408 then 0 else 255) (seqZ 0 480)))
    as [Hblack Hlen]; [reflexivity | done |].
  rewrite Hblack, Hlen. vm_compute. reflexivity.
Qed.

(** What the loop body does with a sub-image whose fraction is [f]. *)
Lemma save_sub_image_run (request : BuoyImageRequest.t) (i : Z)
    (sub_img : Image) (f : float) (w : World) :
  fraction_black sub_img = Ok f ->
  save_sub_image request i sub_img w
  = (if (FRACTION_BLACK_THRESHOLD <? f)%float then (Ok tt, w)
     else save_image sub_img
            (BuoyImageRequest.save_image_full_path request (Str.of_int i)) w).
Proof.
  intros Hf. unfold save_sub_image. rewrite Hf. unfold mbind, St_bind, lift.
  destruct (FRACTION_BLACK_THRESHOLD <? f)%float; reflexivity.
Qed.

Lemma save_image_lookup (img : Image) (path : string) (w : World) :
  files (snd (save_image img path w)) !! path = Some (ImageFile img).
Proof. unfold save_image, write_file. simpl. apply lookup_insert_eq. Qed.

(** C4, as amended: the blank-frame test is a strict "greater than";
    a sub-image whose fraction of black pixels is exactly 0.85 is
    persisted, as is one with fraction 0.10, and one with fraction 0.90 is
    excluded. *)
Theorem blank_frame_threshold (request : BuoyImageRequest.t) (i : Z)
    (sub_img : Image) (f : float) (w : World) :
  fraction_black sub_img = Ok f ->
  let path := BuoyImageRequest.save_image_full_path request (Str.of_int i) in
  save_sub_image request i sub_img w
  = (if (FRACTION_BLACK_THRESHOLD <? f)%float then (Ok tt, w)
     else save_image sub_img path w)
  /\ (f = 0.85%float \/ f = 0.10%float ->
      save_sub_image request i sub_img w = save_image sub_img path w
      /\ files (snd (save_sub_image request i sub_img w)) !! path
         = Some (ImageFile sub_img))
  /\ (f = 0.90%float -> save_sub_image request i sub_img w = (Ok tt, w)).
Proof.
  intros Hf path.
  pose proof (save_sub_image_run request i sub_img f w Hf) as Hrun.
  fold path in Hrun.
  split; [exact Hrun|]. split.
  - intros Hb. rewrite Hrun.
    assert (Hlt : (FRACTION_BLACK_THRESHOLD <? f)%float = false).
    { destruct Hb as [-> | ->]; reflexivity. }
    rewrite Hlt. split; [reflexivity | apply save_image_lookup].
  - intros ->. rewrite Hrun. reflexivity.
Qed.

Lemma blank_frame_threshold_witness :
  save_sub_image request_east 0 sub_image_85 empty_world
  = save_image sub_image_85
      (BuoyImageRequest.save_image_full_path request_east (Str.of_int 0))
      empty_world.
Proof.
  exact (proj1 (proj1 (proj2 (blank_frame_threshold request_east 0
                                sub_image_85 0.85%float empty_world
                                fraction_black_sub_image_85))
                  (or_introl eq_refl))).
Defined.

(** C4, the claim as stated fails: a sub-image with exactly 85% of its
    pixels black is written to its file, not excluded. *)
Lemma boundary_frame_is_persisted :
  fraction_black sub_image_85 = Ok 0.85%float
  /\ BuoyImageRequest.save_image_full_path request_east (Str.of_int 0)
     = "images/41001/2024_01_01_1200/41001_2024_01_01_1200_0.jpg"
  /\ files (snd (save_sub_image request_east 0 sub_image_85 empty_world))
       !! "images/41001/2024_01_01_1200/41001_2024_01_01_1200_0.jpg"
     = Some (ImageFile sub_image_85).
Proof.
  assert (Hpath : BuoyImageRequest.save_image_full_path request_east
                    (Str.of_int 0)
                  = "images/41001/2024_01_01_1200/41001_2024_01_01_1200_0.jpg")
    by (vm_compute; reflexivity).
  split; [exact fraction_black_sub_image_85|].
  split; [exact Hpath|].
  pose proof (save_sub_image_run request_east 0 sub_image_85 0.85%float
                empty_world fraction_black_sub_image_85) as Hrun.
  change (FRACTION_BLACK_THRESHOLD <? 0.85)%float with false in Hrun.
  rewrite Hrun, Hpath. apply save_image_lookup.
Qed.

(** X3: splitting gives exactly six sub-images of 480x270, at the offsets
    0, 480, ..., 2400; on a composite image of 2880x300 the pixel (x, y)
    of sub-image i is the pixel (x + 480 i, y) of the composite image. *)
Theorem split_image_six (img : Image) (i : nat) (sub : Image) (x y : Z) :
  width img = IMAGE_WIDTH -> height img = IMAGE_HEIGHT ->
  split_image img !! i = Some sub ->
  0 <= x < SUB_IMAGE_WIDTH -> 0 <= y < SUB_IMAGE_HEIGHT ->
  length (split_image img) = 6%nat
  /\ (i < 6)%nat
  /\ width sub = SUB_IMAGE_WIDTH /\ height sub = SUB_IMAGE_HEIGHT
  /\ lum sub x y = lum img (x + SUB_IMAGE_WIDTH * Z.of_nat i) y.
Proof.
  unfold IMAGE_WIDTH, IMAGE_HEIGHT, SUB_IMAGE_WIDTH, SUB_IMAGE_HEIGHT.
  intros Hw Hh Hsub Hx Hy. unfold split_image in *.
  apply lookup_map_seqZ in Hsub as [-> Hi].
  unfold BUOYCAM_IMAGE_ROW_LENGTH, SUB_IMAGE_WIDTH, SUB_IMAGE_HEIGHT in *.
  split; [reflexivity|]. split; [lia|]. simpl.
  split; [lia|]. split; [lia|].
  rewrite Hw, Hh.
  destruct ((0 <=? x + Z.of_nat i * 480) && (x + Z.of_nat i * 480 <? 2880)
            && (0 <=? y + 0) && (y + 0 <? 300)) eqn:Hin.
  - f_equal; lia.
  - repeat (apply andb_false_iff in Hin as [Hin|Hin]);
      first [apply Z.leb_gt in Hin | apply Z.ltb_ge in Hin]; lia.
Qed.

Lemma split_image_six_witness :
  length (split_image composite_gradient) = 6%nat
  /\ (1 < 6)%nat
  /\ width (crop composite_gradient 480 0 960 270) = SUB_IMAGE_WIDTH
  /\ height (crop composite_gradient 480 0 960 270) = SUB_IMAGE_HEIGHT
  /\ lum (crop composite_gradient 480 0 960 270) 7 9
     = lum composite_gradient (7 + SUB_IMAGE_WIDTH * Z.of_nat 1) 9.
Proof.
  apply (split_image_six composite_gradient 1
           (crop composite_gradient 480 0 960 270) 7 9);
    [reflexivity | reflexivity | reflexivity
    | unfold SUB_IMAGE_WIDTH; lia | unfold SUB_IMAGE_HEIGHT; lia].
Defined.

(** ** Fetching one image *)

(** C2, as amended: when the HTTP fetch of the composite image returns a
    non-success status, [fetch_and_process_image] returns [False] and no
    exception propagates; when the status is 200 and the body cannot be
    decoded as an image, the decoder's exception propagates to the
    caller.  In both cases nothing is written. *)
Theorem fetch_failure_modes {A : Type} (env : Env)
    (request : BuoyImageRequest.t) (buoy_data : BuoyData.t) (output_dir : A)
    (ocr_reader : option OCR.t) (w : World) (response : Response) :
  requests_get env (BuoyImageRequest.url request) = Ok response ->
  (status_code response <> 200 ->
   fetch_and_process_image env request buoy_data output_dir ocr_reader w
   = (Ok false, after_get request w))
  /\ (forall e, status_code response = 200 ->
        image_open env (content response) = Raise e ->
        fetch_and_process_image env request buoy_data output_dir ocr_reader w
        = (Raise e, after_get request w)).
Proof.
  intros Hget. split.
  - intros Hstatus. apply Z.eqb_neq in Hstatus.
    unfold fetch_and_process_image, get_image_file, http_get, rate_limit,
      emit, lift, mbind, St_bind, mret, St_ret.
    simpl. rewrite Hget, Hstatus. reflexivity.
  - intros e Hstatus Hopen. apply Z.eqb_eq in Hstatus.
    unfold fetch_and_process_image, get_image_file, http_get, rate_limit,
      emit, lift, mbind, St_bind, mret, St_ret.
    simpl. rewrite Hget, Hstatus. simpl. rewrite Hopen. reflexivity.
Qed.

Lemma fetch_failure_modes_witness :
  fetch_and_process_image env_not_found request_east (BuoyData.init "41001")
    "images" None empty_world
  = (Ok false, after_get request_east empty_world).
Proof.
  refine (proj1 (fetch_failure_modes env_not_found request_east
                   (BuoyData.init "41001") "images" None empty_world
                   {| status_code := 404; text := "Not Found";
                      content := "Not Found" |} eq_refl) _).
  simpl. lia.
Defined.

(** C2, the claim as stated fails: the server answers 200 with a body
    that is no image, and the call raises instead of returning [False]. *)
Lemma fetch_undecodable_body_raises :
  fst (fetch_and_process_image env_garbled request_east
         (BuoyData.init "41001") "images" None empty_world)
  = Raise UnidentifiedImageError.
Proof. vm_compute. reflexivity. Qed.

(** ** The filter of [main] *)

Lemma filter_requests_loop_spec (image_requests : list BuoyImageRequest.t)
    (buoy_data_lookup : gmap string BuoyData.t)
    (filtered_requests : list BuoyImageRequest.t) :
  filter_requests_loop image_requests buoy_data_lookup filtered_requests
  = if forallb (fun ir => bool_decide
                  (is_Some (buoy_data_lookup !! BuoyImageRequest.id ir)))
         image_requests
    then Ok (filtered_requests ++ image_requests)%list
    else Raise KeyError.
Proof.
  revert filtered_requests.
  induction image_requests as [|ir rest IH]; intros filtered_requests; simpl.
  - by rewrite app_nil_r.
  - unfold getitem.
    destruct (buoy_data_lookup !! BuoyImageRequest.id ir) as [bd|] eqn:Hbd;
      simpl.
    + rewrite IH, <- app_assoc. reflexivity.
    + reflexivity.
Qed.

(** X1: what the filtering loop of [main] does on every input: nothing is
    dropped; the list is kept whole when every id is a key of the map,
    and the loop raises [KeyError] otherwise. *)
Theorem filter_requests_spec (image_requests : list BuoyImageRequest.t)
    (buoy_data_lookup : gmap string BuoyData.t) :
  filter_requests image_requests buoy_data_lookup
  = if forallb (fun ir => bool_decide
                  (is_Some (buoy_data_lookup !! BuoyImageRequest.id ir)))
         image_requests
    then Ok image_requests
    else Raise KeyError.
Proof. apply filter_requests_loop_spec. Qed.

(** C1, evaluated: a request for a buoy that is no key of the map makes
    the filtering loop raise [KeyError] (the request is not dropped), and
    a request for a buoy whose observation store is empty is kept. *)
Theorem filter_requests_does_not_filter :
  filter_requests [request_east] ∅ = Raise KeyError
  /\ BuoyData.observations (BuoyData.init "41001") = ∅
  /\ filter_requests [request_east] {[ "41001" := BuoyData.init "41001" ]}
     = Ok [request_east].
Proof. repeat split; vm_compute; reflexivity. Qed.

(** ** The observation file *)

Lemma append_assoc (a b c : string) : (a +:+ b) +:+ c = a +:+ (b +:+ c).
Proof.
  induction a as [|x a IH]; [reflexivity|].
  change (String x ((a +:+ b) +:+ c) = String x (a +:+ (b +:+ c))).
  by rewrite IH.
Qed.

Lemma get_observation_str_for_file_lines (station_id : string)
    (description : option string) (lat_deg lon_deg : option float)
    (observation : Observation.t) (angle : option Z) :
  get_observation_str_for_file station_id description lat_deg lon_deg
    observation angle
  = lines_text (observation_lines station_id description lat_deg lon_deg
                  observation angle).
Proof.
  unfold get_observation_str_for_file, observation_lines, lines_text, item.
  cbn [foldr]. cbv zeta. rewrite !append_assoc. reflexivity.
Qed.

(** C8, evaluated: in the text written for an observation, every line is
    a field name, one space and the value, except the line of the wave
    height, where a colon follows the name: "wave_height_m: 1.5". *)
Theorem observation_file_wave_height_colon :
  get_observation_str_for_file "41001" (Some "EAST") (Some 34.7%float)
    (Some (-72.7)%float) observation_noon None
  = lines_text
      [ "id 41001";
        "description EAST";
        "timestamp 2024_01_01_1200";
        "lat_deg 34.7";
        "lon_deg -72.7";
        "first_image_bearing_deg None";
        "wind_speed_kts 9.7192";
        "wind_direction_deg 120.0";
        "gust_speed_kts None";
        "wave_height_m: 1.5";
        "dominant_wave_period_s None";
        "average_wave_period_s None";
        "mean_wave_direction_deg None";
        "atmospheric_pressure_hpa 1013.2";
        "air_temperature_c None";
        "water_temperature_c None";
        "dewpoint_temperature_c None";
        "visibility_m None";
        "pressure_tendency_hpa None";
        "tide_m None" ].
Proof. vm_compute. reflexivity. Qed.

(** X6: the text written for an observation is its twenty lines, in the
    order of [observation_lines], each ended by a newline; the tenth is
    the wave height, rendered after "wave_height_m:". *)
Theorem observation_file_layout (station_id : string)
    (description : option string) (lat_deg lon_deg : option float)
    (observation : Observation.t) (angle : option Z) :
  get_observation_str_for_file station_id description lat_deg lon_deg
    observation angle
  = lines_text (observation_lines station_id description lat_deg lon_deg
                  observation angle)
  /\ length (observation_lines station_id description lat_deg lon_deg
               observation angle) = 20%nat
  /\ observation_lines station_id description lat_deg lon_deg observation
       angle !! 9%nat
     = Some ("wave_height_m: "
             +:+ render (Observation.wave_height_m observation)).
Proof.
  split; [|split; reflexivity].
  unfold get_observation_str_for_file, observation_lines, lines_text, item.
  cbn [foldr]. cbv zeta. rewrite !append_assoc. reflexivity.
Qed.

(** ** What a computation adds to the trace *)

Section Emits.

Context (P : Event -> Prop).

Lemma emits_ret {A} (a : A) : emits P (mret a).
Proof. intros w. exists []. split; [by rewrite app_nil_r | constructor]. Qed.

Lemma emits_lift {A} (r : Res A) : emits P (lift r).
Proof. intros w. exists []. split; [by rewrite app_nil_r | constructor]. Qed.

Lemma emits_bind {A B} (m : St A) (f : A -> St B) :
  emits P m -> (forall a, emits P (f a)) -> emits P (m ≫= f).
Proof.
  intros Hm Hf w. unfold mbind, St_bind.
  destruct (Hm w) as (evs & Htr & Hall).
  destruct (m w) as [[a|e] w']; simpl in *.
  - destruct (Hf a w') as (evs' & Htr' & Hall').
    exists (evs ++ evs')%list. split.
    + rewrite Htr', Htr. by rewrite app_assoc.
    + by apply Forall_app.
  - exists evs. done.
Qed.

Lemma emits_ret_bind {A B} (a : A) (f : A -> St B) :
  emits P (f a) -> emits P (mret a ≫= f).
Proof. intros Hf w. exact (Hf w). Qed.

Lemma emits_lift_bind {A B} (r : Res A) (f : A -> St B) :
  (forall a, r = Ok a -> emits P (f a)) -> emits P (lift r ≫= f).
Proof.
  intros Hf w. unfold mbind, St_bind, lift. destruct r as [a|e].
  - exact (Hf a eq_refl w).
  - exists []. split; [by rewrite app_nil_r | constructor].
Qed.

Lemma emits_emit (e : Event) : P e -> emits P (emit e).
Proof. intros He w. exists [e]. split; [reflexivity | by repeat constructor]. Qed.

Lemma emits_write_file (path : string) (f : File) (e : Event) :
  P e -> emits P (write_file path f e).
Proof. intros He w. exists [e]. split; [reflexivity | by repeat constructor]. Qed.

Lemma emits_makedirs (path : string) :
  P (EvMakedirs path) -> emits P (makedirs path).
Proof.
  intros He w. exists [EvMakedirs path].
  split; [reflexivity | by repeat constructor].
Qed.

Lemma emits_path_exists (path : string) : emits P (path_exists path).
Proof. intros w. exists []. split; [by rewrite app_nil_r | constructor]. Qed.

Lemma run_pool_emits (tasks : list (BuoyImageRequest.t * St bool))
    (w : World) :
  Forall (fun task => emits P task.2) tasks ->
  exists evs, trace (run_pool tasks w).2 = (trace w ++ evs)%list /\ Forall P evs.
Proof.
  revert w. induction tasks as [|[request task] rest IH]; intros w Hall.
  - exists []. split; [by rewrite app_nil_r | constructor].
  - inversion Hall as [|? ? Htask Hrest]; subst. simpl in *.
    destruct (Htask w) as (evs & Htr & Hevs).
    destruct (task w) as [outcome w']. simpl in *.
    destruct (IH w' Hrest) as (evs' & Htr' & Hevs').
    destruct (run_pool rest w') as [outcomes w'']. simpl in *.
    exists (evs ++ evs')%list. split.
    + rewrite Htr', Htr. by rewrite app_assoc.
    + by apply Forall_app.
Qed.

Lemma emits_run_tasks (tasks : list (BuoyImageRequest.t * St bool)) :
  Forall (fun task => emits P task.2) tasks -> emits P (run_tasks tasks).
Proof.
  intros Hall w. unfold run_tasks.
  destruct (run_pool_emits tasks w Hall) as (evs & Htr & Hevs).
  destruct (run_pool tasks w) as [outcomes w']. by exists evs.
Qed.

Lemma emits_after_nil {A} (m : St A) : emits P m -> emits_after [] P m.
Proof. intros Hm w. destruct (Hm w) as (evs & ? & ?). by exists evs. Qed.

Lemma emits_after_emit {A} (e : Event) (pre : list Event)
    (f : unit -> St A) :
  emits_after pre P (f tt) -> emits_after (e :: pre) P (emit e ≫= f).
Proof.
  intros Hf w. unfold mbind, St_bind, emit.
  destruct (Hf {| dirs := dirs w; files := files w; trace := trace w ++ [e] |})
    as (evs & Htr & Hevs).
  exists evs. split; [|done]. rewrite Htr. simpl. by rewrite <- app_assoc.
Qed.

Lemma emits_after_ext {A} (pre : list Event) (m m' : St A) :
  (forall w, m w = m' w) -> emits_after pre P m' -> emits_after pre P m.
Proof. intros Heq Hm w. rewrite Heq. apply Hm. Qed.

End Emits.

Lemma St_bind_assoc {A B C} (m : St A) (f : A -> St B) (g : B -> St C)
    (w : World) :
  ((m ≫= f) ≫= g) w = (m ≫= (fun a => f a ≫= g)) w.
Proof.
  unfold mbind, St_bind. destruct (m w) as [[a|e] w']; reflexivity.
Qed.

(** Walks down a computation, one rule per construct; what is left is
    to show that each event it emits is allowed. *)
Ltac emits_walk :=
  repeat match goal with
    | |- emits _ (mret _) => apply emits_ret
    | |- emits _ (lift _) => apply emits_lift
    | |- emits _ (path_exists _) => apply emits_path_exists
    | |- emits _ (makedirs _) => apply emits_makedirs
    | |- emits _ (save_image _ _) => apply emits_write_file
    | |- emits _ (write_text _ _) => apply emits_write_file
    | |- emits _ (emit _) => apply emits_emit
    | |- emits _ (mret _ ≫= _) => apply emits_ret_bind
    | |- emits _ (_ ≫= _) => apply emits_bind; [|intros ?]
    | |- emits _ (if ?b then _ else _) => destruct b
    | |- emits _ (match ?x with _ => _ end) => destruct x
    end.

(** ** What the image phase does to the world *)

Lemma emits_save_sub_images (request : BuoyImageRequest.t) (i : Z)
    (sub_images : list Image) :
  emits no_bearing (save_sub_images request i sub_images).
Proof.
  revert i. induction sub_images as [|sub_img rest IH]; intros i; simpl.
  - apply emits_ret.
  - apply emits_bind; [|intros _; apply IH].
    unfold save_sub_image. emits_walk. exact I.
Qed.

(** A call with the [ocr_reader] parameter left at [None] reads no
    bearing, whatever is passed for [output_dir]. *)
Lemma emits_fetch_without_reader {A} (env : Env)
    (request : BuoyImageRequest.t) (buoy_data : BuoyData.t) (output_dir : A) :
  emits no_bearing
    (fetch_and_process_image env request buoy_data output_dir None).
Proof.
  unfold fetch_and_process_image, rate_limit, get_image_file, http_get.
  emits_walk; try exact I.
  - apply emits_save_sub_images.
  - simpl. eauto 10.
Qed.

(** Every task [main] submits is a call with no reader. *)
Lemma submitted_tasks_have_no_reader (env : Env)
    (buoy_data_lookup : gmap string BuoyData.t) (ocr_reader : OCR.t)
    (requests : list BuoyImageRequest.t)
    (tasks : list (BuoyImageRequest.t * St bool)) :
  mapM (submit env buoy_data_lookup ocr_reader) requests = Ok tasks ->
  Forall (fun task => emits no_bearing task.2) tasks.
Proof.
  revert tasks. induction requests as [|request rest IH]; intros tasks Hsub.
  - injection Hsub as <-. constructor.
  - simpl in Hsub.
    apply bind_Ok_inv in Hsub as (task & Htask & Hsub).
    apply bind_Ok_inv in Hsub as (tasks' & Hrest & Hsub).
    injection Hsub as <-. constructor; [|by apply IH].
    unfold submit in Htask.
    apply bind_Ok_inv in Htask as (buoy_data & _ & Htask).
    injection Htask as <-. simpl. apply emits_fetch_without_reader.
Qed.

(** C10: every call of [fetch_and_process_image] that [main] submits gets
    the constructed reader as its [output_dir] argument and leaves
    [ocr_reader] at [None]; so in the whole image phase the recogniser is
    never run, and every observation file written is rendered with no
    bearing: its sixth item is "first_image_bearing_deg None". *)
Theorem main_reads_no_bearing (env : Env) (buoy_cam_list : list listing_entry)
    (output : string) (hours : Z) (buoy_data_lookup : gmap string BuoyData.t)
    (ocr_reader : OCR.t) (w : World) :
  (forall request,
      submit env buoy_data_lookup ocr_reader request
      = (buoy_data ← getitem buoy_data_lookup (BuoyImageRequest.id request);
         Ok (request,
             fetch_and_process_image env request buoy_data
               (* output_dir := *) ocr_reader (* ocr_reader := *) None)))
  /\ (exists evs,
        trace (main_image_phase env buoy_cam_list output hours
                 buoy_data_lookup ocr_reader w).2
        = (trace w ++ evs)%list
        /\ Forall no_bearing evs)
  /\ (forall station_id description lat_deg lon_deg observation,
        get_observation_str_for_file station_id description lat_deg lon_deg
          observation None
        = lines_text (observation_lines station_id description lat_deg
                        lon_deg observation None)
        /\ observation_lines station_id description lat_deg lon_deg
             observation None !! 5%nat
           = Some "first_image_bearing_deg None").
Proof.
  split; [reflexivity|]. split.
  - revert w. change (emits no_bearing
                        (main_image_phase env buoy_cam_list output hours
                           buoy_data_lookup ocr_reader)).
    unfold main_image_phase.
    apply emits_lift_bind. intros image_requests _.
    apply emits_lift_bind. intros filtered_requests _.
    apply emits_lift_bind. intros tasks Htasks.
    eapply emits_run_tasks, submitted_tasks_have_no_reader, Htasks.
  - intros. split; [apply get_observation_str_for_file_lines | reflexivity].
Qed.

(** ** The gate before every request *)

Lemma emits_save_sub_images_local (request : BuoyImageRequest.t) (i : Z)
    (sub_images : list Image) :
  emits not_remote (save_sub_images request i sub_images).
Proof.
  revert i. induction sub_images as [|sub_img rest IH]; intros i; simpl.
  - apply emits_ret.
  - apply emits_bind; [|intros _; apply IH].
    unfold save_sub_image. emits_walk. exact I.
Qed.

(** X2: each worker function first passes the rate-limiter gate, then
    sends its one request; nothing it does afterwards is a request. *)
Theorem gate_before_request {A : Type} (env : Env)
    (request : BuoyImageRequest.t) (buoy_data : BuoyData.t) (output_dir : A)
    (ocr_reader : option OCR.t) (station_id : string) :
  emits_after [EvRateLimit; EvGet (BuoyImageRequest.url request)] not_remote
    (fetch_and_process_image env request buoy_data output_dir ocr_reader)
  /\ emits_after
       [EvRateLimit;
        EvGet (OBSERVATION_URL +:+ "/" +:+ station_id +:+ ".txt")]
       not_remote (get_observation_data env station_id).
Proof.
  split.
  - unfold fetch_and_process_image, rate_limit.
    apply emits_after_emit.
    unfold get_image_file, http_get.
    eapply emits_after_ext.
    { intros w. rewrite St_bind_assoc, St_bind_assoc. reflexivity. }
    apply emits_after_emit, emits_after_nil.
    emits_walk; try exact I.
    + apply emits_save_sub_images_local.
    + unfold get_angle_from_image, ocr_get_angle_from_image.
      emits_walk; exact I.
  - unfold get_observation_data, rate_limit.
    apply emits_after_emit. cbv zeta. unfold http_get.
    eapply emits_after_ext.
    { intros w. rewrite St_bind_assoc. reflexivity. }
    apply emits_after_emit, emits_after_nil.
    emits_walk.
Qed.

(** ** Further properties of fetching one image *)

(** X8: when the composite image is fetched and decoded but its size is
    not 2880x300, [fetch_and_process_image] returns [False] and writes
    nothing. *)
Theorem fetch_wrong_dimensions {A : Type} (env : Env)
    (request : BuoyImageRequest.t) (buoy_data : BuoyData.t) (output_dir : A)
    (ocr_reader : option OCR.t) (w : World) (response : Response)
    (img : Image) :
  requests_get env (BuoyImageRequest.url request) = Ok response ->
  status_code response = 200 ->
  image_open env (content response) = Ok img ->
  width img <> IMAGE_WIDTH \/ height img <> IMAGE_HEIGHT ->
  fetch_and_process_image env request buoy_data output_dir ocr_reader w
  = (Ok false, after_get request w).
Proof.
  intros Hget Hstatus Hopen Hdims. apply Z.eqb_eq in Hstatus.
  assert (Hbad : negb (width img =? IMAGE_WIDTH)
                 || negb (height img =? IMAGE_HEIGHT) = true).
  { destruct Hdims as [H|H]; apply Z.eqb_neq in H; rewrite H;
      [reflexivity | apply orb_true_r]. }
  unfold fetch_and_process_image, get_image_file, http_get, rate_limit,
    emit, lift, mbind, St_bind, mret, St_ret.
  simpl. rewrite Hget, Hstatus. simpl. rewrite Hopen, Hbad. reflexivity.
Qed.

Lemma fetch_wrong_dimensions_witness :
  fetch_and_process_image env_small_image request_east
    (BuoyData.init "41001") "images" None empty_world
  = (Ok false, after_get request_east empty_world).
Proof.
  apply (fetch_wrong_dimensions env_small_image request_east
           (BuoyData.init "41001") "images" None empty_world
           {| status_code := 200; text := ""; content := "JFIF" |}
           small_image);
    [reflexivity | reflexivity | reflexivity | left; discriminate].
Defined.

Section Preserves.

Context (R : World -> World -> Prop).
Context (R_refl : forall w, R w w).
Context (R_trans : forall w1 w2 w3, R w1 w2 -> R w2 w3 -> R w1 w3).

Lemma preserves_ret {A} (a : A) : preserves R (mret a).
Proof. intros w. apply R_refl. Qed.

Lemma preserves_lift {A} (r : Res A) : preserves R (lift r).
Proof. intros w. apply R_refl. Qed.

Lemma preserves_path_exists (path : string) : preserves R (path_exists path).
Proof. intros w. apply R_refl. Qed.

Lemma preserves_bind {A B} (m : St A) (f : A -> St B) :
  preserves R m -> (forall a, preserves R (f a)) -> preserves R (m ≫= f).
Proof.
  intros Hm Hf w. unfold mbind, St_bind. specialize (Hm w).
  destruct (m w) as [[a|e] w']; simpl in *; [|exact Hm].
  eapply R_trans; [exact Hm | apply Hf].
Qed.

End Preserves.

Lemma same_outside_refl (dir : string) (w : World) : same_outside dir w w.
Proof. intros path _. reflexivity. Qed.

Lemma same_outside_trans (dir : string) (w1 w2 w3 : World) :
  same_outside dir w1 w2 -> same_outside dir w2 w3 -> same_outside dir w1 w3.
Proof. intros H12 H23 path Hp. rewrite H23, H12 by exact Hp. reflexivity. Qed.

Lemma same_outside_emit (dir : string) (e : Event) :
  preserves (same_outside dir) (emit e).
Proof. intros w path _. reflexivity. Qed.

Lemma same_outside_makedirs (dir path : string) :
  preserves (same_outside dir) (makedirs path).
Proof. intros w p _. reflexivity. Qed.

Lemma same_outside_write_file (dir path : string) (f : File) (e : Event) :
  String.prefix (dir +:+ "/") path = true ->
  preserves (same_outside dir) (write_file path f e).
Proof.
  intros Hin w p Hout. unfold write_file. simpl.
  apply lookup_insert_ne. intros ->. congruence.
Qed.

Lemma prefix_append (a b : string) : String.prefix a (a +:+ b) = true.
Proof.
  induction a as [|c a IH]; [by destruct b|].
  change (String c a +:+ b) with (String c (a +:+ b)). simpl.
  destruct (ascii_dec c c); [exact IH | done].
Qed.

Lemma save_image_full_path_inside (request : BuoyImageRequest.t)
    (postfix : string) :
  String.prefix (BuoyImageRequest.save_directory request +:+ "/")
    (BuoyImageRequest.save_image_full_path request postfix) = true.
Proof.
  unfold BuoyImageRequest.save_image_full_path.
  rewrite <- append_assoc. apply prefix_append.
Qed.

Lemma observation_path_inside (request : BuoyImageRequest.t) :
  String.prefix (BuoyImageRequest.save_directory request +:+ "/")
    (BuoyImageRequest.save_directory request +:+ "/observation.txt") = true.
Proof.
  change "/observation.txt" with ("/" +:+ "observation.txt").
  rewrite <- append_assoc. apply prefix_append.
Qed.

Ltac frame_walk dir :=
  repeat match goal with
    | |- preserves _ (mret _) => apply preserves_ret, same_outside_refl
    | |- preserves _ (lift _) => apply preserves_lift, same_outside_refl
    | |- preserves _ (path_exists _) =>
        apply preserves_path_exists, same_outside_refl
    | |- preserves _ (makedirs _) => apply same_outside_makedirs
    | |- preserves _ (save_image _ _) => apply same_outside_write_file
    | |- preserves _ (write_text _ _) => apply same_outside_write_file
    | |- preserves _ (emit _) => apply same_outside_emit
    | |- preserves _ (_ ≫= _) =>
        apply (preserves_bind _ (same_outside_trans dir)); [|intros ?]
    | |- preserves _ (if ?b then _ else _) => destruct b
    | |- preserves _ (match ?x with _ => _ end) => destruct x
    end.

Lemma save_sub_images_inside (request : BuoyImageRequest.t) (i : Z)
    (sub_images : list Image) :
  emits (inside (BuoyImageRequest.save_directory request))
    (save_sub_images request i sub_images)
  /\ preserves (same_outside (BuoyImageRequest.save_directory request))
       (save_sub_images request i sub_images).
Proof.
  revert i. induction sub_images as [|sub_img rest IH]; intros i; simpl.
  - split; [apply emits_ret | apply preserves_ret, same_outside_refl].
  - destruct (IH (i + 1)) as [IHe IHp]. split.
    + apply emits_bind; [|intros _; exact IHe].
      unfold save_sub_image. emits_walk. apply save_image_full_path_inside.
    + apply (preserves_bind _ (same_outside_trans _));
        [|intros _; exact IHp].
      unfold save_sub_image.
      frame_walk (BuoyImageRequest.save_directory request).
      apply save_image_full_path_inside.
Qed.

Lemma fetch_emits_inside {A : Type} (env : Env)
    (request : BuoyImageRequest.t) (buoy_data : BuoyData.t) (output_dir : A)
    (ocr_reader : option OCR.t) :
  emits (inside (BuoyImageRequest.save_directory request))
    (fetch_and_process_image env request buoy_data output_dir ocr_reader).
Proof.
  unfold fetch_and_process_image, rate_limit, get_image_file, http_get.
  emits_walk; try exact I; try reflexivity;
    try apply save_image_full_path_inside;
    try apply observation_path_inside.
  - apply save_sub_images_inside.
  - unfold get_angle_from_image, ocr_get_angle_from_image.
    emits_walk; exact I.
Qed.

Lemma fetch_preserves_outside {A : Type} (env : Env)
    (request : BuoyImageRequest.t) (buoy_data : BuoyData.t) (output_dir : A)
    (ocr_reader : option OCR.t) :
  preserves (same_outside (BuoyImageRequest.save_directory request))
    (fetch_and_process_image env request buoy_data output_dir ocr_reader).
Proof.
  unfold fetch_and_process_image, rate_limit, get_image_file, http_get.
  frame_walk (BuoyImageRequest.save_directory request);
    try apply save_image_full_path_inside;
    try apply observation_path_inside.
  - apply save_sub_images_inside.
  - unfold get_angle_from_image, ocr_get_angle_from_image.
    frame_walk (BuoyImageRequest.save_directory request).
Qed.

(** X9: whatever [fetch_and_process_image] is given, and however it ends,
    the only directory it asks to be made is the request's save directory,
    every file it writes lies under that directory, and every file that
    does not is left as it was. *)
Theorem fetch_writes_inside_save_directory {A : Type} (env : Env)
    (request : BuoyImageRequest.t) (buoy_data : BuoyData.t) (output_dir : A)
    (ocr_reader : option OCR.t) :
  emits (inside (BuoyImageRequest.save_directory request))
    (fetch_and_process_image env request buoy_data output_dir ocr_reader)
  /\ preserves (same_outside (BuoyImageRequest.save_directory request))
       (fetch_and_process_image env request buoy_data output_dir ocr_reader).
Proof. split; [apply fetch_emits_inside | apply fetch_preserves_outside]. Qed.

(** ** Further properties of request generation *)

(** X10: the requests of a listing are those of its entries, in the order
    of the listing: generating for two listings joined is generating for
    each and joining the results (and raising if either raises). *)
Theorem generate_requests_app (l1 l2 : list listing_entry)
    (output_dir : string) (hours : Z) :
  generate_requests (l1 ++ l2) output_dir hours
  = (first ← generate_requests l1 output_dir hours;
     second ← generate_requests l2 output_dir hours;
     Ok (first ++ second)%list).
Proof.
  induction l1 as [|entry l1 IH].
  - simpl. by destruct (generate_requests l2 output_dir hours).
  - change ((entry :: l1) ++ l2)%list with (entry :: (l1 ++ l2))%list.
    rewrite !generate_requests_cons, IH.
    destruct (requests_of_entry entry output_dir hours) as [new|e];
      [|reflexivity].
    destruct (generate_requests l1 output_dir hours) as [first|e];
      [|reflexivity].
    destruct (generate_requests l2 output_dir hours) as [second|e];
      [|reflexivity].
    simpl. by rewrite app_assoc.
Qed.

Lemma split_char_head_no_sep (sep : ascii) (s : string) :
  Str.find (hd "" (Str.split_char sep s)) (String sep "") = -1.
Proof.
  assert (Hgen : forall i, Str.find_from (String sep "")
                             (hd "" (Str.split_char sep s)) i = -1).
  { induction s as [|c s IH]; intros i; [reflexivity|].
    simpl. destruct (Ascii.eqb c sep) eqn:Hc; [reflexivity|].
    destruct (Str.split_char sep s) as [|x xs] eqn:Hsplit.
    - simpl. destruct (ascii_dec sep c) as [->|_].
      + by rewrite Ascii.eqb_refl in Hc.
      + reflexivity.
    - simpl in *. destruct (ascii_dec sep c) as [->|_].
      + by rewrite Ascii.eqb_refl in Hc.
      + apply IH. }
  apply Hgen.
Qed.

Lemma requests_of_entry_fields (entry : listing_entry) (output_dir : string)
    (hours : Z) (reqs : list BuoyImageRequest.t) (r : BuoyImageRequest.t) :
  requests_of_entry entry output_dir hours = Ok reqs -> r ∈ reqs ->
  BuoyImageRequest.output_root_dir r = output_dir
  /\ entry !! "id" = Some (Some (BuoyImageRequest.id r))
  /\ entry !! "name" = Some (BuoyImageRequest.description r)
  /\ exists img_filename date_str latest i,
       entry !! "img" = Some (Some img_filename)
       /\ BuoyImageRequest.tag r = hd "" (Str.split_char "_" img_filename)
       /\ extract_date_string img_filename = Some date_str
       /\ date_string_to_date date_str = Ok (Some latest)
       /\ 0 <= i < hours * 6
       /\ BuoyImageRequest.date r = latest - 10 * i.
Proof.
  unfold requests_of_entry. intros Hreqs Hr.
  destruct (entry !! "id") as [[station_id|]|];
    destruct (entry !! "name") as [name|];
    destruct (entry !! "img") as [[img_filename|]|];
    try (injection Hreqs as <-; by apply elem_of_nil in Hr).
  destruct (extract_date_string img_filename) as [date_str|] eqn:Hds;
    [|injection Hreqs as <-; by apply elem_of_nil in Hr].
  apply bind_Ok_inv in Hreqs as ([latest|] & Hlatest & Hreqs);
    [|injection Hreqs as <-; by apply elem_of_nil in Hr].
  apply bind_Ok_inv in Hreqs as (dates & Hdates & Hreqs).
  injection Hreqs as <-.
  apply list_elem_of_In, in_map_iff in Hr as (date & <- & Hdate).
  simpl. repeat split. exists img_filename, date_str, latest.
  assert (Hi : exists i, 0 <= i < hours * 6 /\ date = latest - 10 * i).
  { clear -Hdates Hdate. unfold image_dates in Hdates.
    revert dates Hdates Hdate.
    generalize (seqZ 0 (hours * 6)) (fun i => proj1 (elem_of_seqZ 0 (hours * 6) i)).
    intros l. induction l as [|i l IH]; intros Hl dates Hdates Hdate.
    - injection Hdates as <-. destruct Hdate.
    - simpl in Hdates.
      apply bind_Ok_inv in Hdates as (d & Hd & Hdates).
      apply bind_Ok_inv in Hdates as (ds & Hds & Hdates).
      injection Hdates as <-. destruct Hdate as [<-|Hdate].
      + exists i. split; [apply Hl; left|].
        apply bind_Ok_inv in Hd as (delta & Hdelta & Hd).
        unfold datetime.timedelta_minutes in Hdelta.
        destruct (_ <? _); [discriminate|]. injection Hdelta as <-.
        unfold datetime.sub in Hd. destruct (_ && _); [|discriminate].
        by injection Hd as <-.
      + apply (IH (fun j Hj => Hl j (list_elem_of_further _ _ _ Hj)) ds Hds Hdate). }
  destruct Hi as (i & Hi & ->). exists i. done.
Qed.

(** Where each generated request comes from. *)
Lemma generate_requests_origin (buoy_cam_list : list listing_entry)
    (output_dir : string) (hours : Z) (reqs : list BuoyImageRequest.t)
    (r : BuoyImageRequest.t) :
  generate_requests buoy_cam_list output_dir hours = Ok reqs -> r ∈ reqs ->
  BuoyImageRequest.output_root_dir r = output_dir
  /\ Str.find (BuoyImageRequest.tag r) "_" = -1
  /\ exists entry img_filename date_str latest i,
       entry ∈ buoy_cam_list
       /\ entry !! "id" = Some (Some (BuoyImageRequest.id r))
       /\ entry !! "name" = Some (BuoyImageRequest.description r)
       /\ entry !! "img" = Some (Some img_filename)
       /\ BuoyImageRequest.tag r = hd "" (Str.split_char "_" img_filename)
       /\ extract_date_string img_filename = Some date_str
       /\ date_string_to_date date_str = Ok (Some latest)
       /\ 0 <= i < hours * 6
       /\ BuoyImageRequest.date r = latest - 10 * i.
Proof.
  revert reqs. induction buoy_cam_list as [|entry l IH]; intros reqs Hreqs Hr.
  - injection Hreqs as <-. by apply elem_of_nil in Hr.
  - rewrite generate_requests_cons in Hreqs.
    apply bind_Ok_inv in Hreqs as (new & Hnew & Hreqs).
    apply bind_Ok_inv in Hreqs as (more & Hmore & Hreqs).
    injection Hreqs as <-. apply elem_of_app in Hr as [Hr|Hr].
    + destruct (requests_of_entry_fields _ _ _ _ _ Hnew Hr)
        as (Hout & Hid & Hname & img & ds & latest & i & Himg & Htag & H).
      split; [exact Hout|]. split.
      * rewrite Htag. apply split_char_head_no_sep.
      * exists entry, img, ds, latest, i. split; [left|]. done.
    + destruct (IH more Hmore Hr)
        as (Hout & Htag & entry' & img & ds & latest & i & Hin & H).
      split; [exact Hout|]. split; [exact Htag|].
      exists entry', img, ds, latest, i. split; [by right | exact H].
Qed.

(** X11: no request is made up: every request that [generate_requests]
    returns carries the output directory it was given, the id and name of
    an entry of the listing, the part of that entry's image filename
    before its first underscore as tag (so the tag holds no underscore),
    and a date that lies a multiple of ten minutes, less than the window,
    before the date in that filename. *)
Theorem generate_requests_provenance (buoy_cam_list : list listing_entry)
    (output_dir : string) (hours : Z) (reqs : list BuoyImageRequest.t)
    (r : BuoyImageRequest.t) :
  generate_requests buoy_cam_list output_dir hours = Ok reqs -> r ∈ reqs ->
  BuoyImageRequest.output_root_dir r = output_dir
  /\ Str.find (BuoyImageRequest.tag r) "_" = -1
  /\ exists entry img_filename date_str latest i,
       entry ∈ buoy_cam_list
       /\ entry !! "id" = Some (Some (BuoyImageRequest.id r))
       /\ entry !! "name" = Some (BuoyImageRequest.description r)
       /\ entry !! "img" = Some (Some img_filename)
       /\ BuoyImageRequest.tag r = hd "" (Str.split_char "_" img_filename)
       /\ extract_date_string img_filename = Some date_str
       /\ date_string_to_date date_str = Ok (Some latest)
       /\ 0 <= i < hours * 6
       /\ BuoyImageRequest.date r = latest - 10 * i.
Proof. apply generate_requests_origin. Qed.

Lemma generate_requests_provenance_witness :
  BuoyImageRequest.output_root_dir request_east = "images"
  /\ Str.find (BuoyImageRequest.tag request_east) "_" = -1
  /\ exists entry img_filename date_str latest i,
       entry ∈ [listing_east]
       /\ entry !! "id" = Some (Some (BuoyImageRequest.id request_east))
       /\ entry !! "name" = Some (BuoyImageRequest.description request_east)
       /\ entry !! "img" = Some (Some img_filename)
       /\ BuoyImageRequest.tag request_east
          = hd "" (Str.split_char "_" img_filename)
       /\ extract_date_string img_filename = Some date_str
       /\ date_string_to_date date_str = Ok (Some latest)
       /\ 0 <= i < 1 * 6
       /\ BuoyImageRequest.date request_east = latest - 10 * i.
Proof.
  apply (generate_requests_provenance [listing_east] "images" 1
           (map (fun i => BuoyImageRequest.mk "41001" "41001" (Some "EAST")
                            (1063995120 - 10 * i) "images")
                (seqZ 0 6)) request_east).
  - vm_compute. reflexivity.
  - left.
Defined.

(** ** Further properties of the observation store *)

Lemma get_float_raises (row : gmap string string) (key : string)
    (convert_func : option (float -> float)) (e : exn) :
  get_float row key convert_func = Raise e -> e = ValueError.
Proof.
  unfold get_float. destruct (row !! key) as [raw|]; [|discriminate].
  destruct (String.eqb raw MISSING_DATA_INDICATOR); [discriminate|].
  unfold PyFloat.parse.
  repeat match goal with
         | |- context [match ?x with _ => _ end] => destruct x
         end; simpl; congruence.
Qed.

Ltac bind_cases H :=
  repeat match type of H with
    | (?m ≫= _) = _ =>
        let E := fresh "E" in
        destruct m eqn:E; simpl in H;
        [| injection H as <-; eauto using get_float_raises]
    end.

Lemma table_row_to_observation_raises (row : gmap string string) (e : exn) :
  table_row_to_observation row = Raise e -> e = ValueError.
Proof.
  unfold table_row_to_observation. intros H.
  destruct (row !! "YY"), (row !! "MM"), (row !! "DD"), (row !! "hh"),
    (row !! "mm"); try discriminate.
  bind_cases H. discriminate.
Qed.

Lemma add_rows_raises (data : BuoyData.t) (rows : list (gmap string string))
    (e : exn) :
  add_rows data rows = Raise e -> e = ValueError.
Proof.
  revert data. induction rows as [|row rows IH]; intros data H;
    [discriminate|].
  simpl in H.
  destruct (table_row_to_observation row) as [[o|]|e'] eqn:Hrow; simpl in H.
  - eapply IH, H.
  - eapply IH, H.
  - injection H as <-. eapply table_row_to_observation_raises, Hrow.
Qed.

Lemma fill_entry_raises (header values : list string) (i : nat)
    (entry : gmap string string) (e : exn) :
  fill_entry header values i entry = Raise e -> e = IndexError.
Proof.
  revert i entry. induction header as [|h header IH]; intros i entry H;
    [discriminate|].
  simpl in H. destruct (values !! i); [eapply IH, H | congruence].
Qed.

Lemma table_rows_raises (header rows : list string)
    (result : list (gmap string string)) (e : exn) :
  table_rows header rows result = Raise e -> e = IndexError.
Proof.
  revert result. induction rows as [|row rows IH]; intros result H;
    [discriminate|].
  simpl in H. destruct (_ =? _)%nat; [eapply IH, H|].
  destruct (fill_entry header (Str.split row) 0 ∅) eqn:Hfill; simpl in H.
  - eapply IH, H.
  - injection H as <-. eapply fill_entry_raises, Hfill.
Qed.

Lemma extract_table_data_raises (response : Response) (e : exn) :
  extract_table_data response = Raise e -> e = ValueError \/ e = IndexError.
Proof.
  unfold extract_table_data. destruct (negb _); [discriminate|].
  destruct (_ <? _)%nat; [intros [= <-]; by left|].
  destruct (table_rows _ _ _) eqn:Hrows; simpl; [discriminate|].
  intros [= <-]. right. eapply table_rows_raises, Hrows.
Qed.

(** What [get_observation_data] returns, and what it leaves behind. *)
Lemma get_observation_data_run (env : Env) (station_id : string) (w : World) :
  get_observation_data env station_id w
  = (response ← requests_get env (observation_url station_id);
     observation_data ← extract_table_data response;
     match observation_data with
     | None => Ok None
     | Some rows =>
         data ← add_rows (BuoyData.init station_id) rows; Ok (Some data)
     end,
     {| dirs := dirs w; files := files w;
        trace := (trace w ++ [EvRateLimit])
                 ++ [EvGet (observation_url station_id)] |}).
Proof.
  unfold get_observation_data, http_get, rate_limit, emit, lift, mbind,
    St_bind, mret, St_ret, observation_url.
  simpl.
  destruct (requests_get env _) as [response|e]; simpl; [|reflexivity].
  destruct (extract_table_data response) as [[rows|]|e]; simpl;
    try reflexivity.
  destruct (add_rows _ rows); reflexivity.
Qed.

(** X12: [get_observation_data] fails only through its request, or on a
    malformed table: with [ValueError] (fewer than three lines, or a cell
    that is neither the sentinel nor a number) or [IndexError] (a short
    row).  It returns [None] exactly when the request is answered with a
    status that is not 200.  It never touches a file or a directory. *)
Theorem get_observation_data_outcomes (env : Env) (station_id : string)
    (w : World) :
  (forall e, (get_observation_data env station_id w).1 = Raise e ->
             requests_get env (observation_url station_id) = Raise e
             \/ e = ValueError \/ e = IndexError)
  /\ ((get_observation_data env station_id w).1 = Ok None
      <-> exists response,
            requests_get env (observation_url station_id) = Ok response
            /\ status_code response <> 200)
  /\ dirs (get_observation_data env station_id w).2 = dirs w
  /\ files (get_observation_data env station_id w).2 = files w.
Proof.
  rewrite get_observation_data_run. simpl.
  split; [|split; [|split; reflexivity]].
  - intros e H.
    destruct (requests_get env _) as [response|e'];
      [|left; simpl in H; congruence].
    right. simpl in H.
    destruct (extract_table_data response) as [[rows|]|e'] eqn:Htable;
      simpl in H; try discriminate.
    + destruct (add_rows _ rows) eqn:Hrows; simpl in H; [discriminate|].
      injection H as <-. left. eapply add_rows_raises, Hrows.
    + injection H as <-. eapply extract_table_data_raises, Htable.
  - split.
    + intros H. destruct (requests_get env _) as [response|e];
        [|discriminate].
      exists response. split; [reflexivity|]. simpl in H.
      unfold extract_table_data in H.
      destruct (status_code response =? 200) eqn:Hs;
        [|by apply Z.eqb_neq in Hs].
      simpl in H. destruct (_ <? _)%nat; [discriminate|].
      destruct (table_rows _ _ _); simpl in H; [|discriminate].
      destruct (add_rows _ _); discriminate.
    + intros (response & -> & Hs). simpl. unfold extract_table_data.
      apply Z.eqb_neq in Hs. by rewrite Hs.
Qed.

(** The store's entries after [add_rows]. *)
Lemma add_rows_lookup (data data' : BuoyData.t)
    (rows : list (gmap string string)) :
  add_rows data rows = Ok data' ->
  BuoyData.id data' = BuoyData.id data
  /\ forall k o, BuoyData.observations data' !! k = Some o ->
       BuoyData.observations data !! k = Some o
       \/ (Observation.timestamp o = k
           /\ exists row, row ∈ rows
                          /\ table_row_to_observation row = Ok (Some o)).
Proof.
  revert data. induction rows as [|row rows IH]; intros data H.
  - injection H as <-. split; [reflexivity | by left].
  - simpl in H.
    destruct (table_row_to_observation row) as [[o'|]|e] eqn:Hrow;
      simpl in H; [| |discriminate].
    + destruct (IH _ H) as [Hid Hobs]. split; [exact Hid|].
      intros k o Hk. destruct (Hobs k o Hk) as [Hold|(Hts & r & Hr & Hro)].
      * simpl in Hold.
        destruct (decide (Observation.timestamp o' = k)) as [<-|Hne].
        -- rewrite lookup_insert_eq in Hold. injection Hold as <-.
           right. split; [reflexivity|]. exists row. split; [left | done].
        -- rewrite lookup_insert_ne in Hold by done. by left.
      * right. split; [exact Hts|]. exists r. split; [by right | done].
    + destruct (IH _ H) as [Hid Hobs]. split; [exact Hid|].
      intros k o Hk. destruct (Hobs k o Hk) as [Hold|(Hts & r & Hr & Hro)];
        [by left|].
      right. split; [exact Hts|]. exists r. split; [by right | done].
Qed.

(** X13: the store [get_observation_data] builds carries the station id
    it was asked for, and each observation in it was parsed from a row of
    the table and is stored under its own timestamp: a lookup by
    timestamp never returns the observation of another minute. *)
Theorem observation_store_keys (env : Env) (station_id : string) (w : World)
    (data : BuoyData.t) (timestamp : string) (o : Observation.t) :
  (get_observation_data env station_id w).1 = Ok (Some data) ->
  BuoyData.get_observation data timestamp = Some o ->
  BuoyData.id data = station_id
  /\ BuoyData.has_observation data timestamp = true
  /\ Observation.timestamp o = timestamp
  /\ exists response rows row,
       requests_get env (observation_url station_id) = Ok response
       /\ extract_table_data response = Ok (Some rows)
       /\ row ∈ rows
       /\ table_row_to_observation row = Ok (Some o).
Proof.
  rewrite get_observation_data_run. simpl. intros Hdata Hget.
  destruct (requests_get env _) as [response|e]; [|discriminate].
  simpl in Hdata.
  destruct (extract_table_data response) as [[rows|]|e] eqn:Htable;
    simpl in Hdata; try discriminate.
  destruct (add_rows _ rows) as [data'|e] eqn:Hrows; simpl in Hdata;
    [|discriminate].
  injection Hdata as <-.
  destruct (add_rows_lookup _ _ _ Hrows) as [Hid Hobs].
  unfold BuoyData.get_observation in Hget.
  destruct (BuoyData.has_observation data' timestamp) eqn:Hhas;
    [|discriminate].
  destruct (Hobs _ _ Hget) as [Hold|(Hts & row & Hrow & Hro)];
    [simpl in Hold; by rewrite lookup_empty in Hold|].
  repeat split; [exact Hid | exact Hts|].
  exists response, rows, row. done.
Qed.

Lemma observation_store_keys_witness :
  let o := Observation.mk "2024_01_01_1200" (Some (mps_to_kts 5)) None None
             None None None None None None None None None None None in
  let data := BuoyData.add_observation
                (BuoyData.add_observation (BuoyData.init "41001") o)
                (Observation.mk "2024_01_01_1150" None None None None None
                   None None None None None None None None None) in
  (get_observation_data env_table_complete "41001" empty_world).1
  = Ok (Some data)
  /\ BuoyData.get_observation data "2024_01_01_1200" = Some o
  /\ BuoyData.id data = "41001"
  /\ Observation.timestamp o = "2024_01_01_1200".
Proof.
  intros o data.
  assert (Hrun : (get_observation_data env_table_complete "41001"
                    empty_world).1 = Ok (Some data))
    by (vm_compute; reflexivity).
  assert (Hget : BuoyData.get_observation data "2024_01_01_1200" = Some o)
    by (vm_compute; reflexivity).
  destruct (observation_store_keys _ _ _ _ _ _ Hrun Hget)
    as (Hid & _ & Hts & _).
  exact (conj Hrun (conj Hget (conj Hid Hts))).
Defined.


(** X14: of the rows that give an observation for the same timestamp, the
    last one wins: the store holds, under that timestamp, the observation
    of the last such row. *)
Theorem add_rows_last_wins (data data' : BuoyData.t)
    (before after : list (gmap string string)) (row : gmap string string)
    (o : Observation.t) :
  add_rows data (before ++ row :: after) = Ok data' ->
  table_row_to_observation row = Ok (Some o) ->
  (forall r o', r ∈ after -> table_row_to_observation r = Ok (Some o') ->
                Observation.timestamp o' <> Observation.timestamp o) ->
  BuoyData.get_observation data' (Observation.timestamp o) = Some o.
Proof.
  assert (Hkeep : forall rows d d',
             add_rows d rows = Ok d' ->
             BuoyData.observations d !! Observation.timestamp o = Some o ->
             (forall r o', r ∈ rows ->
                table_row_to_observation r = Ok (Some o') ->
                Observation.timestamp o' <> Observation.timestamp o) ->
             BuoyData.observations d' !! Observation.timestamp o = Some o).
  { induction rows as [|r rows IH]; intros d d' Hd Ho Hother.
    - by injection Hd as <-.
    - simpl in Hd.
      destruct (table_row_to_observation r) as [[o'|]|e] eqn:Hr;
        simpl in Hd; [| |discriminate].
      + apply (IH _ _ Hd).
        * simpl. rewrite lookup_insert_ne; [exact Ho|].
          apply (Hother r o'); [left | exact Hr].
        * intros r' o'' Hin. apply Hother. by right.
      + apply (IH _ _ Hd Ho). intros r' o'' Hin. apply Hother. by right. }
  revert data. induction before as [|r before IH]; intros data Hd Hrow Hafter.
  - simpl in Hd. rewrite Hrow in Hd. simpl in Hd.
    assert (Hin : BuoyData.observations data' !! Observation.timestamp o
                  = Some o).
    { apply (Hkeep _ _ _ Hd); [|exact Hafter].
      simpl. apply lookup_insert_eq. }
    unfold BuoyData.get_observation, BuoyData.has_observation.
    rewrite Hin. rewrite bool_decide_true by eauto. reflexivity.
  - simpl in Hd.
    destruct (table_row_to_observation r) as [[o'|]|e]; simpl in Hd;
      [| |discriminate]; eapply IH; eauto.
Qed.

Lemma add_rows_last_wins_witness :
  exists data',
    add_rows (BuoyData.init "41001")
      [ {[ "YY" := "2024"; "MM" := "01"; "DD" := "01"; "hh" := "12";
           "mm" := "00"; "WSPD" := "5" ]};
        {[ "YY" := "2024"; "MM" := "01"; "DD" := "01"; "hh" := "12";
           "mm" := "00"; "WSPD" := "MM" ]} ]
    = Ok data'
    /\ BuoyData.get_observation data' "2024_01_01_1200"
       = Some (Observation.mk "2024_01_01_1200" None None None None None None
                 None None None None None None None None).
Proof.
  eexists. split; [vm_compute; reflexivity|].
  apply (add_rows_last_wins (BuoyData.init "41001") _
           [ {[ "YY" := "2024"; "MM" := "01"; "DD" := "01"; "hh" := "12";
                "mm" := "00"; "WSPD" := "5" ]} ] []
           {[ "YY" := "2024"; "MM" := "01"; "DD" := "01"; "hh" := "12";
              "mm" := "00"; "WSPD" := "MM" ]}
           (Observation.mk "2024_01_01_1200" None None None None None None
              None None None None None None None None)).
  - vm_compute. reflexivity.
  - vm_compute. reflexivity.
  - intros r o' Hin. by apply elem_of_nil in Hin.
Defined.

(** X15: [table_row_to_db_entry] and [table_row_to_observation] read a row
    alike, but for a row without one of the five timestamp columns: there
    the observation is [None] and the database entry raises [KeyError].
    Where the observation exists, the entry has its fields and the station
    id; where a cell is not a number, both raise [ValueError]. *)
Theorem table_row_to_db_entry_agrees (row : gmap string string)
    (station_id : string) :
  match table_row_to_observation row with
  | Ok (Some o) =>
      table_row_to_db_entry row station_id = Ok (db_entry_of station_id o)
  | Ok None => table_row_to_db_entry row station_id = Raise KeyError
  | Raise e => table_row_to_db_entry row station_id = Raise e
  end.
Proof.
  unfold table_row_to_observation, table_row_to_db_entry, getitem.
  destruct (row !! "YY"), (row !! "MM"), (row !! "DD"), (row !! "hh"),
    (row !! "mm"); try reflexivity.
  unfold mbind, Res_bind. cbv beta iota.
  repeat match goal with
         | |- context [get_float row ?k ?c] =>
             generalize (get_float row k c);
             let r := fresh "r" in
             intros r; destruct r; cbv beta iota; [|reflexivity]
         end.
  reflexivity.
Qed.

(** ** Decimal strings *)

Lemma is_digit_not_strip_space (c : ascii) :
  Str.is_digit c = true -> Str.is_strip_space c = false.
Proof.
  unfold Str.is_digit, Str.is_strip_space. generalize (Str.code c). intros n H.
  apply andb_true_iff in H as [H1%Z.leb_le H2%Z.leb_le].
  repeat (apply orb_false_iff; split);
    try apply andb_false_iff; try (apply Z.eqb_neq; lia).
  right. apply Z.leb_gt. lia.
Qed.

Lemma is_digit_not_sign (c : ascii) :
  Str.is_digit c = true ->
  Ascii.eqb c "-" = false /\ Ascii.eqb c "+" = false /\ Ascii.eqb c "_" = false.
Proof.
  intros H. repeat split; apply Ascii.eqb_neq; intros ->; discriminate.
Qed.

Lemma lstrip_digit (c : ascii) (l : list ascii) :
  Str.is_digit c = true -> Str.lstrip (c :: l) = c :: l.
Proof. intros H. simpl. by rewrite (is_digit_not_strip_space _ H). Qed.

Lemma strip_digits (l : list ascii) :
  Forall (fun c => Str.is_digit c = true) l -> Str.strip l = l.
Proof.
  intros H. unfold Str.strip.
  assert (Hl : forall l', Forall (fun c => Str.is_digit c = true) l' ->
                          Str.lstrip l' = l').
  { intros [|c l'] Hl'; [reflexivity|].
    apply lstrip_digit. by inversion Hl'. }
  rewrite (Hl l H), (Hl (rev l)); [apply rev_involutive|].
  by apply List.Forall_rev.
Qed.

Lemma digit_tail_digits (l : list ascii) :
  Forall (fun c => Str.is_digit c = true) l -> Str.digit_tail l = (l, []).
Proof.
  induction 1 as [|c l Hc _ IH]; [reflexivity|].
  simpl. by rewrite Hc, IH.
Qed.

(** [int()] on a string of decimal digits. *)
Lemma int_digits (l : list ascii) :
  l <> [] -> Forall (fun c => Str.is_digit c = true) l ->
  Str.int (string_of_list_ascii l) = Ok (Str.digits_val l).
Proof.
  intros Hne H. unfold Str.int.
  rewrite list_ascii_of_string_of_list_ascii, (strip_digits _ H).
  destruct H as [|c l Hc Hl]; [done|].
  destruct (is_digit_not_sign _ Hc) as (Hm & Hp & _).
  unfold Str.sign. rewrite Hm, Hp. unfold Str.digitpart.
  by rewrite Hc, (digit_tail_digits _ Hl).
Qed.



(** ** The bearing read from the recogniser's text *)


Lemma length_append (a b : string) :
  String.length (a +:+ b) = (String.length a + String.length b)%nat.
Proof.
  induction a as [|x a IH]; [reflexivity|].
  change (S (String.length (a +:+ b)) = S (String.length a + String.length b)).
  by rewrite IH.
Qed.



Lemma forallb_Forall_true {A} (f : A -> bool) (l : list A) :
  forallb f l = true -> Forall (fun x => f x = true) l.
Proof.
  induction l as [|x l IH]; simpl; [constructor|].
  intros [Hx Hl]%andb_true_iff. constructor; auto.
Qed.




(** ** The calendar: ordinals and dates *)

Lemma days_before_year_decomp (q400 q100 q4 q1 : Z) :
  0 <= q100 <= 3 -> 0 <= q4 <= 24 -> 0 <= q1 <= 3 ->
  datetime.days_before_year (400 * q400 + 100 * q100 + 4 * q4 + q1 + 1)
  = 146097 * q400 + 36524 * q100 + 1461 * q4 + 365 * q1.
Proof.
  intros H100 H4 H1. unfold datetime.days_before_year. cbv zeta.
  replace (400 * q400 + 100 * q100 + 4 * q4 + q1 + 1 - 1)
    with (400 * q400 + 100 * q100 + 4 * q4 + q1) by lia.
  assert (E4 : (400 * q400 + 100 * q100 + 4 * q4 + q1) / 4
               = 100 * q400 + 25 * q100 + q4).
  { symmetry. apply (Z.div_unique _ 4 _ q1); lia. }
  assert (E100 : (400 * q400 + 100 * q100 + 4 * q4 + q1) / 100
                 = 4 * q400 + q100).
  { symmetry. apply (Z.div_unique _ 100 _ (4 * q4 + q1)); lia. }
  assert (E400 : (400 * q400 + 100 * q100 + 4 * q4 + q1) / 400 = q400).
  { symmetry. apply (Z.div_unique _ 400 _ (100 * q100 + 4 * q4 + q1)); lia. }
  rewrite E4, E100, E400. lia.
Qed.

Lemma is_leap_decomp (q400 q100 q4 q1 : Z) :
  0 <= q100 <= 3 -> 0 <= q4 <= 24 -> 0 <= q1 <= 3 ->
  datetime.is_leap (400 * q400 + 100 * q100 + 4 * q4 + q1 + 1)
  = (q1 =? 3) && (negb (q4 =? 24) || (q100 =? 3)).
Proof.
  intros H100 H4 H1. unfold datetime.is_leap.
  assert (E4 : (400 * q400 + 100 * q100 + 4 * q4 + q1 + 1) mod 4
               = (q1 + 1) mod 4).
  { replace (400 * q400 + 100 * q100 + 4 * q4 + q1 + 1)
      with (q1 + 1 + (100 * q400 + 25 * q100 + q4) * 4) by lia.
    apply Z.mod_add. lia. }
  assert (E100 : (400 * q400 + 100 * q100 + 4 * q4 + q1 + 1) mod 100
                 = (4 * q4 + q1 + 1) mod 100).
  { replace (400 * q400 + 100 * q100 + 4 * q4 + q1 + 1)
      with (4 * q4 + q1 + 1 + (4 * q400 + q100) * 100) by lia.
    apply Z.mod_add. lia. }
  assert (E400 : (400 * q400 + 100 * q100 + 4 * q4 + q1 + 1) mod 400
                 = (100 * q100 + 4 * q4 + q1 + 1) mod 400).
  { replace (400 * q400 + 100 * q100 + 4 * q4 + q1 + 1)
      with (100 * q100 + 4 * q4 + q1 + 1 + q400 * 400) by lia.
    apply Z.mod_add. lia. }
  rewrite E4, E100, E400.
  apply eq_true_iff_eq.
  rewrite !andb_true_iff, !orb_true_iff, !negb_true_iff, !Z.eqb_eq,
    !Z.eqb_neq.
  pose proof (Z.div_mod (q1 + 1) 4 ltac:(lia)).
  pose proof (Z.mod_pos_bound (q1 + 1) 4 ltac:(lia)).
  pose proof (Z.div_mod (4 * q4 + q1 + 1) 100 ltac:(lia)).
  pose proof (Z.mod_pos_bound (4 * q4 + q1 + 1) 100 ltac:(lia)).
  pose proof (Z.div_mod (100 * q100 + 4 * q4 + q1 + 1) 400 ltac:(lia)).
  pose proof (Z.mod_pos_bound (100 * q100 + 4 * q4 + q1 + 1) 400 ltac:(lia)).
  lia.
Qed.

(** The month and the day of the month found for a day of the year. *)
Lemma month_day_spec (n : Z) (leapyear : bool) :
  0 <= n < 365 ->
  let '(month, day) := month_day n leapyear in
  1 <= month <= 12
  /\ 1 <= day
  /\ day <= datetime.at_index datetime.DAYS_IN_MONTH month
            + (if (month =? 2) && leapyear then 1 else 0)
  /\ datetime.at_index datetime.DAYS_BEFORE_MONTH month
     + (if (2 <? month) && leapyear then 1 else 0) + day = n + 1.
Proof.
  intros Hn. unfold month_day. rewrite Z.shiftr_div_pow2 by lia.
  change (2 ^ 5) with 32.
  pose proof (Z.div_mod (n + 50) 32 ltac:(lia)) as Hdiv.
  pose proof (Z.mod_pos_bound (n + 50) 32 ltac:(lia)) as Hmod.
  set (m := (n + 50) / 32) in *. clearbody m.
  assert (Hm : 1 <= m <= 12) by lia.
  cbv zeta.
  destruct (month_cases m Hm)
    as [->|[->|[->|[->|[->|[->|[->|[->|[->|[->|[->| ->]]]]]]]]]]];
    destruct leapyear; cbn;
    match goal with
    | |- context [?a <? ?b] => destruct (Z.ltb_spec a b)
    end; cbn;
    repeat match goal with
           | |- context [Z.pos ?a - Z.pos ?b] =>
               let v := eval vm_compute in (Z.pos a - Z.pos b) in
               change (Z.pos a - Z.pos b) with v
           end;
    cbn; cbv [Z.to_nat Pos.to_nat Pos.iter_op Init.Nat.add] in *; lia.
Qed.

Lemma ord2ymd_month_day (ordinal : Z) :
  datetime.ord2ymd ordinal
  = let n := ordinal - 1 in
    let n400 := n / 146097 in
    let n100 := n mod 146097 / 36524 in
    let n4 := n mod 146097 mod 36524 / 1461 in
    let n1 := n mod 146097 mod 36524 mod 1461 / 365 in
    let year := 400 * n400 + 100 * n100 + 4 * n4 + n1 + 1 in
    if (n1 =? 4) || (n100 =? 4) then (year - 1, 12, 31)
    else
      let md := month_day (n mod 146097 mod 36524 mod 1461 mod 365)
                  ((n1 =? 3) && (negb (n4 =? 24) || (n100 =? 3))) in
      (year, md.1, md.2).
Proof.
  unfold datetime.ord2ymd, month_day, datetime.DI400Y, datetime.DI100Y,
    datetime.DI4Y.
  cbv zeta.
  replace ((ordinal - 1) / 146097 * 400 + 1
           + (ordinal - 1) mod 146097 / 36524 * 100
           + (ordinal - 1) mod 146097 mod 36524 / 1461 * 4
           + (ordinal - 1) mod 146097 mod 36524 mod 1461 / 365)
    with (400 * ((ordinal - 1) / 146097)
          + 100 * ((ordinal - 1) mod 146097 / 36524)
          + 4 * ((ordinal - 1) mod 146097 mod 36524 / 1461)
          + (ordinal - 1) mod 146097 mod 36524 mod 1461 / 365 + 1) by lia.
  destruct (_ || _); [reflexivity|].
  destruct (_ <? _); reflexivity.
Qed.

(** [ord2ymd] gives a date of the calendar, and [ymd2ord] takes it back
    to the ordinal. *)
Lemma ymd2ord_ord2ymd (ordinal : Z) :
  1 <= ordinal <= datetime.MAXORDINAL ->
  let '(year, month, day) := datetime.ord2ymd ordinal in
  datetime.ymd2ord year month day = ordinal
  /\ 1 <= year <= 9999 /\ 1 <= month <= 12
  /\ 1 <= day <= datetime.days_in_month year month.
Proof.
  unfold datetime.MAXORDINAL. intros Hord.
  rewrite ord2ymd_month_day. cbv zeta.
  pose proof (Z.div_mod (ordinal - 1) 146097 ltac:(lia)) as D400.
  pose proof (Z.mod_pos_bound (ordinal - 1) 146097 ltac:(lia)) as B400.
  set (q400 := (ordinal - 1) / 146097) in *.
  set (r400 := (ordinal - 1) mod 146097) in *.
  pose proof (Z.div_mod r400 36524 ltac:(lia)) as D100.
  pose proof (Z.mod_pos_bound r400 36524 ltac:(lia)) as B100.
  set (q100 := r400 / 36524) in *. set (r100 := r400 mod 36524) in *.
  pose proof (Z.div_mod r100 1461 ltac:(lia)) as D4.
  pose proof (Z.mod_pos_bound r100 1461 ltac:(lia)) as B4.
  set (q4 := r100 / 1461) in *. set (r4 := r100 mod 1461) in *.
  pose proof (Z.div_mod r4 365 ltac:(lia)) as D1.
  pose proof (Z.mod_pos_bound r4 365 ltac:(lia)) as B1.
  set (q1 := r4 / 365) in *. set (r := r4 mod 365) in *.
  clearbody q400 r400 q100 r100 q4 r4 q1 r.
  assert (H400 : 0 <= q400 <= 24) by lia.
  assert (H100 : 0 <= q100 <= 4) by lia.
  assert (H4 : 0 <= q4 <= 24) by lia.
  assert (H1 : 0 <= q1 <= 4) by lia.
  destruct ((q1 =? 4) || (q100 =? 4)) eqn:Hlast.
  - (* the last day of a leap year *)
    apply orb_true_iff in Hlast.
    assert (Hyear : exists p100 p4,
               0 <= p100 <= 3 /\ 0 <= p4 <= 24
               /\ (p4 = 24 -> p100 = 3)
               /\ 400 * q400 + 100 * q100 + 4 * q4 + q1 + 1 - 1
                  = 400 * q400 + 100 * p100 + 4 * p4 + 3 + 1
               /\ ordinal
                  = 146097 * q400 + 36524 * p100 + 1461 * p4 + 1461).
    { destruct Hlast as [->%Z.eqb_eq| ->%Z.eqb_eq].
      - exists q100, q4. lia.
      - exists 3, 24. lia. }
    destruct Hyear as (p100 & p4 & Hp100 & Hp4 & Hp & -> & Hn).
    unfold datetime.ymd2ord, datetime.days_before_month,
      datetime.days_in_month.
    rewrite days_before_year_decomp, is_leap_decomp by lia.
    assert (Hleap : (3 =? 3) && (negb (p4 =? 24) || (p100 =? 3)) = true).
    { simpl. destruct (Z.eqb_spec p4 24); [|reflexivity].
      simpl. apply Z.eqb_eq. auto. }
    rewrite Hleap.
    change (datetime.at_index datetime.DAYS_BEFORE_MONTH 12) with 334.
    change (datetime.at_index datetime.DAYS_IN_MONTH 12) with 31.
    change ((2 <? 12) && true) with true.
    change ((12 =? 2) && true) with false.
    cbv iota. lia.
  - apply orb_false_iff in Hlast as [Hq1%Z.eqb_neq Hq100%Z.eqb_neq].
    pose proof (month_day_spec r
                  ((q1 =? 3) && (negb (q4 =? 24) || (q100 =? 3)))
                  ltac:(lia)) as Hmd.
    destruct (month_day r _) as [month day]. simpl.
    destruct Hmd as (Hm & Hd1 & Hd2 & Hsum).
    unfold datetime.ymd2ord, datetime.days_before_month,
      datetime.days_in_month.
    rewrite days_before_year_decomp, is_leap_decomp by lia.
    repeat split; try lia.
    destruct (Z.eqb_spec month 2) as [->|Hne].
    + change (datetime.at_index datetime.DAYS_IN_MONTH 2) with 28 in *.
      simpl andb in *. destruct (_ && _); lia.
    + simpl andb in *. cbv iota in *. lia.
Qed.

(** A point in time is the point its own fields make. *)
Lemma make_fields (d : datetime.t) :
  0 <= d < datetime.END ->
  datetime.make (datetime.year d) (datetime.month d) (datetime.day d)
    (datetime.hour d) (datetime.minute d) = Ok d.
Proof.
  unfold datetime.END. intros Hd.
  assert (Hord : 1 <= d / 1440 + 1 <= datetime.MAXORDINAL).
  { pose proof (Z.div_pos d 1440 ltac:(lia) ltac:(lia)).
    pose proof (Z.div_lt_upper_bound d 1440 datetime.MAXORDINAL
                  ltac:(lia) ltac:(lia)).
    lia. }
  pose proof (ymd2ord_ord2ymd _ Hord) as Hymd.
  unfold datetime.make, datetime.year, datetime.month, datetime.day,
    datetime.hour, datetime.minute, datetime.MINYEAR, datetime.MAXYEAR.
  destruct (datetime.ord2ymd (d / 1440 + 1)) as [[year month] day]. simpl.
  destruct Hymd as (Hback & Hy & Hm & Hday).
  pose proof (Z.div_mod d 1440 ltac:(lia)) as D.
  pose proof (Z.mod_pos_bound d 1440 ltac:(lia)) as B.
  pose proof (Z.div_mod (d mod 1440) 60 ltac:(lia)) as D60.
  pose proof (Z.mod_pos_bound (d mod 1440) 60 ltac:(lia)) as B60.
  assert (Hmin : d mod 60 = (d mod 1440) mod 60).
  { rewrite D at 1. replace (1440 * (d / 1440) + d mod 1440)
      with (d mod 1440 + (24 * (d / 1440)) * 60) by lia.
    apply Z.mod_add. lia. }
  assert (Hchk : (1 <=? year) && (year <=? 9999) && (1 <=? month)
                 && (month <=? 12) && (1 <=? day)
                 && (day <=? datetime.days_in_month year month)
                 && (0 <=? d mod 1440 / 60) && (d mod 1440 / 60 <=? 23)
                 && (0 <=? d mod 60) && (d mod 60 <=? 59) = true).
  { repeat (apply andb_true_iff; split); apply Z.leb_le; try lia. }
  rewrite Hchk, Hback. f_equal. lia.
Qed.

(** ** The timestamp of a request *)

Lemma code_digit_char (a : Z) :
  0 <= a <= 9 -> Str.code (Str.digit_char a) = 48 + a.
Proof.
  intros Ha.
  assert (Hc : a = 0 \/ a = 1 \/ a = 2 \/ a = 3 \/ a = 4 \/ a = 5 \/ a = 6
               \/ a = 7 \/ a = 8 \/ a = 9) by lia.
  destruct Hc as [->|[->|[->|[->|[->|[->|[->|[->|[->| ->]]]]]]]]];
    reflexivity.
Qed.

Lemma is_digit_digit_char (a : Z) :
  0 <= a <= 9 -> Str.is_digit (Str.digit_char a) = true.
Proof.
  intros Ha. unfold Str.is_digit. rewrite (code_digit_char a Ha).
  apply andb_true_iff. split; apply Z.leb_le; lia.
Qed.

Lemma int_two_digits (a b : Z) :
  0 <= a <= 9 -> 0 <= b <= 9 ->
  Str.int (String (Str.digit_char a) (String (Str.digit_char b) ""))
  = Ok (10 * a + b).
Proof.
  intros Ha Hb.
  change (String (Str.digit_char a) (String (Str.digit_char b) ""))
    with (string_of_list_ascii [Str.digit_char a; Str.digit_char b]).
  rewrite int_digits;
    [|done | repeat constructor; by apply is_digit_digit_char].
  unfold Str.digits_val, Str.digit_val. simpl.
  rewrite !code_digit_char by lia. f_equal. lia.
Qed.

Lemma int_four_digits (a b c d : Z) :
  0 <= a <= 9 -> 0 <= b <= 9 -> 0 <= c <= 9 -> 0 <= d <= 9 ->
  Str.int (String (Str.digit_char a) (String (Str.digit_char b)
            (String (Str.digit_char c) (String (Str.digit_char d) ""))))
  = Ok (1000 * a + 100 * b + 10 * c + d).
Proof.
  intros Ha Hb Hc Hd.
  change (String (Str.digit_char a) (String (Str.digit_char b)
            (String (Str.digit_char c) (String (Str.digit_char d) ""))))
    with (string_of_list_ascii [Str.digit_char a; Str.digit_char b;
                                Str.digit_char c; Str.digit_char d]).
  rewrite int_digits;
    [|done | repeat constructor; by apply is_digit_digit_char].
  unfold Str.digits_val, Str.digit_val. simpl.
  rewrite !code_digit_char by lia. f_equal. lia.
Qed.

Lemma pos_digits_step (fuel : nat) (n : Z) (acc : string) :
  Str.pos_digits (S fuel) n acc
  = if n <? 10 then String (Str.digit_char (n mod 10)) acc
    else Str.pos_digits fuel (n / 10)
           (String (Str.digit_char (n mod 10)) acc).
Proof. reflexivity. Qed.

Lemma log2_fuel (n k : Z) :
  0 <= k -> 2 ^ k <= n -> exists fuel, Z.to_nat (Z.log2 n) = (Z.to_nat k + fuel)%nat.
Proof.
  intros Hk Hn. exists (Z.to_nat (Z.log2 n) - Z.to_nat k)%nat.
  pose proof (Z.log2_le_mono _ _ Hn) as Hlog.
  rewrite Z.log2_pow2 in Hlog by lia. lia.
Qed.

(** A year of four digits, printed. *)
Lemma of_nonneg_four (y : Z) :
  1000 <= y <= 9999 ->
  Str.of_nonneg y
  = String (Str.digit_char (y / 1000))
      (String (Str.digit_char (y / 100 mod 10))
         (String (Str.digit_char (y / 10 mod 10))
            (String (Str.digit_char (y mod 10)) ""))).
Proof.
  intros Hy. unfold Str.of_nonneg.
  destruct (log2_fuel y 3 ltac:(lia) ltac:(simpl; lia)) as [fuel ->].
  change (Z.to_nat 3 + fuel)%nat with (S (S (S fuel))).
  rewrite !pos_digits_step.
  assert (H1 : y / 10 / 10 = y / 100) by (rewrite Z.div_div by lia; reflexivity).
  assert (H2 : y / 100 / 10 = y / 1000) by (rewrite Z.div_div by lia; reflexivity).
  rewrite H1, H2.
  assert (H3 : y / 1000 mod 10 = y / 1000).
  { apply Z.mod_small. split; [apply Z.div_pos; lia|].
    apply Z.div_lt_upper_bound; lia. }
  rewrite H3.
  destruct (Z.ltb_spec y 10); [lia|].
  destruct (Z.ltb_spec (y / 10) 10) as [Hlt|_].
  { pose proof (Z.div_le_lower_bound y 10 100 ltac:(lia) ltac:(lia)). lia. }
  destruct (Z.ltb_spec (y / 100) 10) as [Hlt|_].
  { pose proof (Z.div_le_lower_bound y 100 10 ltac:(lia) ltac:(lia)). lia. }
  destruct (Z.ltb_spec (y / 1000) 10) as [_|Hge]; [reflexivity|].
  pose proof (Z.div_lt_upper_bound y 1000 10 ltac:(lia) ltac:(lia)). lia.
Qed.

(** A field of two digits, printed. *)
Lemma pad2_two (v : Z) :
  0 <= v <= 99 ->
  Str.pad2 v
  = String (Str.digit_char (v / 10)) (String (Str.digit_char (v mod 10)) "").
Proof.
  intros Hv. unfold Str.pad2, Str.of_nonneg.
  destruct (Z.ltb_spec v 10) as [Hlt|Hge].
  - rewrite pos_digits_step.
    destruct (Z.ltb_spec v 10); [|lia].
    rewrite (Z.div_small v 10) by lia. reflexivity.
  - destruct (log2_fuel v 1 ltac:(lia) ltac:(simpl; lia)) as [fuel ->].
    change (Z.to_nat 1 + fuel)%nat with (S fuel).
    rewrite !pos_digits_step.
    destruct (Z.ltb_spec v 10); [lia|].
    assert (Hq : 0 <= v / 10 < 10).
    { split; [apply Z.div_pos; lia | apply Z.div_lt_upper_bound; lia]. }
    destruct (Z.ltb_spec (v / 10) 10); [|lia].
    by rewrite (Z.mod_small (v / 10) 10).
Qed.

Lemma decimal_digit (v k : Z) : 0 <= v -> 0 <= v / k mod 10 <= 9.
Proof. intros _. pose proof (Z.mod_pos_bound (v / k) 10 ltac:(lia)). lia. Qed.

Lemma decimal_units (v : Z) : 0 <= v mod 10 <= 9.
Proof. pose proof (Z.mod_pos_bound v 10 ltac:(lia)). lia. Qed.

Lemma days_in_month_le (year month : Z) :
  1 <= month <= 12 -> datetime.days_in_month year month <= 31.
Proof.
  intros Hm. unfold datetime.days_in_month.
  destruct (month_cases month Hm)
    as [->|[->|[->|[->|[->|[->|[->|[->|[->|[->|[->| ->]]]]]]]]]]];
    destruct (datetime.is_leap year); apply Z.leb_le; reflexivity.
Qed.

(** The fields of a point in time. *)
Lemma fields_range (d : datetime.t) :
  0 <= d < datetime.END ->
  1 <= datetime.year d <= 9999 /\ 1 <= datetime.month d <= 12
  /\ 1 <= datetime.day d <= 31
  /\ 0 <= datetime.hour d <= 23 /\ 0 <= datetime.minute d <= 59.
Proof.
  unfold datetime.END. intros Hd.
  assert (Hord : 1 <= d / 1440 + 1 <= datetime.MAXORDINAL).
  { pose proof (Z.div_pos d 1440 ltac:(lia) ltac:(lia)).
    pose proof (Z.div_lt_upper_bound d 1440 datetime.MAXORDINAL
                  ltac:(lia) ltac:(lia)).
    lia. }
  pose proof (ymd2ord_ord2ymd _ Hord) as Hymd.
  unfold datetime.year, datetime.month, datetime.day, datetime.hour,
    datetime.minute.
  destruct (datetime.ord2ymd (d / 1440 + 1)) as [[year month] day]. simpl.
  destruct Hymd as (_ & Hy & Hm & Hday).
  pose proof (days_in_month_le year month Hm).
  pose proof (Z.mod_pos_bound d 1440 ltac:(lia)) as B.
  pose proof (Z.mod_pos_bound d 60 ltac:(lia)) as B60.
  pose proof (Z.div_pos (d mod 1440) 60 ltac:(lia) ltac:(lia)).
  pose proof (Z.div_lt_upper_bound (d mod 1440) 60 24 ltac:(lia) ltac:(lia)).
  lia.
Qed.

Lemma four_digits_value (y : Z) :
  1000 * (y / 1000) + 100 * (y / 100 mod 10) + 10 * (y / 10 mod 10) + y mod 10
  = y.
Proof.
  pose proof (Z.div_mod y 10 ltac:(lia)) as D1.
  pose proof (Z.div_mod (y / 10) 10 ltac:(lia)) as D2.
  pose proof (Z.div_mod (y / 100) 10 ltac:(lia)) as D3.
  assert (E1 : y / 10 / 10 = y / 100)
    by (rewrite Z.div_div by lia; reflexivity).
  assert (E2 : y / 100 / 10 = y / 1000)
    by (rewrite Z.div_div by lia; reflexivity).
  lia.
Qed.

(** The timestamp of a point in time from the year 1000 on, by characters. *)
Lemma strftime_chars (d : datetime.t) :
  0 <= d < datetime.END -> 1000 <= datetime.year d ->
  exists y1 y2 y3 y4 m1 m2 d1 d2 h1 h2 n1 n2 : ascii,
    datetime.strftime d
    = string_of_list_ascii
        [y1; y2; y3; y4; "_"; m1; m2; "_"; d1; d2; "_"; h1; h2; n1; n2]%char
    /\ Forall (fun c => Str.is_digit c = true)
         [y1; y2; y3; y4; m1; m2; d1; d2; h1; h2; n1; n2]
    /\ Str.int (string_of_list_ascii [y1; y2; y3; y4]) = Ok (datetime.year d)
    /\ Str.int (string_of_list_ascii [m1; m2]) = Ok (datetime.month d)
    /\ Str.int (string_of_list_ascii [d1; d2]) = Ok (datetime.day d)
    /\ Str.int (string_of_list_ascii [h1; h2]) = Ok (datetime.hour d)
    /\ Str.int (string_of_list_ascii [n1; n2]) = Ok (datetime.minute d).
Proof.
  intros Hd Hy.
  destruct (fields_range d Hd) as (Hyear & Hmonth & Hday & Hhour & Hmin).
  unfold datetime.strftime.
  rewrite of_nonneg_four, !pad2_two by lia.
  set (y := datetime.year d) in *. set (mo := datetime.month d) in *.
  set (da := datetime.day d) in *. set (ho := datetime.hour d) in *.
  set (mi := datetime.minute d) in *.
  assert (Hy1 : 0 <= y / 1000 <= 9).
  { split; [apply Z.div_pos; lia|].
    pose proof (Z.div_lt_upper_bound y 1000 10 ltac:(lia) ltac:(lia)). lia. }
  assert (Htens : forall v, 0 <= v <= 99 -> 0 <= v / 10 <= 9).
  { intros v Hv. split; [apply Z.div_pos; lia|].
    pose proof (Z.div_lt_upper_bound v 10 10 ltac:(lia) ltac:(lia)). lia. }
  assert (Hval : forall v, 10 * (v / 10) + v mod 10 = v).
  { intros v. pose proof (Z.div_mod v 10 ltac:(lia)). lia. }
  eexists _, _, _, _, _, _, _, _, _, _, _, _.
  split; [reflexivity|]. split.
  { repeat constructor; apply is_digit_digit_char;
      auto using decimal_units, decimal_digit with lia. }
  repeat split.
  - simpl string_of_list_ascii.
    rewrite int_four_digits
      by auto using decimal_units, decimal_digit with lia.
    by rewrite four_digits_value.
  - simpl string_of_list_ascii.
    rewrite int_two_digits by auto using decimal_units with lia.
    by rewrite Hval.
  - simpl string_of_list_ascii.
    rewrite int_two_digits by auto using decimal_units with lia.
    by rewrite Hval.
  - simpl string_of_list_ascii.
    rewrite int_two_digits by auto using decimal_units with lia.
    by rewrite Hval.
  - simpl string_of_list_ascii.
    rewrite int_two_digits by auto using decimal_units with lia.
    by rewrite Hval.
Qed.

Lemma date_string_parses (d : datetime.t) :
  0 <= d < datetime.END -> 1000 <= datetime.year d ->
  Str.len (datetime.strftime d) = 15
  /\ date_string_to_date (datetime.strftime d) = Ok (Some d).
Proof.
  intros Hd Hy.
  destruct (strftime_chars d Hd Hy)
    as (y1 & y2 & y3 & y4 & m1 & m2 & d1 & d2 & h1 & h2 & n1 & n2
        & -> & _ & Hyear & Hmonth & Hday & Hhour & Hminute).
  split; [reflexivity|].
  unfold date_string_to_date.
  change (Str.len _ =? 15) with true. cbv iota. simpl negb. cbv iota.
  change (Str.slice _ None (Some 4))
    with (string_of_list_ascii [y1; y2; y3; y4]).
  change (Str.slice _ (Some 5) (Some 7)) with (string_of_list_ascii [m1; m2]).
  change (Str.slice _ (Some 8) (Some 10))
    with (string_of_list_ascii [d1; d2]).
  change (Str.slice _ (Some 11) (Some 13))
    with (string_of_list_ascii [h1; h2]).
  change (Str.slice _ (Some 13) (Some 15))
    with (string_of_list_ascii [n1; n2]).
  rewrite Hyear, Hmonth, Hday, Hhour, Hminute.
  unfold mbind, Res_bind. cbv beta iota.
  by rewrite (make_fields d Hd).
Qed.

(** X17: a timestamp written is read back as the time it was written
    from: for a time from the year 1000 on, [date_to_date_string] (and
    with it [BuoyImageRequest.date_string], which formats alike) gives 15
    characters, and [date_string_to_date] takes them back to that very
    time.  So the requests generated from a listing keep, in their file
    names, the exact minute they stand for. *)
Theorem date_string_round_trip (request : BuoyImageRequest.t) :
  0 <= BuoyImageRequest.date request < datetime.END ->
  1000 <= datetime.year (BuoyImageRequest.date request) ->
  BuoyImageRequest.date_string request
  = date_to_date_string (BuoyImageRequest.date request)
  /\ Str.len (date_to_date_string (BuoyImageRequest.date request)) = 15
  /\ date_string_to_date (date_to_date_string (BuoyImageRequest.date request))
     = Ok (Some (BuoyImageRequest.date request)).
Proof. intros Hd Hy. split; [reflexivity | by apply date_string_parses]. Qed.

Lemma date_string_round_trip_witness :
  BuoyImageRequest.date_string request_east = date_to_date_string 1063995120
  /\ Str.len (date_to_date_string 1063995120) = 15
  /\ date_string_to_date (date_to_date_string 1063995120)
     = Ok (Some 1063995120).
Proof.
  apply (date_string_round_trip request_east).
  - split; [apply Z.leb_le | apply Z.ltb_lt]; reflexivity.
  - apply Z.leb_le. reflexivity.
Defined.

(** ** Where the files of a request go *)

Lemma list_ascii_append (a b : string) :
  list_ascii_of_string (a +:+ b)
  = (list_ascii_of_string a ++ list_ascii_of_string b)%list.
Proof.
  induction a as [|x a IH]; [reflexivity|].
  change (x :: list_ascii_of_string (a +:+ b)
          = x :: (list_ascii_of_string a ++ list_ascii_of_string b)%list).
  by rewrite IH.
Qed.

Lemma list_ascii_inj (a b : string) :
  list_ascii_of_string a = list_ascii_of_string b -> a = b.
Proof.
  intros H.
  by rewrite <- (string_of_list_ascii_of_string a),
    <- (string_of_list_ascii_of_string b), H.
Qed.

Lemma length_list_ascii (s : string) :
  length (list_ascii_of_string s) = String.length s.
Proof. induction s as [|x s IH]; simpl; congruence. Qed.

Lemma date_string_length (d : datetime.t) :
  0 <= d < datetime.END -> 1000 <= datetime.year d ->
  String.length (datetime.strftime d) = 15%nat.
Proof.
  intros Hd Hy. destruct (date_string_parses d Hd Hy) as [Hlen _].
  unfold Str.len in Hlen. lia.
Qed.

Lemma date_string_inj (d d' : datetime.t) :
  0 <= d < datetime.END -> 1000 <= datetime.year d ->
  0 <= d' < datetime.END -> 1000 <= datetime.year d' ->
  datetime.strftime d = datetime.strftime d' -> d = d'.
Proof.
  intros Hd Hy Hd' Hy' Heq.
  destruct (date_string_parses d Hd Hy) as [_ H].
  destruct (date_string_parses d' Hd' Hy') as [_ H'].
  rewrite Heq in H. congruence.
Qed.

(** X18: for one output directory, the save directory of a request
    determines the station id and the time of the request (from the year
    1000 on): two requests that differ in either are saved to different
    directories, whatever characters the ids are made of. *)
Theorem save_directory_injective (r1 r2 : BuoyImageRequest.t) :
  0 <= BuoyImageRequest.date r1 < datetime.END ->
  1000 <= datetime.year (BuoyImageRequest.date r1) ->
  0 <= BuoyImageRequest.date r2 < datetime.END ->
  1000 <= datetime.year (BuoyImageRequest.date r2) ->
  BuoyImageRequest.output_root_dir r1 = BuoyImageRequest.output_root_dir r2 ->
  BuoyImageRequest.save_directory r1 = BuoyImageRequest.save_directory r2 ->
  BuoyImageRequest.id r1 = BuoyImageRequest.id r2
  /\ BuoyImageRequest.date r1 = BuoyImageRequest.date r2.
Proof.
  intros Hd1 Hy1 Hd2 Hy2 Hout Hdir.
  unfold BuoyImageRequest.save_directory, BuoyImageRequest.date_string in Hdir.
  rewrite Hout in Hdir.
  apply (f_equal list_ascii_of_string) in Hdir.
  rewrite !list_ascii_append in Hdir.
  apply app_inv_head in Hdir. apply app_inv_head in Hdir.
  rewrite !app_assoc in Hdir.
  apply app_inj_2 in Hdir as [Hid Hds].
  - apply app_inv_tail in Hid. split; [by apply list_ascii_inj|].
    apply list_ascii_inj in Hds. by apply date_string_inj.
  - by rewrite !length_list_ascii, !date_string_length.
Qed.

Lemma save_directory_injective_witness :
  BuoyImageRequest.save_directory request_east
  <> BuoyImageRequest.save_directory
       (BuoyImageRequest.mk "41001" "41001" (Some "EAST") 1063995110 "images").
Proof.
  intros Hdir.
  assert (Hsame : BuoyImageRequest.date request_east = 1063995110).
  { apply (save_directory_injective request_east
             (BuoyImageRequest.mk "41001" "41001" (Some "EAST") 1063995110
                "images")).
    - split; [apply Z.leb_le | apply Z.ltb_lt]; reflexivity.
    - apply Z.leb_le. reflexivity.
    - split; [apply Z.leb_le | apply Z.ltb_lt]; reflexivity.
    - apply Z.leb_le. reflexivity.
    - reflexivity.
    - exact Hdir. }
  discriminate Hsame.
Defined.

(** ** The calendar: dates and ordinals *)

Lemma days_before_year_succ (y : Z) :
  datetime.days_before_year (y + 1)
  = datetime.days_before_year y + 365
    + (if datetime.is_leap y then 1 else 0).
Proof.
  unfold datetime.days_before_year, datetime.is_leap. cbv zeta.
  replace (y + 1 - 1) with y by lia.
  destruct (Z.eqb_spec (y mod 4) 0) as [H4|H4];
    destruct (Z.eqb_spec (y mod 100) 0) as [H100|H100];
    destruct (Z.eqb_spec (y mod 400) 0) as [H400|H400];
    cbn [andb orb negb];
    Z.to_euclidean_division_equations; lia.
Qed.

Lemma days_before_month_step (year m m' : Z) :
  1 <= m -> m < m' -> m' <= 12 ->
  datetime.days_before_month year m + datetime.days_in_month year m
  <= datetime.days_before_month year m'.
Proof.
  intros H1 Hlt H12.
  unfold datetime.days_before_month, datetime.days_in_month.
  destruct (month_cases m ltac:(lia))
    as [->|[->|[->|[->|[->|[->|[->|[->|[->|[->|[->| ->]]]]]]]]]]];
    destruct (month_cases m' ltac:(lia))
      as [->|[->|[->|[->|[->|[->|[->|[->|[->|[->|[->| ->]]]]]]]]]]];
    try lia;
    destruct (datetime.is_leap year); apply Z.leb_le; reflexivity.
Qed.

(** Two dates of the calendar with the same ordinal are the same date. *)
Lemma ymd2ord_inj (y m d y' m' d' : Z) :
  1 <= y -> 1 <= m <= 12 -> 1 <= d <= datetime.days_in_month y m ->
  1 <= y' -> 1 <= m' <= 12 -> 1 <= d' <= datetime.days_in_month y' m' ->
  datetime.ymd2ord y m d = datetime.ymd2ord y' m' d' ->
  y = y' /\ m = m' /\ d = d'.
Proof.
  intros Hy Hm Hd Hy' Hm' Hd' Heq. unfold datetime.ymd2ord in Heq.
  pose proof (days_to_month_end y m Hm) as [Hb He].
  pose proof (days_to_month_end y' m' Hm') as [Hb' He'].
  pose proof (days_before_year_succ y) as Hs.
  pose proof (days_before_year_succ y') as Hs'.
  assert (Hyy : y = y').
  { destruct (Z.lt_trichotomy y y') as [Hlt|[Heq'|Hgt]]; [|exact Heq'|].
    - pose proof (days_before_year_mono (y + 1) y' ltac:(lia)). lia.
    - pose proof (days_before_year_mono (y' + 1) y ltac:(lia)). lia. }
  subst y'. split; [reflexivity|].
  assert (Hmm : m = m').
  { destruct (Z.lt_trichotomy m m') as [Hlt|[Heq'|Hgt]]; [|exact Heq'|].
    - pose proof (days_before_month_step y m m' ltac:(lia) Hlt ltac:(lia)).
      lia.
    - pose proof (days_before_month_step y m' m ltac:(lia) Hgt ltac:(lia)).
      lia. }
  subst m'. split; [reflexivity | lia].
Qed.

(** The fields of a point in time are those it was made of. *)
Lemma fields_make (year month day hour minute : Z) (d : datetime.t) :
  datetime.make year month day hour minute = Ok d ->
  datetime.year d = year /\ datetime.month d = month /\ datetime.day d = day
  /\ datetime.hour d = hour /\ datetime.minute d = minute.
Proof.
  intros Hmake. pose proof (make_range _ _ _ _ _ _ Hmake) as Hrange.
  revert Hmake. unfold datetime.make, datetime.MINYEAR, datetime.MAXYEAR.
  destruct (_ && _) eqn:Hv; [|discriminate].
  intros [= Hd].
  repeat (apply andb_prop in Hv as [Hv ?]).
  repeat match goal with H : (_ <=? _) = true |- _ => apply Z.leb_le in H end.
  pose proof (ymd2ord_range year month day ltac:(lia) ltac:(lia) ltac:(lia))
    as Hord.
  assert (Hdiv : d / 1440 + 1 = datetime.ymd2ord year month day).
  { assert (Hq : d / 1440 = datetime.ymd2ord year month day - 1); [|lia].
    symmetry. apply (Z.div_unique _ 1440 _ (hour * 60 + minute)); lia. }
  assert (Hmod : d mod 1440 = hour * 60 + minute).
  { symmetry.
    apply (Z.mod_unique _ 1440 (datetime.ymd2ord year month day - 1)); lia. }
  pose proof (ymd2ord_ord2ymd _ Hord) as Hback.
  unfold datetime.year, datetime.month, datetime.day, datetime.hour,
    datetime.minute.
  rewrite Hdiv, Hmod.
  destruct (datetime.ord2ymd _) as [[y' m'] d']. simpl.
  destruct Hback as (Heq & Hy' & Hm' & Hd').
  destruct (ymd2ord_inj y' m' d' year month day) as (-> & -> & ->);
    try lia.
  repeat split.
  - symmetry. apply (Z.div_unique _ 60 _ minute); lia.
  - assert (Hmin : d mod 60 = (d mod 1440) mod 60).
    { rewrite (Z.div_mod d 1440) at 1 by lia.
      replace (1440 * (d / 1440) + d mod 1440)
        with (d mod 1440 + (24 * (d / 1440)) * 60) by lia.
      apply Z.mod_add. lia. }
    rewrite Hmin, Hmod. symmetry. apply (Z.mod_unique _ 60 hour); lia.
Qed.

(** ** Names of image files, read back *)

Lemma split_char_head (c : ascii) (pre rest : string) :
  c ∉ list_ascii_of_string pre ->
  hd "" (Str.split_char c (pre +:+ String c rest)) = pre.
Proof.
  induction pre as [|x pre IH]; intros Hc.
  - simpl. by rewrite Ascii.eqb_refl.
  - change (String x pre +:+ String c rest)
      with (String x (pre +:+ String c rest)).
    simpl. simpl in Hc. apply not_elem_of_cons in Hc as [Hx Hpre].
    destruct (Ascii.eqb_spec x c) as [->|_]; [done|].
    specialize (IH Hpre).
    destruct (Str.split_char c (pre +:+ String c rest)) as [|y ys];
      simpl in *; by rewrite IH.
Qed.

Lemma find_from_first (c : ascii) (sub pre rest : string) (i : Z) :
  c ∉ list_ascii_of_string pre ->
  Str.find_from (String c sub) (pre +:+ String c sub +:+ rest) i
  = i + Str.len pre.
Proof.
  revert i. induction pre as [|x pre IH]; intros i Hc.
  - change ("" +:+ String c sub +:+ rest) with (String c (sub +:+ rest)).
    unfold Str.find_from.
    assert (Hp : String.prefix (String c sub) (String c (sub +:+ rest)) = true)
      by apply (prefix_append (String c sub) rest).
    destruct (String c (sub +:+ rest)); rewrite Hp; unfold Str.len; simpl; lia.
  - change (String x pre +:+ String c sub +:+ rest)
      with (String x (pre +:+ String c sub +:+ rest)).
    simpl in Hc. apply not_elem_of_cons in Hc as [Hx Hpre].
    cbn [Str.find_from]. cbn [String.prefix].
    destruct (ascii_dec c x) as [->|_]; [done|].
    rewrite (IH (i + 1) Hpre). unfold Str.len. simpl. lia.
Qed.

Lemma substring_from_zero (b c : string) :
  substring 0 (String.length b) (b +:+ c) = b.
Proof.
  induction b as [|x b IH]; [by destruct c|].
  change (String x (substring 0 (String.length b) (b +:+ c)) = String x b).
  by rewrite IH.
Qed.

Lemma substring_middle (a b c : string) :
  substring (String.length a) (String.length b) (a +:+ b +:+ c) = b.
Proof.
  induction a as [|x a IH]; [exact (substring_from_zero b c)|].
  exact IH.
Qed.

Lemma slice_middle (a b c : string) :
  Str.slice (a +:+ b +:+ c) (Some (Str.len a)) (Some (Str.len a + Str.len b))
  = b.
Proof.
  unfold Str.slice, Str.clamp, Str.len. rewrite !length_append.
  destruct (Z.ltb_spec (Z.of_nat (String.length a)) 0); [lia|].
  destruct (Z.ltb_spec (Z.of_nat (String.length a)
                        + Z.of_nat (String.length b)) 0); [lia|].
  rewrite !Z.min_l by lia.
  replace (Z.to_nat (Z.of_nat (String.length a) + Z.of_nat (String.length b)
                     - Z.of_nat (String.length a)))
    with (String.length b) by lia.
  rewrite Nat2Z.id. apply substring_middle.
Qed.

Lemma digit_char_digit_val (c : ascii) :
  Str.is_digit c = true ->
  Str.digit_char (Str.digit_val c) = c /\ 0 <= Str.digit_val c <= 9.
Proof.
  unfold Str.is_digit, Str.digit_char, Str.digit_val, Str.code.
  intros [H1%Z.leb_le H2%Z.leb_le]%andb_true_iff. split; [|lia].
  replace (48 + (Z.of_N (N_of_ascii c) - 48)) with (Z.of_N (N_of_ascii c))
    by lia.
  rewrite N2Z.id. apply ascii_N_embedding.
Qed.

Lemma four_digits_of (a b c d : Z) :
  0 <= a <= 9 -> 0 <= b <= 9 -> 0 <= c <= 9 -> 0 <= d <= 9 ->
  let y := 1000 * a + 100 * b + 10 * c + d in
  y / 1000 = a /\ y / 100 mod 10 = b /\ y / 10 mod 10 = c /\ y mod 10 = d.
Proof.
  intros Ha Hb Hc Hd y. subst y.
  assert (E1000 : (1000 * a + 100 * b + 10 * c + d) / 1000 = a).
  { symmetry. apply (Z.div_unique _ 1000 _ (100 * b + 10 * c + d)); lia. }
  assert (E100 : (1000 * a + 100 * b + 10 * c + d) / 100 = 10 * a + b).
  { symmetry. apply (Z.div_unique _ 100 _ (10 * c + d)); lia. }
  assert (E10 : (1000 * a + 100 * b + 10 * c + d) / 10
                = 100 * a + 10 * b + c).
  { symmetry. apply (Z.div_unique _ 10 _ d); lia. }
  rewrite E1000, E100, E10. repeat split.
  - symmetry. apply (Z.mod_unique _ 10 a); lia.
  - symmetry. apply (Z.mod_unique _ 10 (10 * a + b)); lia.
  - symmetry. apply (Z.mod_unique _ 10 (100 * a + 10 * b + c)); lia.
Qed.

Lemma two_digits_of (a b : Z) :
  0 <= a <= 9 -> 0 <= b <= 9 ->
  (10 * a + b) / 10 = a /\ (10 * a + b) mod 10 = b.
Proof.
  intros Ha Hb. split.
  - symmetry. apply (Z.div_unique _ 10 _ b); lia.
  - symmetry. apply (Z.mod_unique _ 10 a); lia.
Qed.

Lemma pad2_digits (a b : ascii) :
  Str.is_digit a = true -> Str.is_digit b = true ->
  Str.pad2 (10 * Str.digit_val a + Str.digit_val b) = String a (String b "").
Proof.
  intros Ha Hb.
  destruct (digit_char_digit_val a Ha) as [Ea Ra].
  destruct (digit_char_digit_val b Hb) as [Eb Rb].
  destruct (two_digits_of _ _ Ra Rb) as [Hq Hr].
  rewrite pad2_two by lia. by rewrite Hq, Hr, Ea, Eb.
Qed.

(** A timestamp in the form [strftime] writes is written again as it was
    read. *)
Lemma timestamp_parse_format (ts : string) (d : datetime.t) :
  is_timestamp ts = true ->
  date_string_to_date ts = Ok (Some d) ->
  datetime.strftime d = ts /\ 1000 <= datetime.year d.
Proof.
  unfold is_timestamp. intros Hts.
  rewrite <- (string_of_list_ascii_of_string ts).
  destruct (list_ascii_of_string ts)
    as [|y1 [|y2 [|y3 [|y4 [|u1 [|m1 [|m2 [|u2 [|d1 [|d2 [|u3 [|h1 [|h2
        [|n1 [|n2 [|]]]]]]]]]]]]]]]]; try discriminate.
  apply andb_true_iff in Hts as [Hts Hy1].
  apply andb_true_iff in Hts as [Hts ->%Ascii.eqb_eq].
  apply andb_true_iff in Hts as [Hts ->%Ascii.eqb_eq].
  apply andb_true_iff in Hts as [Hts ->%Ascii.eqb_eq].
  apply forallb_Forall_true in Hts.
  repeat match goal with
         | H : Forall _ (_ :: _) |- _ =>
             let Hc := fresh "Hc" in
             apply Forall_cons_1 in H as [Hc H]
         end.
  clear Hts.
  unfold date_string_to_date.
  change (Str.len _ =? 15) with true. simpl negb. cbv iota.
  change (Str.slice _ None (Some 4))
    with (string_of_list_ascii [y1; y2; y3; y4]).
  change (Str.slice _ (Some 5) (Some 7)) with (string_of_list_ascii [m1; m2]).
  change (Str.slice _ (Some 8) (Some 10))
    with (string_of_list_ascii [d1; d2]).
  change (Str.slice _ (Some 11) (Some 13))
    with (string_of_list_ascii [h1; h2]).
  change (Str.slice _ (Some 13) (Some 15))
    with (string_of_list_ascii [n1; n2]).
  rewrite !int_digits by (done || by repeat constructor).
  unfold mbind, Res_bind. cbv beta iota.
  destruct (datetime.make _ _ _ _ _) as [d'|] eqn:Hmake; [|discriminate].
  intros [= <-].
  apply fields_make in Hmake as (Hy & Hm & Hd & Hh & Hn).
  unfold Str.digits_val in *. cbn [fold_left] in *.
  destruct (digit_char_digit_val y1 Hc) as [E1 R1].
  destruct (digit_char_digit_val y2 Hc0) as [E2 R2].
  destruct (digit_char_digit_val y3 Hc1) as [E3 R3].
  destruct (digit_char_digit_val y4 Hc2) as [E4 R4].
  assert (Hnz : Str.digit_val y1 <> 0).
  { intros Hz. rewrite Hz in E1. subst y1. discriminate. }
  destruct (four_digits_of _ _ _ _ R1 R2 R3 R4) as (F1 & F2 & F3 & F4).
  assert (Hyear : datetime.year d'
                  = 1000 * Str.digit_val y1 + 100 * Str.digit_val y2
                    + 10 * Str.digit_val y3 + Str.digit_val y4) by lia.
  split; [|lia].
  unfold datetime.strftime.
  rewrite Hyear, of_nonneg_four by lia.
  rewrite F1, F2, F3, F4, E1, E2, E3, E4.
  replace (datetime.month d')
    with (10 * Str.digit_val m1 + Str.digit_val m2) by lia.
  replace (datetime.day d')
    with (10 * Str.digit_val d1 + Str.digit_val d2) by lia.
  replace (datetime.hour d')
    with (10 * Str.digit_val h1 + Str.digit_val h2) by lia.
  replace (datetime.minute d')
    with (10 * Str.digit_val n1 + Str.digit_val n2) by lia.
  rewrite !pad2_digits by assumption.
  reflexivity.
Qed.

Lemma is_timestamp_chars (ts : string) (c : ascii) :
  is_timestamp ts = true -> c ∈ list_ascii_of_string ts ->
  Str.is_digit c = true \/ c = "_"%char.
Proof.
  unfold is_timestamp. intros Hts Hc.
  destruct (list_ascii_of_string ts)
    as [|y1 [|y2 [|y3 [|y4 [|u1 [|m1 [|m2 [|u2 [|d1 [|d2 [|u3 [|h1 [|h2
        [|n1 [|n2 [|]]]]]]]]]]]]]]]]; try discriminate.
  apply andb_true_iff in Hts as [Hts _].
  apply andb_true_iff in Hts as [Hts ->%Ascii.eqb_eq].
  apply andb_true_iff in Hts as [Hts ->%Ascii.eqb_eq].
  apply andb_true_iff in Hts as [Hts ->%Ascii.eqb_eq].
  apply forallb_Forall_true in Hts. rewrite Forall_forall in Hts.
  repeat (apply elem_of_cons in Hc as [->|Hc];
          [first [by right | left; apply Hts; set_solver]|]).
  by apply elem_of_nil in Hc.
Qed.

Lemma is_timestamp_length (ts : string) :
  is_timestamp ts = true -> Str.len ts = 15.
Proof.
  unfold is_timestamp, Str.len. rewrite <- length_list_ascii. intros Hts.
  destruct (list_ascii_of_string ts)
    as [|y1 [|y2 [|y3 [|y4 [|u1 [|m1 [|m2 [|u2 [|d1 [|d2 [|u3 [|h1 [|h2
        [|n1 [|n2 [|]]]]]]]]]]]]]]]]; try discriminate.
  reflexivity.
Qed.

Lemma image_dates_head (latest : datetime.t) (n : Z) (dates : list datetime.t) :
  1 <= n -> image_dates latest n = Ok dates ->
  exists rest, dates = latest :: rest.
Proof.
  intros Hn. unfold image_dates. rewrite seqZ_cons by lia. simpl.
  intros H.
  apply bind_Ok_inv in H as (d & Hd & H).
  apply bind_Ok_inv in H as (rest & _ & H).
  injection H as <-. exists rest. f_equal.
  unfold datetime.sub in Hd. simpl in Hd.
  destruct (_ && _); [|discriminate]. injection Hd as <-. lia.
Qed.

Lemma extract_date_string_canonical (station_tag ts : string) :
  "_"%char ∉ list_ascii_of_string station_tag ->
  "."%char ∉ list_ascii_of_string station_tag ->
  is_timestamp ts = true ->
  extract_date_string (station_tag +:+ "_" +:+ ts +:+ ".jpg") = Some ts.
Proof.
  intros Hus Hdot Hts. unfold extract_date_string, Str.find.
  assert (Hstart : Str.find_from "_" (station_tag +:+ "_" +:+ ts +:+ ".jpg") 0
                   = Str.len station_tag).
  { apply (find_from_first "_" "" station_tag (ts +:+ ".jpg") 0 Hus). }
  assert (Hend : Str.find_from ".jpg" (station_tag +:+ "_" +:+ ts +:+ ".jpg") 0
                 = Str.len (station_tag +:+ "_")  + Str.len ts).
  { pose proof (find_from_first "." "jpg" (station_tag +:+ "_" +:+ ts) "" 0)
      as Hf.
    rewrite !append_assoc in Hf.
    change (".jpg" +:+ "") with ".jpg" in Hf.
    rewrite Hf.
    - unfold Str.len. rewrite !length_append. lia.
    - rewrite !list_ascii_append. intros Hin.
      apply elem_of_app in Hin as [Hin|Hin]; [by apply Hdot|].
      apply elem_of_app in Hin as [Hin|Hin].
      + apply list_elem_of_singleton in Hin. discriminate.
      + destruct (is_timestamp_chars ts "." Hts Hin); discriminate. }
  rewrite Hstart, Hend.
  assert (Hlen : 0 <= Str.len station_tag) by (unfold Str.len; lia).
  assert (Hlen' : 0 <= Str.len ts) by (unfold Str.len; lia).
  assert (Hlen2 : Str.len (station_tag +:+ "_") = Str.len station_tag + 1).
  { unfold Str.len. rewrite length_append. simpl. lia. }
  destruct (Z.eqb_spec (Str.len station_tag + 1) (-1)); [lia|].
  destruct (Z.eqb_spec (Str.len (station_tag +:+ "_") + Str.len ts) (-1));
    [lia|].
  rewrite <- Hlen2. f_equal.
  rewrite <- (append_assoc station_tag "_" (ts +:+ ".jpg")).
  apply slice_middle.
Qed.

(** X19: the newest request of a buoy asks for the very image the listing
    names.  For an entry whose image filename is a tag without underscore
    or dot, an underscore, a timestamp "YYYY_MM_DD_HHMM" of decimal digits
    (the year not starting with 0) and ".jpg", whenever the generator
    succeeds with a window of at least one hour, its first request has the
    entry's id and name, that tag, the timestamp of the filename as its
    [date_string], and the filename of the listing as its
    [image_filename], so that its URL is the image base URL followed by
    the listed filename. *)
Theorem newest_request_is_listed_image (entry : listing_entry)
    (station_id station_tag ts output_dir : string) (name : option string)
    (hours : Z) (reqs : list BuoyImageRequest.t) :
  entry !! "id" = Some (Some station_id) ->
  entry !! "name" = Some name ->
  entry !! "img" = Some (Some (station_tag +:+ "_" +:+ ts +:+ ".jpg")) ->
  "_"%char ∉ list_ascii_of_string station_tag ->
  "."%char ∉ list_ascii_of_string station_tag ->
  is_timestamp ts = true ->
  1 <= hours ->
  generate_requests [entry] output_dir hours = Ok reqs ->
  exists latest rest,
    reqs = BuoyImageRequest.mk station_id station_tag name latest output_dir
           :: rest
    /\ date_string_to_date ts = Ok (Some latest)
    /\ BuoyImageRequest.date_string
         (BuoyImageRequest.mk station_id station_tag name latest output_dir)
       = ts
    /\ BuoyImageRequest.image_filename
         (BuoyImageRequest.mk station_id station_tag name latest output_dir)
       = station_tag +:+ "_" +:+ ts +:+ ".jpg"
    /\ BuoyImageRequest.url
         (BuoyImageRequest.mk station_id station_tag name latest output_dir)
       = BUOYCAM_IMAGE_FILE_URL_BASE
         +:+ station_tag +:+ "_" +:+ ts +:+ ".jpg".
Proof.
  intros Hid Hname Himg Hus Hdot Hts Hhours.
  rewrite generate_requests_one. unfold requests_of_entry.
  rewrite Hid, Hname, Himg.
  rewrite (extract_date_string_canonical _ _ Hus Hdot Hts).
  assert (Htag : hd "" (Str.split_char "_"
                          (station_tag +:+ "_" +:+ ts +:+ ".jpg"))
                 = station_tag)
    by exact (split_char_head "_" station_tag (ts +:+ ".jpg") Hus).
  rewrite Htag.
  intros Hreqs.
  apply bind_Ok_inv in Hreqs as ([latest|] & Hlatest & Hreqs);
    [|unfold date_string_to_date in Hlatest;
      rewrite (is_timestamp_length ts Hts) in Hlatest; simpl in Hlatest;
      do 6 (apply bind_Ok_inv in Hlatest as (? & _ & Hlatest));
      discriminate].
  apply bind_Ok_inv in Hreqs as (dates & Hdates & Hreqs).
  injection Hreqs as <-.
  destruct (image_dates_head latest (hours * 6) dates ltac:(lia) Hdates)
    as [rest ->].
  destruct (timestamp_parse_format ts latest Hts Hlatest) as [Hfmt _].
  exists latest, (map (fun date => BuoyImageRequest.mk station_id station_tag
                                     name date output_dir) rest).
  split; [reflexivity|]. split; [exact Hlatest|].
  unfold BuoyImageRequest.url, BuoyImageRequest.image_filename,
    BuoyImageRequest.image_name, BuoyImageRequest.date_string.
  cbn [BuoyImageRequest.tag BuoyImageRequest.date]. rewrite Hfmt.
  rewrite !append_assoc. done.
Qed.

Lemma newest_request_is_listed_image_witness :
  exists latest rest,
    map (fun i => BuoyImageRequest.mk "41001" "41001" (Some "EAST")
                    (1063995120 - 10 * i) "images")
        (seqZ 0 6)
    = BuoyImageRequest.mk "41001" "41001" (Some "EAST") latest "images" :: rest
    /\ date_string_to_date "2024_01_01_1200" = Ok (Some latest)
    /\ BuoyImageRequest.date_string
         (BuoyImageRequest.mk "41001" "41001" (Some "EAST") latest "images")
       = "2024_01_01_1200"
    /\ BuoyImageRequest.image_filename
         (BuoyImageRequest.mk "41001" "41001" (Some "EAST") latest "images")
       = "41001" +:+ "_" +:+ "2024_01_01_1200" +:+ ".jpg"
    /\ BuoyImageRequest.url
         (BuoyImageRequest.mk "41001" "41001" (Some "EAST") latest "images")
       = BUOYCAM_IMAGE_FILE_URL_BASE
         +:+ "41001" +:+ "_" +:+ "2024_01_01_1200" +:+ ".jpg".
Proof.
  apply (newest_request_is_listed_image listing_east "41001" "41001"
           "2024_01_01_1200" "images" (Some "EAST") 1).
  - reflexivity.
  - reflexivity.
  - reflexivity.
  - simpl. intros Hin.
    repeat (apply elem_of_cons in Hin as [Hin|Hin]; [discriminate|]).
    by apply elem_of_nil in Hin.
  - simpl. intros Hin.
    repeat (apply elem_of_cons in Hin as [Hin|Hin]; [discriminate|]).
    by apply elem_of_nil in Hin.
  - reflexivity.
  - lia.
  - vm_compute. reflexivity.
Defined.

(** ** The footprint of the image phase *)

Lemma emits_weaken {A} (P Q : Event -> Prop) (m : St A) :
  (forall e, P e -> Q e) -> emits P m -> emits Q m.
Proof.
  intros HPQ Hm w. destruct (Hm w) as (evs & Htr & Hevs).
  exists evs. split; [exact Htr|]. eapply Forall_impl; eauto.
Qed.

Lemma emits_save_sub_images_footprint (request : BuoyImageRequest.t) (i : Z)
    (sub_images : list Image) :
  emits (footprint request) (save_sub_images request i sub_images).
Proof.
  revert i. induction sub_images as [|sub_img rest IH]; intros i; simpl.
  - apply emits_ret.
  - apply emits_bind; [|intros _; apply IH].
    unfold save_sub_image. emits_walk. apply save_image_full_path_inside.
Qed.

Lemma fetch_emits_footprint {A : Type} (env : Env)
    (request : BuoyImageRequest.t) (buoy_data : BuoyData.t) (output_dir : A)
    (ocr_reader : option OCR.t) :
  emits (footprint request)
    (fetch_and_process_image env request buoy_data output_dir ocr_reader).
Proof.
  unfold fetch_and_process_image, rate_limit, get_image_file, http_get.
  emits_walk; try exact I; try reflexivity;
    try apply save_image_full_path_inside;
    try apply observation_path_inside.
  - apply emits_save_sub_images_footprint.
  - unfold get_angle_from_image, ocr_get_angle_from_image.
    emits_walk; exact I.
Qed.

Lemma submitted_tasks_footprint (env : Env)
    (buoy_data_lookup : gmap string BuoyData.t) (ocr_reader : OCR.t)
    (requests : list BuoyImageRequest.t)
    (tasks : list (BuoyImageRequest.t * St bool)) :
  mapM (submit env buoy_data_lookup ocr_reader) requests = Ok tasks ->
  Forall (fun task =>
            emits (fun e => exists r, r ∈ requests /\ footprint r e) task.2)
         tasks.
Proof.
  revert tasks. induction requests as [|request rest IH]; intros tasks Hsub.
  - injection Hsub as <-. constructor.
  - simpl in Hsub.
    apply bind_Ok_inv in Hsub as (task & Htask & Hsub).
    apply bind_Ok_inv in Hsub as (tasks' & Hrest & Hsub).
    injection Hsub as <-. constructor.
    + unfold submit in Htask.
      apply bind_Ok_inv in Htask as (buoy_data & _ & Htask).
      injection Htask as <-. simpl.
      eapply emits_weaken; [|apply fetch_emits_footprint].
      intros e He. exists request. split; [left | exact He].
    + eapply Forall_impl; [apply IH, Hrest|].
      intros task' Htask'. eapply emits_weaken; [|exact Htask'].
      intros e (r & Hr & He). exists r. split; [by right | exact He].
Qed.

(** X20: the footprint of the image phase of [main].  With the requests
    that [generate_requests] gives for the listing, every GET of the phase
    is for the URL of one of these requests, the only directories it asks
    to be made are save directories of these requests, and every file it
    writes lies under the save directory of one of them; this holds also
    when the phase ends in an exception.  If the generator raises, the
    phase raises the same and does nothing. *)
Theorem main_image_phase_footprint (env : Env)
    (buoy_cam_list : list listing_entry) (output : string) (hours : Z)
    (buoy_data_lookup : gmap string BuoyData.t) (ocr_reader : OCR.t) :
  (forall requests,
      generate_requests buoy_cam_list output hours = Ok requests ->
      emits (fun e => exists r, r ∈ requests /\ footprint r e)
        (main_image_phase env buoy_cam_list output hours buoy_data_lookup
           ocr_reader))
  /\ (forall e w,
        generate_requests buoy_cam_list output hours = Raise e ->
        main_image_phase env buoy_cam_list output hours buoy_data_lookup
          ocr_reader w = (Raise e, w)).
Proof.
  split.
  - intros requests Hgen. unfold main_image_phase. rewrite Hgen.
    apply emits_lift_bind. intros image_requests [= <-].
    apply emits_lift_bind. intros filtered_requests Hfilter.
    assert (Hsame : filtered_requests = requests).
    { unfold filter_requests in Hfilter.
      rewrite filter_requests_loop_spec in Hfilter.
      destruct (forallb _ _); [|discriminate]. by injection Hfilter as <-. }
    subst filtered_requests.
    apply emits_lift_bind. intros tasks Htasks.
    eapply emits_run_tasks, submitted_tasks_footprint, Htasks.
  - intros e w Hgen. unfold main_image_phase. rewrite Hgen. reflexivity.
Qed.

Lemma main_image_phase_footprint_witness :
  emits (fun e => exists r,
           r ∈ map (fun i => BuoyImageRequest.mk "41001" "41001" (Some "EAST")
                               (1063995120 - 10 * i) "images")
                   (seqZ 0 6)
           /\ footprint r e)
    (main_image_phase env_small_image [listing_east] "images" 1
       {[ "41001" := BuoyData.init "41001" ]} (OCR.mk (fun _ => []))).
Proof.
  apply (proj1 (main_image_phase_footprint env_small_image [listing_east]
                  "images" 1 {[ "41001" := BuoyData.init "41001" ]}
                  (OCR.mk (fun _ => [])))).
  vm_compute. reflexivity.
Defined.

(** ** Requests do not write into each other's directories *)

Lemma prefix_exists (a s : string) :
  String.prefix a s = true -> exists x, s = a +:+ x.
Proof.
  revert s. induction a as [|c a IH]; intros s H.
  - by exists s.
  - destruct s as [|c' s]; [discriminate|]. simpl in H.
    destruct (ascii_dec c c') as [<-|]; [|discriminate].
    destruct (IH s H) as [x ->]. by exists x.
Qed.

Lemma first_sep_unique {A} (c : A) (l1 l2 r1 r2 : list A) :
  c ∉ l1 -> c ∉ l2 -> (l1 ++ c :: r1 = l2 ++ c :: r2)%list ->
  l1 = l2 /\ r1 = r2.
Proof.
  revert l2. induction l1 as [|x l1 IH]; intros [|y l2] H1 H2 Heq;
    simpl in Heq.
  - by injection Heq as ->.
  - injection Heq as <- _. by apply not_elem_of_cons in H2 as [? _].
  - injection Heq as -> _. by apply not_elem_of_cons in H1 as [? _].
  - injection Heq as -> Heq.
    apply not_elem_of_cons in H1 as [_ H1].
    apply not_elem_of_cons in H2 as [_ H2].
    destruct (IH l2 H1 H2 Heq) as [-> ->]. done.
Qed.

Lemma save_directories_disjoint (r1 r2 : BuoyImageRequest.t) (path : string) :
  0 <= BuoyImageRequest.date r1 < datetime.END ->
  1000 <= datetime.year (BuoyImageRequest.date r1) ->
  0 <= BuoyImageRequest.date r2 < datetime.END ->
  1000 <= datetime.year (BuoyImageRequest.date r2) ->
  BuoyImageRequest.output_root_dir r1 = BuoyImageRequest.output_root_dir r2 ->
  "/"%char ∉ list_ascii_of_string (BuoyImageRequest.id r1) ->
  "/"%char ∉ list_ascii_of_string (BuoyImageRequest.id r2) ->
  String.prefix (BuoyImageRequest.save_directory r1 +:+ "/") path = true ->
  String.prefix (BuoyImageRequest.save_directory r2 +:+ "/") path = true ->
  BuoyImageRequest.id r1 = BuoyImageRequest.id r2
  /\ BuoyImageRequest.date r1 = BuoyImageRequest.date r2.
Proof.
  intros Hd1 Hy1 Hd2 Hy2 Hout Hid1 Hid2 Hp1 Hp2.
  apply prefix_exists in Hp1 as [x Hx]. apply prefix_exists in Hp2 as [y Hy].
  rewrite Hx in Hy.
  unfold BuoyImageRequest.save_directory, BuoyImageRequest.date_string in Hy.
  rewrite Hout in Hy.
  apply (f_equal list_ascii_of_string) in Hy.
  rewrite !list_ascii_append in Hy. rewrite <- !app_assoc in Hy.
  apply app_inv_head in Hy. apply app_inv_head in Hy.
  change (list_ascii_of_string "/") with ["/"%char] in Hy.
  cbn [app] in Hy.
  apply first_sep_unique in Hy as [Hid Hrest]; [|done|done].
  apply app_inj_1 in Hrest as [Hds _];
    [|by rewrite !length_list_ascii, !date_string_length].
  split; [by apply list_ascii_inj|].
  apply list_ascii_inj in Hds. by apply date_string_inj.
Qed.

(** X21: requests do not touch each other's files.  For two requests
    under one output directory, with station ids free of "/" and times
    from the year 1000 on, that differ in station id or in minute: a fetch
    for the second, whatever it is given and however it ends, leaves every
    file under the save directory of the first as it was. *)
Theorem fetch_leaves_other_requests {A : Type} (env : Env)
    (r1 r2 : BuoyImageRequest.t) (buoy_data : BuoyData.t) (output_dir : A)
    (ocr_reader : option OCR.t) (w : World) (path : string) :
  0 <= BuoyImageRequest.date r1 < datetime.END ->
  1000 <= datetime.year (BuoyImageRequest.date r1) ->
  0 <= BuoyImageRequest.date r2 < datetime.END ->
  1000 <= datetime.year (BuoyImageRequest.date r2) ->
  BuoyImageRequest.output_root_dir r1 = BuoyImageRequest.output_root_dir r2 ->
  "/"%char ∉ list_ascii_of_string (BuoyImageRequest.id r1) ->
  "/"%char ∉ list_ascii_of_string (BuoyImageRequest.id r2) ->
  BuoyImageRequest.id r1 <> BuoyImageRequest.id r2
  \/ BuoyImageRequest.date r1 <> BuoyImageRequest.date r2 ->
  String.prefix (BuoyImageRequest.save_directory r1 +:+ "/") path = true ->
  files (fetch_and_process_image env r2 buoy_data output_dir ocr_reader w).2
    !! path
  = files w !! path.
Proof.
  intros Hd1 Hy1 Hd2 Hy2 Hout Hid1 Hid2 Hdiff Hp1.
  apply (fetch_preserves_outside env r2 buoy_data output_dir ocr_reader w).
  destruct (String.prefix (BuoyImageRequest.save_directory r2 +:+ "/") path)
    eqn:Hp2; [|reflexivity].
  destruct (save_directories_disjoint r1 r2 path) as [Hid Hdate]; try done.
  destruct Hdiff; done.
Qed.

Lemma fetch_leaves_other_requests_witness :
  files (fetch_and_process_image env_small_image
           (BuoyImageRequest.mk "41001" "41001" (Some "EAST") 1063995110
              "images")
           (BuoyData.init "41001") "images" None empty_world).2
    !! BuoyImageRequest.save_image_full_path request_east "full"
  = files empty_world
      !! BuoyImageRequest.save_image_full_path request_east "full".
Proof.
  apply (fetch_leaves_other_requests env_small_image request_east
           (BuoyImageRequest.mk "41001" "41001" (Some "EAST") 1063995110
              "images")).
  - split; [apply Z.leb_le | apply Z.ltb_lt]; reflexivity.
  - apply Z.leb_le. reflexivity.
  - split; [apply Z.leb_le | apply Z.ltb_lt]; reflexivity.
  - apply Z.leb_le. reflexivity.
  - reflexivity.
  - simpl. intros Hin.
    repeat (apply elem_of_cons in Hin as [Hin|Hin]; [discriminate|]).
    by apply elem_of_nil in Hin.
  - simpl. intros Hin.
    repeat (apply elem_of_cons in Hin as [Hin|Hin]; [discriminate|]).
    by apply elem_of_nil in Hin.
  - right. discriminate.
  - vm_compute. reflexivity.
Defined.

(** ** The quotient of two counts is a float *)













(** ** The result of fetching one image *)















(** ** What a fetch leaves on disk *)













Lemma files_after_lift {A} (r : Res A) : files_after (lift r) (fun fs => fs).
Proof. by intros w. Qed.










(** ** What the image phase leaves on disk *)






